(** * Append-once row migration of [datatransfer.js]

    A shallow embedding of the Apps Script macros that copy the rows of
    the sheet SA_DATA_MASTER into one tab per team number
    ([pushSADataToTeamSheets], [pushSADataToTeamSheets_FORCE]) and of
    their utilities ([resolveColumn], [findLastContentRow],
    [getOrCreateTrackingColumn]), followed by the properties that the
    specification states about them.

    Conventions of the embedding:
    - a cell value is a JavaScript value ([Value]): string, number,
      boolean, [null] or [undefined];
    - a string is a sequence of code units below 256 (the Latin-1 part
      of UTF-16); wider characters are outside the model;
    - a number is a decimal [m / 10^k] or one of NaN, +Infinity,
      -Infinity.  Every finite double is such a decimal; the rounding of
      binary floating point (more than 15 significant digits, magnitudes
      beyond the double range, the sign of zero) is not modelled;
    - a sheet is its grid of cells, a workbook maps tab names to sheets,
      and the script's handles on sheets ([src], [teamSheet]) are tab
      names, so that every write is seen through every handle;
    - cell formats, notes, [SpreadsheetApp.flush] and the text of the
      alerts are not modelled; a log line is kept as a structured entry. *)

From Stdlib Require Import ZArith String Ascii List Lia Bool DecimalPos DecimalString.
From stdpp Require Import base option list gmap strings.
Import ListNotations.

Local Open Scope string_scope.
Local Open Scope list_scope.
Local Open Scope Z_scope.

(** ** JavaScript values *)

Inductive Num : Type :=
| NaN
| PInf
| NInf
| Dec (m : Z) (k : nat).   (* the number m / 10^k *)

Inductive Value : Type :=
| VStr (s : string)
| VNum (n : Num)
| VBool (b : bool)
| VNull
| VUndef.

Definition int (z : Z) : Value := VNum (Dec z 0).

(** [x > 0], [x <= 0] and [isNaN(x)] on numbers. *)
Definition num_gt0 (n : Num) : bool :=
  match n with
  | PInf => true
  | Dec m _ => 0 <? m
  | NaN | NInf => false
  end.

Definition num_le0 (n : Num) : bool :=
  match n with
  | NInf => true
  | Dec m _ => m <=? 0
  | NaN | PInf => false
  end.

Definition isNaN (n : Num) : bool :=
  match n with NaN => true | _ => false end.

(** Strict equality [v === x] with a string, [true], [0], [null] and
    [undefined]. *)
Definition strict_eq_str (v : Value) (s : string) : bool :=
  match v with VStr t => String.eqb t s | _ => false end.

Definition strict_eq_true (v : Value) : bool :=
  match v with VBool true => true | _ => false end.

Definition strict_eq_zero (v : Value) : bool :=
  match v with VNum (Dec m _) => m =? 0 | _ => false end.

Definition strict_eq_null (v : Value) : bool :=
  match v with VNull => true | _ => false end.

Definition strict_eq_undef (v : Value) : bool :=
  match v with VUndef => true | _ => false end.

(** ToBoolean: what [!v] negates. *)
Definition truthy (v : Value) : bool :=
  match v with
  | VStr s => negb (String.eqb s "")
  | VNum NaN => false
  | VNum (Dec m _) => negb (m =? 0)
  | VNum _ => true
  | VBool b => b
  | VNull | VUndef => false
  end.

(** ** Strings as code units *)

Definition units (s : string) : list Z :=
  map (fun a => Z.of_nat (nat_of_ascii a)) (list_ascii_of_string s).

(** White space and line terminators below 256: TAB, LF, VT, FF, CR,
    SPACE and NO-BREAK SPACE. *)
Definition isWhiteSpace (c : Z) : bool :=
  ((9 <=? c) && (c <=? 13)) || (c =? 32) || (c =? 160).

Fixpoint trimStart (l : list Z) : list Z :=
  match l with
  | c :: r => if isWhiteSpace c then trimStart r else l
  | [] => []
  end.

Definition trim (l : list Z) : list Z := rev (trimStart (rev (trimStart l))).

(** [toUpperCase] on one code unit.  Two Latin-1 letters map outside
    Latin-1 (y with diaeresis, micro sign) and sharp s maps to "SS". *)
Definition upper_unit (c : Z) : list Z :=
  if (97 <=? c) && (c <=? 122) then [c - 32]
  else if c =? 181 then [924]
  else if c =? 223 then [83; 83]
  else if c =? 255 then [376]
  else if (224 <=? c) && (c <=? 254) && negb (c =? 247) then [c - 32]
  else [c].

Definition toUpperCase (l : list Z) : list Z := flat_map upper_unit l.

Definition isDigit (c : Z) : bool := (48 <=? c) && (c <=? 57).

(** The value of a sequence of digits in a base, most significant
    first; [None] when a unit is not a digit of that base. *)
Definition digitVal (c : Z) : option Z :=
  if isDigit c then Some (c - 48)
  else if (97 <=? c) && (c <=? 102) then Some (c - 87)
  else if (65 <=? c) && (c <=? 70) then Some (c - 55)
  else None.

Fixpoint digitsValue (base : Z) (l : list Z) (acc : Z) : option Z :=
  match l with
  | [] => Some acc
  | c :: r =>
      match digitVal c with
      | Some d => if d <? base then digitsValue base r (acc * base + d) else None
      | None => None
      end
  end.

(** ** Number to string: Number::toString of ECMAScript, radix 10 *)

Definition digits (p : positive) : list ascii :=
  list_ascii_of_string (NilEmpty.string_of_uint (Pos.to_uint p)).

Fixpoint dropZeros (l : list ascii) : list ascii :=
  match l with
  | c :: r => if Ascii.eqb c "0"%char then dropZeros r else l
  | [] => []
  end.

Definition natDigits (n : nat) : list ascii :=
  match n with
  | O => ["0"%char]
  | S _ => digits (Pos.of_nat n)
  end.

(** [n] is the position of the decimal point in the digit string of the
    value and [s] its significant digits. *)
Definition posToString (p : positive) (k : nat) : list ascii :=
  let ds := digits p in
  let n := Z.of_nat (length ds) - Z.of_nat k in
  let s := rev (dropZeros (rev ds)) in
  let k' := Z.of_nat (length s) in
  if (k' <=? n) && (n <=? 21) then
    s ++ replicate (Z.to_nat (n - k')) "0"%char
  else if (0 <? n) && (n <=? 21) then
    take (Z.to_nat n) s ++ "."%char :: drop (Z.to_nat n) s
  else if (-6 <? n) && (n <=? 0) then
    "0"%char :: "."%char :: replicate (Z.to_nat (- n)) "0"%char ++ s
  else
    let e := n - 1 in
    let es := (if e <? 0 then "-"%char else "+"%char) :: natDigits (Z.abs_nat e) in
    match s with
    | [d] => d :: "e"%char :: es
    | _ => take 1 s ++ "."%char :: drop 1 s ++ "e"%char :: es
    end.

Definition Number_toString (n : Num) : string :=
  match n with
  | NaN => "NaN"
  | PInf => "Infinity"
  | NInf => "-Infinity"
  | Dec Z0 _ => "0"
  | Dec (Zpos p) k => string_of_list_ascii (posToString p k)
  | Dec (Zneg p) k => string_of_list_ascii ("-"%char :: posToString p k)
  end.

(** ToString on values (template literals, [ref.toString()]). *)
Definition ToString (v : Value) : string :=
  match v with
  | VStr s => s
  | VNum n => Number_toString n
  | VBool true => "true"
  | VBool false => "false"
  | VNull => "null"
  | VUndef => "undefined"
  end.

(** ** String to number: the [Number(...)] conversion *)

Fixpoint spanDigits (l : list Z) : list Z * list Z :=
  match l with
  | c :: r =>
      if isDigit c then let '(ds, rest) := spanDigits r in (c :: ds, rest)
      else ([], l)
  | [] => ([], [])
  end.

Definition decValue (ds : list Z) : Z :=
  fold_left (fun acc c => acc * 10 + (c - 48)) ds 0.

(** Strips the trailing zeros of the mantissa while [k] allows. *)
Fixpoint normDec (m : Z) (k : nat) : Num :=
  match k with
  | O => Dec m 0
  | S k' => if m mod 10 =? 0 then normDec (m / 10) k' else Dec m k
  end.

(** The number [m * 10^x]. *)
Definition mkDec (m x : Z) : Num :=
  if 0 <=? x then Dec (m * 10 ^ x) 0 else normDec m (Z.to_nat (- x)).

(** The optional exponent part e[+-]digits that ends a decimal literal. *)
Definition parseExponent (l : list Z) : option Z :=
  match l with
  | [] => Some 0
  | c :: r =>
      if (c =? 101) || (c =? 69) then
        let '(sg, r') :=
          match r with
          | c' :: r' =>
              if c' =? 43 then (1, r') else if c' =? 45 then (-1, r') else (1, r)
          | [] => (1, r)
          end in
        match spanDigits r' with
        | (d :: ds, []) => Some (sg * decValue (d :: ds))
        | _ => None
        end
      else None
  end.

(** digits [. digits] [exponent], or . digits [exponent]. *)
Definition parseDecimal (l : list Z) : option Num :=
  let '(ip, r1) := spanDigits l in
  let '(fp, r2) :=
    match r1 with
    | c :: r => if c =? 46 then spanDigits r else ([], r1)
    | [] => ([], r1)
    end in
  match ip ++ fp with
  | [] => None
  | ds =>
      match parseExponent r2 with
      | Some x => Some (mkDec (decValue ds) (x - Z.of_nat (length fp)))
      | None => None
      end
  end.

Definition negNum (n : Num) : Num :=
  match n with
  | NaN => NaN
  | PInf => NInf
  | NInf => PInf
  | Dec m k => Dec (- m) k
  end.

Definition parseUnsigned (l : list Z) : Num :=
  if bool_decide (l = units "Infinity") then PInf
  else match parseDecimal l with Some n => n | None => NaN end.

Definition parseRadix (base : Z) (l : list Z) : Num :=
  match l with
  | [] => NaN
  | _ => match digitsValue base l 0 with Some z => Dec z 0 | None => NaN end
  end.

Definition StringToNumber (s : string) : Num :=
  match trim (units s) with
  | [] => Dec 0 0
  | c :: r =>
      if c =? 43 then parseUnsigned r
      else if c =? 45 then negNum (parseUnsigned r)
      else
        match r with
        | x :: r' =>
            if (c =? 48) && ((x =? 120) || (x =? 88)) then parseRadix 16 r'
            else if (c =? 48) && ((x =? 111) || (x =? 79)) then parseRadix 8 r'
            else if (c =? 48) && ((x =? 98) || (x =? 66)) then parseRadix 2 r'
            else parseUnsigned (c :: r)
        | [] => parseUnsigned (c :: r)
        end
  end.

Definition Number (v : Value) : Num :=
  match v with
  | VStr s => StringToNumber s
  | VNum n => n
  | VBool true => Dec 1 0
  | VBool false => Dec 0 0
  | VNull => Dec 0 0
  | VUndef => NaN
  end.

(** ** Configuration constants of the script *)

Definition SA_TEAM_COLUMN : Value := VStr "A".
Definition SA_SOURCE_SHEET : string := "SA_DATA_MASTER".
Definition SA_ROWS_GAP : nat := 5.
Definition SA_TRACKING_COL : string := "SA_PASTED".

(** ** resolveColumn (datatransfer.js, lines 169-184) *)

(** The loop over the letters: [code = s.charCodeAt(i) - 64]. *)
Fixpoint lettersLoop (s : list Z) (result : Z) : Value :=
  match s with
  | [] => int result
  | c :: rest =>
      let code := c - 64 in
      if (code <? 1) || (code >? 26) then VNull
      else lettersLoop rest (result * 26 + code)
  end.

(** The test of the regular expression ^\d+$. *)
Definition allDigits (s : list Z) : bool :=
  match s with
  | [] => false
  | _ => forallb isDigit s
  end.

(** [ref.toString()] is only reached for a truthy [ref] that is not a
    number, so [ToString] is never applied to [null] or [undefined]. *)
Definition resolveColumn (ref : Value) : Value :=
  if negb (truthy ref) && negb (strict_eq_zero ref) then VNull
  else
    match ref with
    | VNum n => if num_gt0 n then ref else VNull
    | _ =>
        let s := toUpperCase (trim (units (ToString ref))) in
        if allDigits s then int (decValue s)
        else lettersLoop s 0
    end.

(** ** Sheets and workbooks

    A sheet is the grid of its cells, row by row.  [getLastRow] and
    [getLastColumn] report the extent of the grid, which may overstate
    the content: trailing rows and cells that hold only the empty
    string stand for blank rows that are still reported.  A cell outside
    the grid reads as the empty string, as [getValues] gives it.  Rows
    and columns are numbered from 1, as in the spreadsheet API. *)

Local Open Scope nat_scope.

Abbreviation Sheet := (list (list Value)).
Abbreviation Workbook := (gmap string (list (list Value))).

Definition blank : Value := VStr "".

Definition getLastRow (sh : Sheet) : nat := length sh.

Definition getLastColumn (sh : Sheet) : nat :=
  foldr (fun row acc => Nat.max (length row) acc) 0 sh.

(** The cell at row [r], column [c] (both from 1). *)
Definition cellAt (sh : Sheet) (r c : nat) : Value :=
  match r, c with
  | S i, S j =>
      match sh !! i with
      | Some row => default blank (row !! j)
      | None => blank
      end
  | _, _ => blank
  end.

(** [sheet.getRange(row, col, numRows, numCols).getValues()]; [getRange]
    throws when the range does not start inside the numbering or is
    empty, which is [None] here. *)
Definition getValues (sh : Sheet) (row col numRows numCols : nat)
  : option (list (list Value)) :=
  if (row =? 0) || (col =? 0) || (numRows =? 0) || (numCols =? 0) then None
  else Some (map (fun r => map (fun c => cellAt sh r c) (seq col numCols))
                 (seq row numRows)).

Definition padTo {A : Type} (n : nat) (d : A) (l : list A) : list A :=
  l ++ replicate (n - length l) d.

(** Writes one cell, growing the grid when the cell lies outside it. *)
Definition setCell (r c : nat) (v : Value) (sh : Sheet) : Sheet :=
  match r, c with
  | S i, S j =>
      let sh' := padTo r [] sh in
      <[ i := <[ j := v ]> (padTo c blank (default [] (sh' !! i))) ]> sh'
  | _, _ => sh
  end.

(** [getRange(row, col).setValue(v)]. *)
Definition setValue (sh : Sheet) (row col : nat) (v : Value) : option Sheet :=
  if (row =? 0) || (col =? 0) then None else Some (setCell row col v sh).

Fixpoint setRowCells (r c : nat) (vals : list Value) (sh : Sheet) : Sheet :=
  match vals with
  | [] => sh
  | v :: vs => setRowCells r (S c) vs (setCell r c v sh)
  end.

(** [getRange(row, col, 1, vals.length).setValues([vals])]. *)
Definition setValues (sh : Sheet) (row col : nat) (vals : list Value)
  : option Sheet :=
  if (row =? 0) || (col =? 0) || (length vals =? 0) then None
  else Some (setRowCells row col vals sh).

(** [getRange(row, col, numRows, 1).clearContent()]. *)
Definition clearContent (sh : Sheet) (row col numRows : nat) : option Sheet :=
  if (row =? 0) || (col =? 0) || (numRows =? 0) then None
  else Some (foldl (fun s r => setCell r col blank s) sh (seq row numRows)).

(** [array[i]] for a nat index: [undefined] out of range. *)
Definition arrayGet (a : list Value) (i : nat) : Value :=
  default VUndef (a !! i).

(** [array[x - 1]] for a JavaScript number [x]: an element when [x - 1]
    is an index of the array, [undefined] otherwise. *)
Definition arrayGetPred (a : list Value) (x : Num) : Value :=
  match x with
  | Dec m k =>
      let d := (10 ^ Z.of_nat k)%Z in
      if ((m mod d =? 0) && (1 <=? m / d))%Z
      then arrayGet a (Z.to_nat (m / d - 1))
      else VUndef
  | _ => VUndef
  end.

(** ** findLastContentRow (datatransfer.js, lines 194-206) *)

(** The predicate of [data[r].some(...)]. *)
Definition cellHasContent (cell : Value) : bool :=
  negb (strict_eq_str cell "")
  && negb (strict_eq_null cell)
  && negb (strict_eq_undef cell).

Definition rowHasContent (row : list Value) : bool := existsb cellHasContent row.

(** The loop [for (r = data.length - 1; r >= 0; r--)], entered with
    [n = r + 1].  The index [r] is always inside [data]. *)
Fixpoint scanUp (data : list (list Value)) (n : nat) : nat :=
  match n with
  | O => 0
  | S r =>
      match data !! r with
      | Some row => if rowHasContent row then r + 1 else scanUp data r
      | None => scanUp data r
      end
  end.

Definition findLastContentRow (sh : Sheet) : option nat :=
  let lastRow := getLastRow sh in
  if lastRow =? 0 then Some 0
  else
    let lastCol := Nat.max (getLastColumn sh) 1 in
    match getValues sh 1 1 lastRow lastCol with
    | Some data => Some (scanUp data (length data))
    | None => None
    end.

(** ** getOrCreateTrackingColumn (datatransfer.js, lines 214-230) *)

(** The loop over the header row, entered at index [i]. *)
Fixpoint findTracking (headerRow : list Value) (i : nat) : option nat :=
  match headerRow with
  | [] => None
  | h :: rest =>
      if strict_eq_str h SA_TRACKING_COL then Some (i + 1)
      else findTracking rest (S i)
  end.

(** Returns the index and the sheet after the call; [None] when
    [getRange] throws. *)
Definition getOrCreateTrackingColumn (sh : Sheet) (currentLastCol : nat)
  : option (nat * Sheet) :=
  match getValues sh 1 1 1 currentLastCol with
  | Some (headerRow :: _) =>
      match findTracking headerRow 0 with
      | Some idx => Some (idx, sh)
      | None =>
          let newCol := currentLastCol + 1 in
          match setValue sh 1 newCol (VStr SA_TRACKING_COL) with
          | Some sh' => Some (newCol, sh')
          | None => None
          end
      end
  | _ => None
  end.

(** ** The row migration driver: pushSADataToTeamSheets
       (datatransfer.js, lines 35-140) *)

(** The lines pushed on [log], kept structured: the warning for a key
    that is not a valid team number, the creation of a tab, and the
    paste of a source row at a line of a team tab. *)
Inductive LogEntry : Type :=
| LogInvalid (row : nat) (rawTeam : Value)
| LogCreated (teamStr : string)
| LogPasted (teamStr : string) (row : nat) (pasteRow : nat).

(** The writes of the loop body that reach the spreadsheet service.  An
    oracle tells which of them fail at which row; a failing call throws
    and leaves the workbook as it was before the call. *)
Inductive IOp : Type := OpInsertSheet | OpPaste | OpMark.

Abbreviation Faults := (nat -> IOp -> bool).

Definition noFaults : Faults := fun _ _ => false.

(** What a handle on a sheet does to the workbook: [f] is applied to the
    sheet of that name; [None] when the call throws. *)
Definition updateSheet (name : string) (f : Sheet -> option Sheet)
  (w : Workbook) : option Workbook :=
  match w !! name with
  | Some sh =>
      match f sh with
      | Some sh' => Some (<[ name := sh' ]> w)
      | None => None
      end
  | None => None
  end.

Record LoopState : Type := mkLoopState {
  wb : Workbook;
  pushed : nat;
  skipped : nat;
  newSheets : nat;
  log : list LogEntry
}.

(** The result of one pass through the loop body: the loop goes on, or
    an exception leaves the workbook as the writes so far made it. *)
Inductive Step : Type :=
| Next (st : LoopState)
| Raise (w : Workbook).

Definition isMarked (trackVal : Value) : bool :=
  strict_eq_str trackVal SA_TRACKING_COL
  || strict_eq_true trackVal
  || strict_eq_str trackVal "TRUE".

Definition isEmptyKey (rawTeam : Value) : bool :=
  strict_eq_str rawTeam ""
  || strict_eq_null rawTeam
  || strict_eq_undef rawTeam.

(** [ss.getSheetByName(teamStr)], then [ss.insertSheet(teamStr)] when
    there is no such tab: the workbook, whether a tab was created. *)
Definition getOrInsertSheet (teamStr : string) (w : Workbook) : Workbook * bool :=
  match w !! teamStr with
  | Some _ => (w, false)
  | None => (<[ teamStr := [] ]> w, true)
  end.

(** The body of the loop for the row [row = allData[r]]. *)
Definition processRow (fails : Faults) (trackingColIndex : nat)
  (teamColIndex : Value) (r : nat) (row : list Value) (st : LoopState) : Step :=
  let trackVal := arrayGet row (trackingColIndex - 1) in
  if isMarked trackVal then
    Next (mkLoopState (wb st) (pushed st) (S (skipped st)) (newSheets st) (log st))
  else
    let rawTeam := arrayGetPred row (Number teamColIndex) in
    if isEmptyKey rawTeam then Next st
    else
      let teamNum := Number rawTeam in
      if isNaN teamNum || num_le0 teamNum then
        Next (mkLoopState (wb st) (pushed st) (skipped st) (newSheets st)
                (log st ++ [LogInvalid (r + 1) rawTeam]))
      else
        let teamStr := Number_toString teamNum in
        let '(w1, created) := getOrInsertSheet teamStr (wb st) in
        if created && fails r OpInsertSheet then Raise (wb st)
        else
          let newSheets1 := if created then S (newSheets st) else newSheets st in
          let log1 := if created then log st ++ [LogCreated teamStr] else log st in
          match w1 !! teamStr with
          | None => Raise w1
          | Some teamSheet =>
              match findLastContentRow teamSheet with
              | None => Raise w1
              | Some cursor =>
                  let pasteRow := cursor + SA_ROWS_GAP + 1 in
                  let dataToPaste := take (trackingColIndex - 1) row in
                  if fails r OpPaste then Raise w1
                  else
                    match updateSheet teamStr
                            (fun sh => setValues sh pasteRow 1 dataToPaste) w1 with
                    | None => Raise w1
                    | Some w2 =>
                        if fails r OpMark then Raise w2
                        else
                          match updateSheet SA_SOURCE_SHEET
                                  (fun sh => setValue sh (r + 1) trackingColIndex
                                               (VStr SA_TRACKING_COL)) w2 with
                          | None => Raise w2
                          | Some w3 =>
                              Next (mkLoopState w3 (S (pushed st)) (skipped st)
                                      newSheets1
                                      (log1 ++ [LogPasted teamStr (r + 1) pasteRow]))
                          end
                    end
              end
          end.

(** The result of the loop: it ran to its end, or it stopped at row
    index [r] with an exception. *)
Inductive LoopResult : Type :=
| Finished (st : LoopState)
| Aborted (w : Workbook) (r : nat).

(** [for (r = 1; r < allData.length; r++)] over the rows
    [rows = allData[r..]]. *)
Fixpoint loop (fails : Faults) (trackingColIndex : nat) (teamColIndex : Value)
  (r : nat) (rows : list (list Value)) (st : LoopState) : LoopResult :=
  match rows with
  | [] => Finished st
  | row :: rest =>
      match processRow fails trackingColIndex teamColIndex r row st with
      | Next st' => loop fails trackingColIndex teamColIndex (S r) rest st'
      | Raise w => Aborted w r
      end
  end.

(** How a run ends: one of the three early alerts, the summary with its
    counts and log, an exception (at a row of the loop, or before it),
    or, for the forced run without a source tab, a silent return. *)
Inductive Outcome : Type :=
| AlertNoSheet
| AlertNoData
| AlertBadColumn
| Summary (pushed skipped newSheets : nat) (log : list LogEntry)
| Exception (r : option nat)
| Returned.

(** The driver on the workbook [ss]: the workbook it leaves and how it
    ends.  The summary carries the counters and the whole [log], of
    which the alert shows the last 20 lines. *)
Definition pushSADataToTeamSheetsWith (fails : Faults) (ss : Workbook)
  : Workbook * Outcome :=
  match ss !! SA_SOURCE_SHEET with
  | None => (ss, AlertNoSheet)
  | Some src =>
      let lastCol := getLastColumn src in
      let lastRow := getLastRow src in
      if lastRow <? 2 then (ss, AlertNoData)
      else
        let teamColIndex := resolveColumn SA_TEAM_COLUMN in
        if negb (truthy teamColIndex) then (ss, AlertBadColumn)
        else
          match getOrCreateTrackingColumn src lastCol with
          | None => (ss, Exception None)
          | Some (trackingColIndex, src') =>
              let ss1 := <[ SA_SOURCE_SHEET := src' ]> ss in
              match getValues src' 1 1 lastRow trackingColIndex with
              | None => (ss1, Exception None)
              | Some allData =>
                  match loop fails trackingColIndex teamColIndex 1 (tail allData)
                          (mkLoopState ss1 0 0 0 []) with
                  | Finished st =>
                      (wb st, Summary (pushed st) (skipped st) (newSheets st) (log st))
                  | Aborted w r => (w, Exception (Some r))
                  end
              end
          end
  end.

(** The script as it runs when no call of the service fails. *)
Definition pushSADataToTeamSheets (ss : Workbook) : Workbook * Outcome :=
  pushSADataToTeamSheetsWith noFaults ss.

(** ** The forced re-paste: pushSADataToTeamSheets_FORCE
       (datatransfer.js, lines 146-160) *)

(** Without the source tab the function returns at once; otherwise it
    clears the tracking cells of the rows 2 to [lastRow], when there are
    such rows, and runs the driver. *)
Definition pushSADataToTeamSheets_FORCE_With (fails : Faults) (ss : Workbook)
  : Workbook * Outcome :=
  match ss !! SA_SOURCE_SHEET with
  | None => (ss, Returned)
  | Some src =>
      let lastRow := getLastRow src in
      match getOrCreateTrackingColumn src (getLastColumn src) with
      | None => (ss, Exception None)
      | Some (trackingColIndex, src1) =>
          let ss1 := <[ SA_SOURCE_SHEET := src1 ]> ss in
          if 1 <? lastRow then
            match updateSheet SA_SOURCE_SHEET
                    (fun sh => clearContent sh 2 trackingColIndex (lastRow - 1)) ss1 with
            | Some ss2 => pushSADataToTeamSheetsWith fails ss2
            | None => (ss1, Exception None)
            end
          else pushSADataToTeamSheetsWith fails ss1
      end
  end.

Definition pushSADataToTeamSheets_FORCE (ss : Workbook) : Workbook * Outcome :=
  pushSADataToTeamSheets_FORCE_With noFaults ss.

(** * Notions used in the statements, and example workbooks *)

(** Reading by indices from 0: a missing row is the empty row, a
    missing cell is blank. *)
Definition row0 (sh : Sheet) (i : nat) : list Value := default [] (sh !! i).
Definition cell0 (row : list Value) (j : nat) : Value := default blank (row !! j).

(** Row [r] of the sheet holds at least one non-empty cell. *)
Definition rowContent (sh : Sheet) (r : nat) : Prop :=
  exists c, cellHasContent (cellAt sh r c) = true.

(** A sheet of ten reported rows whose only content is in row 5; rows 6
    to 10 are blank. *)
Definition sheetContentRow5 : Sheet :=
  [ [blank; blank]; []; [blank]; []; [blank; VStr "x"];
    [blank; blank]; [blank]; []; [blank; blank]; [blank] ].

(** The letters whose upper case is one of A to Z: the ASCII letters and
    sharp s. *)
Definition isLetter (c : Z) : bool :=
  (((65 <=? c) && (c <=? 90)) || ((97 <=? c) && (c <=? 122)) || (c =? 223))%Z.

(** The header row as [getRange(1, 1, 1, n).getValues()[0]] reads it. *)
Definition headerRow (sh : Sheet) (n : nat) : list Value :=
  map (fun c => cellAt sh 1 c) (seq 1 n).

(** [idx] is the tracking column of the header of [sh]: it holds the
    reserved name and no column before it does. *)
Definition trackingAt (sh : Sheet) (idx : nat) : Prop :=
  0 < idx
  /\ cellAt sh 1 idx = VStr SA_TRACKING_COL
  /\ (forall c, 0 < c < idx -> cellAt sh 1 c <> VStr SA_TRACKING_COL).

(** A source tab before and after the tracking column is created. *)
Definition sheetTwoHeaders : Sheet :=
  [[VStr "Team"; VStr "Score"]; [int 254; int 10]].

Definition sheetThreeHeaders : Sheet :=
  [[VStr "Team"; VStr "Score"; VStr SA_TRACKING_COL]; [int 254; int 10]].

(** No character of the text is the letter S. *)
Definition noS (l : list ascii) : Prop := Forall (fun a => a <> "S"%char) l.

(** The cells that the body reads from the row: [row[trackingColIndex - 1]]
    and [row[teamColIndex - 1]], and the test on the converted key. *)
Definition trackValOf (trackingColIndex : nat) (row : list Value) : Value :=
  arrayGet row (trackingColIndex - 1).

Definition rawTeamOf (teamColIndex : Value) (row : list Value) : Value :=
  arrayGetPred row (Number teamColIndex).

Definition invalidTeam (rawTeam : Value) : bool :=
  isNaN (Number rawTeam) || num_le0 (Number rawTeam).

Definition teamStrOf (teamColIndex : Value) (row : list Value) : string :=
  Number_toString (Number (rawTeamOf teamColIndex row)).

(** A workbook whose tab 254 has its last content in row 5, and a source
    row for team 254 that is not migrated yet. *)
Definition exampleRow : list Value := [int 254; int 10; blank].

Definition exampleBook : Workbook :=
  <[ "254" := sheetContentRow5 ]>
    (<[ SA_SOURCE_SHEET :=
          [[VStr "Team"; VStr "Score"; VStr SA_TRACKING_COL]; exampleRow] ]> ∅).

Definition exampleState : LoopState := mkLoopState exampleBook 0 0 0 [].

Definition exampleStateAfter : LoopState :=
  match processRow noFaults 3 (int 1) 1 exampleRow exampleState with
  | Next st' => st'
  | Raise _ => exampleState
  end.

(** The rows that the body pastes: not marked, with a key that is not
    empty and converts to a number above zero. *)
Definition pushable (tci : nat) (tc : Value) (row : list Value) : bool :=
  negb (isMarked (trackValOf tci row))
  && negb (isEmptyKey (rawTeamOf tc row))
  && negb (invalidTeam (rawTeamOf tc row)).

(** The source tab after the loop has run over [rows] from index [r]:
    the tracking cell of every pasted row holds the mark. *)
Fixpoint markRows (tci : nat) (tc : Value) (r : nat) (rows : list (list Value))
  (s : Sheet) : Sheet :=
  match rows with
  | [] => s
  | row :: rest =>
      markRows tci tc (S r) rest
        (if pushable tci tc row
         then setCell (r + 1) tci (VStr SA_TRACKING_COL) s
         else s)
  end.

(** The number of elements of [l] that satisfy [p]. *)
Definition countb {A : Type} (p : A -> bool) (l : list A) : nat :=
  length (filter (fun x => p x = true) l).

(** Row [i] of a sheet as [getValues] reads it over [n] columns. *)
Definition snapRow (s : Sheet) (n i : nat) : list Value :=
  map (fun c => cellAt s i c) (seq 1 n).

(** The rows [allData[1..]] that the loop goes through. *)
Definition dataRows (s : Sheet) (n lastRow : nat) : list (list Value) :=
  map (snapRow s n) (seq 2 (lastRow - 1)).

(** A source tab of three data rows, none migrated: team 254, a key
    that is no number, then team 254 again. *)
Definition bookTwoRuns : Workbook :=
  <[ SA_SOURCE_SHEET :=
       [ [VStr "Team"; VStr "Score"];
         [int 254; int 10];
         [VStr "abc"; int 3];
         [VStr "254"; int 7] ] ]> ∅.

(** The number is a positive integer. *)
Definition isPositiveInteger (n : Num) : bool :=
  match n with
  | Dec m k => ((0 <? m) && (m mod 10 ^ Z.of_nat k =? 0))%Z
  | _ => false
  end.

(** A source tab whose only data row has the key 1.5, and one whose only
    data row is already marked and has the key "abc". *)
Definition bookFractionalKey : Workbook :=
  <[ SA_SOURCE_SHEET := [ [VStr "Team"; VStr "Score"]; [VNum (Dec 15 1); int 5] ] ]> ∅.

Definition bookMarkedInvalidKey : Workbook :=
  <[ SA_SOURCE_SHEET :=
       [ [VStr "Team"; VStr "Score"; VStr SA_TRACKING_COL];
         [VStr "abc"; int 5; VStr SA_TRACKING_COL] ] ]> ∅.

(** A source tab with a key that is no number followed by a valid row. *)
Definition bookInvalidThenValid : Workbook :=
  <[ SA_SOURCE_SHEET :=
       [ [VStr "Team"; VStr "Score"]; [VStr "abc"; int 3]; [int 254; int 10] ] ]> ∅.

(** A source tab whose only data row is marked and has an empty key,
    and one with an unmarked row with an empty key before a marked
    row. *)
Definition bookMarkedEmptyKey : Workbook :=
  <[ SA_SOURCE_SHEET :=
       [ [VStr "Team"; VStr "Score"; VStr SA_TRACKING_COL];
         [blank; int 5; VStr SA_TRACKING_COL] ] ]> ∅.

Definition bookEmptyKey : Workbook :=
  <[ SA_SOURCE_SHEET :=
       [ [VStr "Team"; VStr "Score"; VStr SA_TRACKING_COL];
         [blank; int 5; blank];
         [int 254; int 10; VStr SA_TRACKING_COL] ] ]> ∅.

(** The fault that makes the paste of row index [r0] fail. *)
Definition failPasteAt (r0 : nat) : Faults :=
  fun r op => match op with OpPaste => r =? r0 | _ => false end.

(** The tracking cells of the rows 2 to [lastRow], cleared. *)
Definition clearedFrom (sh : Sheet) (tci lastRow : nat) : Sheet :=
  foldl (fun s r => setCell r tci blank s) sh (seq 2 (lastRow - 1)).

(** Every tab other than the source tab is still there, and each of its
    cells that was non-empty holds the same value. *)
Definition keepsContent (w w' : Workbook) : Prop :=
  forall (name : string) (dst : Sheet),
    name <> SA_SOURCE_SHEET -> w !! name = Some dst ->
    exists dst', w' !! name = Some dst'
                 /\ forall r c, cellHasContent (cellAt dst r c) = true ->
                                cellAt dst' r c = cellAt dst r c.

(** A source tab of three rows for the teams 254, 1678 and 254, as a
    run of the driver leaves it: the rows are marked and the team tabs
    hold them. *)
Definition bookThreeMigrated : Workbook :=
  (pushSADataToTeamSheets
     (<[ SA_SOURCE_SHEET :=
           [ [VStr "Team"; VStr "Score"];
             [int 254; int 10]; [int 1678; int 3]; [VStr "254"; int 7] ] ]> ∅)).1.

Definition sheetThreeMigrated : Sheet :=
  [ [VStr "Team"; VStr "Score"; VStr SA_TRACKING_COL];
    [int 254; int 10; VStr SA_TRACKING_COL];
    [int 1678; int 3; VStr SA_TRACKING_COL];
    [VStr "254"; int 7; VStr SA_TRACKING_COL] ].

(** * Notions used in the further properties *)








(** The kinds of lines of the log. *)
Definition isLogPasted (e : LogEntry) : bool :=
  match e with LogPasted _ _ _ => true | _ => false end.

Definition isLogCreated (e : LogEntry) : bool :=
  match e with LogCreated _ => true | _ => false end.

Definition isLogInvalid (e : LogEntry) : bool :=
  match e with LogInvalid _ _ => true | _ => false end.

(** The tab that a line of the log names. *)
Definition logTab (e : LogEntry) : option string :=
  match e with
  | LogPasted t _ _ => Some t
  | LogCreated t => Some t
  | LogInvalid _ _ => None
  end.

(** The rows that the body warns about: not marked, with a key that is
    not empty and does not convert to a number above zero. *)
Definition warned (tci : nat) (tc : Value) (row : list Value) : bool :=
  negb (isMarked (trackValOf tci row))
  && negb (isEmptyKey (rawTeamOf tc row))
  && invalidTeam (rawTeamOf tc row).



(** A source tab that holds its header only. *)
Definition bookHeaderOnly : Workbook :=
  <[ SA_SOURCE_SHEET := [[VStr "Team"; VStr "Score"]] ]> ∅.



(** * Properties *)

(** ** Cells and writes *)

Lemma Some_pair_inj {A B : Type} (a a' : A) (b b' : B) :
  Some (a, b) = Some (a', b') -> a = a' /\ b = b'.
Proof. intros H. injection H. auto. Qed.

Lemma cellAt_cell0 (sh : Sheet) (i j : nat) :
  cellAt sh (S i) (S j) = cell0 (row0 sh i) j.
Proof.
  unfold cellAt, row0, cell0. destruct (sh !! i) as [row|]; simpl; [reflexivity|].
  reflexivity.
Qed.

Lemma cellAt_zero_l (sh : Sheet) (c : nat) : cellAt sh 0 c = blank.
Proof. reflexivity. Qed.

Lemma cellAt_zero_r (sh : Sheet) (r : nat) : cellAt sh r 0 = blank.
Proof. destruct r; reflexivity. Qed.

Lemma length_padTo {A : Type} (n : nat) (d : A) (l : list A) :
  length (padTo n d l) = Nat.max (length l) n.
Proof. unfold padTo. rewrite length_app, length_replicate. lia. Qed.

Lemma lookup_padTo {A : Type} (n : nat) (d : A) (l : list A) (i : nat) :
  padTo n d l !! i =
  if decide (i < length l) then l !! i
  else if decide (i < n) then Some d else None.
Proof.
  unfold padTo. destruct (decide (i < length l)) as [Hi|Hi].
  - apply lookup_app_l. exact Hi.
  - rewrite lookup_app_r by lia. destruct (decide (i < n)) as [Hn|Hn].
    + apply lookup_replicate_2. lia.
    + apply lookup_ge_None. rewrite length_replicate. lia.
Qed.

Lemma row0_padTo (n : nat) (sh : Sheet) (i : nat) :
  row0 (padTo n [] sh) i = row0 sh i.
Proof.
  unfold row0. rewrite lookup_padTo.
  destruct (decide (i < length sh)) as [Hi|Hi]; [reflexivity|].
  rewrite (lookup_ge_None_2 sh i) by lia.
  destruct (decide (i < n)); reflexivity.
Qed.

Lemma cell0_padTo (n : nat) (row : list Value) (j : nat) :
  cell0 (padTo n blank row) j = cell0 row j.
Proof.
  unfold cell0. rewrite lookup_padTo.
  destruct (decide (j < length row)) as [Hj|Hj]; [reflexivity|].
  rewrite (lookup_ge_None_2 row j) by lia.
  destruct (decide (j < n)); reflexivity.
Qed.

(** A write changes the written cell and no other. *)
Lemma cellAt_setCell (sh : Sheet) (r c : nat) (v : Value) (r' c' : nat) :
  0 < r -> 0 < c -> 0 < r' -> 0 < c' ->
  cellAt (setCell r c v sh) r' c' =
  if decide (r = r' /\ c = c') then v else cellAt sh r' c'.
Proof.
  intros Hr Hc Hr' Hc'.
  destruct r as [|i]; [lia|]. destruct c as [|j]; [lia|].
  destruct r' as [|i']; [lia|]. destruct c' as [|j']; [lia|].
  rewrite !cellAt_cell0. unfold setCell.
  set (sh' := padTo (S i) [] sh).
  assert (Hlen : i < length sh') by (unfold sh'; rewrite length_padTo; lia).
  assert (Hrow : default [] (sh' !! i) = row0 sh i)
    by (unfold sh'; apply (row0_padTo (S i) sh i)).
  rewrite Hrow.
  destruct (decide (i = i')) as [->|Hi].
  - unfold row0 at 1. rewrite list_lookup_insert_eq by exact Hlen. simpl.
    set (row := padTo (S j) blank (row0 sh i')).
    assert (Hj : j < length row) by (unfold row; rewrite length_padTo; lia).
    destruct (decide (j = j')) as [->|Hj'].
    + unfold cell0. rewrite list_lookup_insert_eq by exact Hj. simpl.
      rewrite decide_True by auto. reflexivity.
    + unfold cell0 at 1. rewrite list_lookup_insert_ne by exact Hj'.
      rewrite decide_False by (intros [_ E]; congruence).
      apply (cell0_padTo (S j) (row0 sh i') j').
  - unfold row0 at 1. rewrite list_lookup_insert_ne by exact Hi.
    rewrite decide_False by (intros [E _]; congruence).
    fold (row0 sh' i'). unfold sh'. rewrite row0_padTo. reflexivity.
Qed.

Lemma length_setCell (sh : Sheet) (r c : nat) (v : Value) :
  0 < c -> length (setCell r c v sh) = Nat.max (length sh) r.
Proof.
  intros Hc. destruct r as [|i]; [simpl; lia|]. destruct c as [|j]; [lia|].
  unfold setCell. rewrite length_insert, length_padTo. reflexivity.
Qed.

(** ** The reported extent of a sheet *)

Lemma getLastColumn_le (sh : Sheet) (n : nat) :
  getLastColumn sh <= n <-> Forall (fun row => length row <= n) sh.
Proof.
  unfold getLastColumn. induction sh as [|row sh IH]; simpl.
  - split; [constructor | lia].
  - rewrite Forall_cons, <- IH. lia.
Qed.

Lemma length_row_le (sh : Sheet) (i : nat) (row : list Value) :
  sh !! i = Some row -> length row <= getLastColumn sh.
Proof.
  intros Hrow.
  assert (H : Forall (fun row => length row <= getLastColumn sh) sh)
    by (apply getLastColumn_le; lia).
  rewrite Forall_lookup in H. exact (H i row Hrow).
Qed.

Lemma length_row0_le (sh : Sheet) (i : nat) :
  length (row0 sh i) <= getLastColumn sh.
Proof.
  unfold row0. destruct (sh !! i) as [row|] eqn:E; simpl; [|lia].
  exact (length_row_le sh i row E).
Qed.

(** Outside the reported extent every cell reads blank. *)
Lemma cellAt_beyond_columns (sh : Sheet) (r c : nat) :
  getLastColumn sh < c -> cellAt sh r c = blank.
Proof.
  intros Hc. destruct r as [|i]; [reflexivity|]. destruct c as [|j]; [lia|].
  rewrite cellAt_cell0. unfold cell0.
  rewrite lookup_ge_None_2; [reflexivity|].
  pose proof (length_row0_le sh i). lia.
Qed.

Lemma cellAt_beyond_rows (sh : Sheet) (r c : nat) :
  getLastRow sh < r -> cellAt sh r c = blank.
Proof.
  unfold getLastRow. intros Hr. destruct r as [|i]; [reflexivity|].
  destruct c as [|j]; [reflexivity|].
  unfold cellAt. rewrite lookup_ge_None_2 by lia. reflexivity.
Qed.

Lemma getLastColumn_setCell (sh : Sheet) (r c : nat) (v : Value) :
  0 < r -> 0 < c ->
  getLastColumn (setCell r c v sh) = Nat.max (getLastColumn sh) c.
Proof.
  intros Hr Hc. destruct r as [|i]; [lia|]. destruct c as [|j]; [lia|].
  assert (Hchar : forall n, getLastColumn (setCell (S i) (S j) v sh) <= n
                            <-> getLastColumn sh <= n /\ S j <= n).
  { intros n. rewrite !getLastColumn_le. unfold setCell.
    set (sh' := padTo (S i) [] sh).
    set (row := padTo (S j) blank (default [] (sh' !! i))).
    assert (Hlen : i < length sh') by (unfold sh'; rewrite length_padTo; lia).
    assert (Hrow : length (<[j:=v]> row) = Nat.max (length (row0 sh i)) (S j)).
    { rewrite length_insert. unfold row. rewrite length_padTo.
      unfold sh'. fold (row0 (padTo (S i) [] sh) i). rewrite row0_padTo.
      reflexivity. }
    rewrite !Forall_lookup. split.
    - intros H. split.
      + intros i' row' Hi'.
        destruct (decide (i = i')) as [->|Hne].
        * specialize (H i' (<[j:=v]> row)).
          rewrite list_lookup_insert_eq in H by exact Hlen.
          specialize (H eq_refl). rewrite Hrow in H.
          unfold row0 in H. rewrite Hi' in H. simpl in H. lia.
        * apply (H i'). rewrite list_lookup_insert_ne by exact Hne.
          unfold sh'. rewrite lookup_padTo.
          rewrite decide_True by (apply lookup_lt_Some in Hi'; exact Hi').
          exact Hi'.
      + specialize (H i (<[j:=v]> row)).
        rewrite list_lookup_insert_eq in H by exact Hlen.
        specialize (H eq_refl). rewrite Hrow in H. lia.
    - intros [H HS] i' row' Hi'.
      destruct (decide (i = i')) as [->|Hne].
      + rewrite list_lookup_insert_eq in Hi' by exact Hlen.
        injection Hi' as <-. rewrite Hrow.
        assert (length (row0 sh i') <= n).
        { unfold row0. destruct (sh !! i') as [x|] eqn:E; simpl; [|lia].
          exact (H i' x E). }
        lia.
      + rewrite list_lookup_insert_ne in Hi' by exact Hne.
        unfold sh' in Hi'. rewrite lookup_padTo in Hi'.
        destruct (decide (i' < length sh)); [exact (H i' row' Hi')|].
        destruct (decide (i' < S i)); [|discriminate].
        injection Hi' as <-. simpl. lia. }
  pose proof (proj1 (Hchar _) (Nat.le_refl _)) as [H1 H2].
  pose proof (proj2 (Hchar (Nat.max (getLastColumn sh) (S j)))) as H3.
  lia.
Qed.

Lemma getValues_Some (sh : Sheet) (numRows numCols : nat) :
  0 < numRows -> 0 < numCols ->
  getValues sh 1 1 numRows numCols =
  Some (map (fun r => map (fun c => cellAt sh r c) (seq 1 numCols)) (seq 1 numRows)).
Proof.
  intros Hr Hc. unfold getValues.
  destruct numRows; [lia|]. destruct numCols; [lia|]. reflexivity.
Qed.

(** ** The append cursor *)

Lemma cellHasContent_blank : cellHasContent blank = false.
Proof. reflexivity. Qed.

Lemma rowHasContent_read (sh : Sheet) (r n : nat) :
  getLastColumn sh <= n ->
  rowHasContent (map (fun c => cellAt sh r c) (seq 1 n)) = true <-> rowContent sh r.
Proof.
  intros Hn. unfold rowHasContent, rowContent. rewrite existsb_exists. split.
  - intros (v & Hin & Hv). apply in_map_iff in Hin as (c & <- & _). eauto.
  - intros (c & Hc). exists (cellAt sh r c). split; [|exact Hc].
    apply in_map_iff. exists c. split; [reflexivity|]. apply in_seq.
    destruct (decide (c = 0)) as [->|].
    { rewrite cellAt_zero_r, cellHasContent_blank in Hc. discriminate. }
    destruct (decide (n < c)) as [Hlt|].
    { rewrite cellAt_beyond_columns, cellHasContent_blank in Hc by lia. discriminate. }
    lia.
Qed.

Lemma scanUp_spec (sh : Sheet) (m n : nat) (data : list (list Value)) :
  getLastColumn sh <= m ->
  data = map (fun r => map (fun c => cellAt sh r c) (seq 1 m)) (seq 1 (length data)) ->
  n <= length data ->
  scanUp data n <= n
  /\ (forall r, scanUp data n < r <= n -> ~ rowContent sh r)
  /\ (scanUp data n = 0 \/ rowContent sh (scanUp data n)).
Proof.
  intros Hm Hdata. induction n as [|r IH]; intros Hn.
  - simpl. split; [lia|]. split; [intros; lia | left; reflexivity].
  - simpl.
    assert (Hrow : data !! r = Some (map (fun c => cellAt sh (S r) c) (seq 1 m))).
    { rewrite Hdata at 1. rewrite list_lookup_fmap.
      rewrite lookup_seq_lt by lia. reflexivity. }
    rewrite Hrow.
    destruct (rowHasContent _) eqn:E.
    + split; [lia|]. split; [intros; lia|]. right.
      replace (r + 1) with (S r) by lia.
      apply (rowHasContent_read sh (S r) m Hm). exact E.
    + destruct IH as (H1 & H2 & H3); [lia|].
      split; [lia|]. split; [|exact H3].
      intros r' Hr'. destruct (decide (r' = S r)) as [->|Hne].
      * intros Hc. apply (rowHasContent_read sh (S r) m Hm) in Hc. congruence.
      * apply H2. lia.
Qed.

Lemma findLastContentRow_spec (sh : Sheet) :
  exists k,
    findLastContentRow sh = Some k
    /\ k <= getLastRow sh
    /\ (forall r, k < r -> ~ rowContent sh r)
    /\ (k = 0 \/ rowContent sh k).
Proof.
  unfold findLastContentRow, getLastRow.
  destruct (length sh =? 0) eqn:E.
  - apply Nat.eqb_eq in E. exists 0. split; [reflexivity|]. split; [lia|].
    split; [|left; reflexivity].
    intros r Hr (c & Hc).
    rewrite cellAt_beyond_rows, cellHasContent_blank in Hc; [discriminate|].
    unfold getLastRow. lia.
  - apply Nat.eqb_neq in E.
    rewrite getValues_Some by lia.
    set (m := Nat.max (getLastColumn sh) 1).
    set (data := map _ (seq 1 (length sh))).
    assert (Hlen : length data = length sh)
      by (unfold data; rewrite length_map, length_seq; reflexivity).
    destruct (scanUp_spec sh m (length data) data) as (H1 & H2 & H3).
    { unfold m. lia. }
    { rewrite Hlen. reflexivity. }
    { lia. }
    exists (scanUp data (length data)). split; [reflexivity|].
    split; [lia|]. split; [|exact H3].
    intros r Hr. destruct (decide (r <= length data)) as [Hle|Hgt].
    + apply H2. lia.
    + intros (c & Hc).
      rewrite cellAt_beyond_rows, cellHasContent_blank in Hc; [discriminate|].
      unfold getLastRow. lia.
Qed.

(** C3: [findLastContentRow] always returns, and what it returns is the
    1-based index of the last row that holds a non-empty cell: no row
    with content lies after it, and it is 0 or a row with content inside
    the reported rows.  A sheet whose only content is in row 5 gives 5
    (also when ten rows are reported), a sheet without content gives 0. *)
Theorem findLastContentRow_last_content_row :
  (forall sh : Sheet, exists k,
      findLastContentRow sh = Some k
      /\ k <= getLastRow sh
      /\ (forall r, rowContent sh r -> r <= k)
      /\ (k = 0 \/ rowContent sh k))
  /\ (forall sh : Sheet,
        rowContent sh 5 -> (forall r, rowContent sh r -> r = 5) ->
        findLastContentRow sh = Some 5)
  /\ (forall sh : Sheet,
        (forall r, ~ rowContent sh r) -> findLastContentRow sh = Some 0)
  /\ (getLastRow sheetContentRow5 = 10
      /\ findLastContentRow sheetContentRow5 = Some 5)
  /\ findLastContentRow [] = Some 0.
Proof.
  split; [|split; [|split; [|split]]].
  - intros sh. destruct (findLastContentRow_spec sh) as (k & Hk & Hle & Hafter & Hat).
    exists k. split; [exact Hk|]. split; [exact Hle|]. split; [|exact Hat].
    intros r Hr. destruct (decide (r <= k)) as [|Hgt]; [assumption|].
    exfalso. apply (Hafter r); [lia | exact Hr].
  - intros sh H5 Honly.
    destruct (findLastContentRow_spec sh) as (k & Hk & _ & Hafter & Hat).
    rewrite Hk. f_equal.
    destruct Hat as [->|Hat].
    + exfalso. apply (Hafter 5); [lia | exact H5].
    + apply Honly. exact Hat.
  - intros sh Hnone.
    destruct (findLastContentRow_spec sh) as (k & Hk & _ & _ & Hat).
    rewrite Hk. f_equal. destruct Hat as [->|Hat]; [reflexivity|].
    exfalso. exact (Hnone k Hat).
  - split; reflexivity.
  - reflexivity.
Qed.

(** C10: in the scan for the append cursor a cell counts as non-empty
    exactly when it is neither the empty string nor [null] nor
    [undefined].  The number 0, [false] and a string of white space
    count as content, and a row holding only such a cell is a row the
    cursor stops at. *)
Theorem cellHasContent_only_empty_null_undefined :
  (forall v : Value,
      cellHasContent v = true <-> v <> VStr "" /\ v <> VNull /\ v <> VUndef)
  /\ cellHasContent (int 0) = true
  /\ cellHasContent (VBool false) = true
  /\ cellHasContent (VStr "  ") = true
  /\ (forall (sh : Sheet) (r c : nat) (v : Value),
        cellAt sh r c = v -> v <> VStr "" /\ v <> VNull /\ v <> VUndef ->
        exists k, findLastContentRow sh = Some k /\ r <= k)
  /\ findLastContentRow [[VStr "x"]; [int 0]; [blank]] = Some 2
  /\ findLastContentRow [[VStr "x"]; [blank; VBool false]; [blank]] = Some 2
  /\ findLastContentRow [[VStr "x"]; [VStr "  "]; [blank]] = Some 2.
Proof.
  assert (Hiff : forall v : Value,
             cellHasContent v = true <-> v <> VStr "" /\ v <> VNull /\ v <> VUndef).
  { intros v. unfold cellHasContent. destruct v as [s|n|b| |]; simpl.
    - destruct (String.eqb_spec s ""); simpl.
      + split; [discriminate|]. intros (H & _). subst. contradiction.
      + split; [|reflexivity]. intros _. repeat split; congruence.
    - split; [|reflexivity]. intros _. repeat split; discriminate.
    - split; [|reflexivity]. intros _. repeat split; discriminate.
    - split; [discriminate|]. intros (_ & H & _). contradiction.
    - split; [discriminate|]. intros (_ & _ & H). contradiction. }
  split; [exact Hiff|].
  split; [reflexivity|]. split; [reflexivity|]. split; [reflexivity|].
  split; [|repeat split; reflexivity].
  intros sh r c v Hv Hne.
  destruct (findLastContentRow_spec sh) as (k & Hk & _ & Hafter & _).
  exists k. split; [exact Hk|].
  destruct (decide (r <= k)) as [|Hgt]; [assumption|].
  exfalso. apply (Hafter r); [lia|]. exists c. rewrite Hv. apply Hiff. exact Hne.
Qed.

(** ** Column references *)

Lemma lettersLoop_not_letter (s : list Z) (result : Z) :
  Exists (fun c => (c < 65 \/ 90 < c)%Z) s -> lettersLoop s result = VNull.
Proof.
  revert result. induction s as [|c s IH]; intros result H.
  - inversion H.
  - simpl. destruct ((c - 64 <? 1)%Z || (c - 64 >? 26)%Z) eqn:E; [reflexivity|].
    apply IH. inversion H as [? ? Hc|? ? Hs]; subst; [|exact Hs].
    exfalso. apply orb_false_iff in E as [E1 E2]. lia.
Qed.

Lemma upper_unit_not_letter (c : Z) :
  isLetter c = false -> Exists (fun x => (x < 65 \/ 90 < x)%Z) (upper_unit c).
Proof.
  unfold isLetter, upper_unit. intros H.
  repeat match goal with
         | |- context [if ?b then _ else _] => destruct b eqn:?
         end;
    try (exfalso; lia); apply Exists_cons_hd; lia.
Qed.

Lemma upper_unit_digit (c : Z) : forallb isDigit (upper_unit c) = isDigit c.
Proof.
  unfold upper_unit, isDigit.
  repeat match goal with
         | |- context [if ?b then _ else _] => destruct b eqn:?
         end; simpl; lia.
Qed.

Lemma forallb_isDigit_toUpperCase (t : list Z) :
  forallb isDigit (toUpperCase t) = forallb isDigit t.
Proof.
  unfold toUpperCase. induction t as [|c t IH]; [reflexivity|].
  simpl. rewrite forallb_app, upper_unit_digit, IH. reflexivity.
Qed.

Lemma toUpperCase_nil (t : list Z) : toUpperCase t = [] <-> t = [].
Proof.
  split; [|intros ->; reflexivity].
  destruct t as [|c t]; [reflexivity|]. unfold toUpperCase. simpl.
  intros H. apply app_eq_nil in H as [H _]. exfalso. revert H.
  unfold upper_unit.
  repeat match goal with
         | |- context [if ?b then _ else _] => destruct b
         end; discriminate.
Qed.

Lemma allDigits_toUpperCase (t : list Z) :
  allDigits (toUpperCase t) = allDigits t.
Proof.
  unfold allDigits. pose proof (toUpperCase_nil t) as Hnil.
  pose proof (forallb_isDigit_toUpperCase t) as Hd.
  destruct (toUpperCase t) as [|x u]; destruct t as [|c t]; try reflexivity.
  - destruct Hnil as [H _]. discriminate (H eq_refl).
  - destruct Hnil as [_ H]. discriminate (H eq_refl).
  - exact Hd.
Qed.

Lemma toUpperCase_not_letter (t : list Z) :
  Exists (fun c => isLetter c = false) t ->
  Exists (fun x => (x < 65 \/ 90 < x)%Z) (toUpperCase t).
Proof.
  unfold toUpperCase. induction 1 as [c t Hc|c t _ IH]; simpl; apply Exists_app.
  - left. apply upper_unit_not_letter. exact Hc.
  - right. exact IH.
Qed.

Lemma resolveColumn_string (s : string) :
  s <> "" ->
  resolveColumn (VStr s) =
  let u := toUpperCase (trim (units s)) in
  if allDigits u then int (decValue u) else lettersLoop u 0.
Proof.
  intros Hs. unfold resolveColumn. simpl.
  destruct (String.eqb_spec s ""); [contradiction|]. reflexivity.
Qed.

(** C4, the claim as stated fails: a blank string gives 0 and not the
    sentinel [null], and a letter between white space, a string that
    holds characters that are not letters, gives a valid index. *)
Lemma resolveColumn_blank_and_padded :
  resolveColumn (VStr "   ") = int 0
  /\ resolveColumn (VStr "   ") <> VNull
  /\ resolveColumn (VStr " A ") = int 1.
Proof. split; [reflexivity|]. split; [discriminate | reflexivity]. Qed.

(** C4 (amended): [resolveColumn] maps "A", "Z", "AA" and "3" to 1, 26,
    27 and 3.  It returns [null] for every number that is not above
    zero, for the empty string, and for every string that, once the
    white space around it is trimmed, is not a digit string and holds a
    character that is not a letter ("A1" is one).  A string of white
    space alone gives 0, which is falsy like [null] and which the driver
    rejects with the same test.  The function reads and writes no state:
    it is a function of its argument. *)
Theorem resolveColumn_cases :
  resolveColumn (VStr "A") = int 1
  /\ resolveColumn (VStr "Z") = int 26
  /\ resolveColumn (VStr "AA") = int 27
  /\ resolveColumn (VStr "3") = int 3
  /\ resolveColumn (VStr "") = VNull
  /\ resolveColumn (VStr "A1") = VNull
  /\ (forall n : Num, num_gt0 n = false -> resolveColumn (VNum n) = VNull)
  /\ (forall (m : Z) (k : nat), (m <= 0)%Z -> resolveColumn (VNum (Dec m k)) = VNull)
  /\ (forall s : string,
        s <> "" -> trim (units s) = [] ->
        resolveColumn (VStr s) = int 0 /\ truthy (resolveColumn (VStr s)) = false)
  /\ (forall s : string,
        allDigits (trim (units s)) = false ->
        Exists (fun c => isLetter c = false) (trim (units s)) ->
        resolveColumn (VStr s) = VNull).
Proof.
  assert (Hnum : forall n : Num, num_gt0 n = false -> resolveColumn (VNum n) = VNull).
  { intros n Hn. unfold resolveColumn. rewrite Hn.
    destruct (negb (truthy (VNum n)) && negb (strict_eq_zero (VNum n))); reflexivity. }
  repeat (split; [reflexivity|]).
  split; [exact Hnum|]. split; [|split].
  - intros m k Hm. apply Hnum. simpl. lia.
  - intros s Hs Hblank. rewrite resolveColumn_string by exact Hs.
    rewrite Hblank. split; reflexivity.
  - intros s Hd Hex.
    destruct (String.eqb_spec s "") as [->|Hs]; [reflexivity|].
    rewrite resolveColumn_string by exact Hs. cbv zeta.
    rewrite allDigits_toUpperCase, Hd.
    apply lettersLoop_not_letter, toUpperCase_not_letter. exact Hex.
Qed.

(** The amended statement at concrete references. *)
Lemma resolveColumn_cases_witness :
  resolveColumn (VNum (Dec (-3) 0)) = VNull
  /\ resolveColumn (VStr "B 2") = VNull.
Proof.
  destruct resolveColumn_cases as (_ & _ & _ & _ & _ & _ & _ & Hneg & _ & Hbad).
  split.
  - apply Hneg. lia.
  - apply Hbad; [reflexivity|].
    apply Exists_cons_tl, Exists_cons_hd. reflexivity.
Defined.

(** ** The tracking column *)

Lemma strict_eq_str_true (v : Value) (s : string) :
  strict_eq_str v s = true <-> v = VStr s.
Proof.
  destruct v as [t|n|b| |]; simpl; try (split; [discriminate|discriminate]).
  destruct (String.eqb_spec t s); split; congruence.
Qed.

(** [findTracking] returns the first index that holds the reserved name. *)
Lemma findTracking_Some (l : list Value) (i k : nat) :
  findTracking l i = Some k <->
  exists j, k = i + j + 1
            /\ l !! j = Some (VStr SA_TRACKING_COL)
            /\ (forall j' v, j' < j -> l !! j' = Some v ->
                             strict_eq_str v SA_TRACKING_COL = false).
Proof.
  revert i. induction l as [|h l IH]; intros i; simpl.
  - split; [discriminate|]. intros (j & _ & H & _). discriminate.
  - destruct (strict_eq_str h SA_TRACKING_COL) eqn:E.
    + split.
      * intros [= <-]. exists 0. split; [lia|]. split.
        -- simpl. f_equal. apply strict_eq_str_true. exact E.
        -- intros; lia.
      * intros (j & -> & Hj & Hbefore). destruct j as [|j]; [f_equal; lia|].
        specialize (Hbefore 0 h ltac:(lia) eq_refl). congruence.
    + rewrite IH. split.
      * intros (j & -> & Hj & Hbefore). exists (S j). split; [lia|].
        split; [exact Hj|]. intros [|j'] v Hlt Hv.
        -- simpl in Hv. injection Hv as <-. exact E.
        -- apply (Hbefore j'); [lia | exact Hv].
      * intros (j & -> & Hj & Hbefore). destruct j as [|j].
        -- simpl in Hj. injection Hj as ->. discriminate.
        -- exists j. split; [lia|]. split; [exact Hj|].
           intros j' v Hlt Hv. apply (Hbefore (S j')); [lia | exact Hv].
Qed.

Lemma findTracking_None (l : list Value) (i : nat) :
  findTracking l i = None <->
  Forall (fun v => strict_eq_str v SA_TRACKING_COL = false) l.
Proof.
  revert i. induction l as [|h l IH]; intros i; simpl.
  - split; [constructor | reflexivity].
  - rewrite Forall_cons. destruct (strict_eq_str h SA_TRACKING_COL).
    + split; [discriminate | intros [H _]; discriminate].
    + rewrite IH. tauto.
Qed.

Lemma lookup_headerRow (sh : Sheet) (n j : nat) :
  j < n -> headerRow sh n !! j = Some (cellAt sh 1 (S j)).
Proof.
  intros Hj. unfold headerRow. rewrite list_lookup_fmap.
  rewrite lookup_seq_lt by exact Hj. reflexivity.
Qed.

Lemma length_headerRow (sh : Sheet) (n : nat) : length (headerRow sh n) = n.
Proof. unfold headerRow. rewrite length_map, length_seq. reflexivity. Qed.

Lemma getOrCreateTrackingColumn_unfold (sh : Sheet) (n : nat) :
  0 < n ->
  getOrCreateTrackingColumn sh n =
  match findTracking (headerRow sh n) 0 with
  | Some idx => Some (idx, sh)
  | None => Some (n + 1, setCell 1 (n + 1) (VStr SA_TRACKING_COL) sh)
  end.
Proof.
  intros Hn. unfold getOrCreateTrackingColumn, getValues, setValue.
  destruct n as [|n]; [lia|]. simpl.
  fold (headerRow sh (S n)).
  destruct (findTracking (headerRow sh (S n)) 0); [reflexivity|].
  replace (n + 1 =? 0) with false by (symmetry; apply Nat.eqb_neq; lia).
  replace (S (n + 1)) with (S n + 1) by lia. reflexivity.
Qed.

Lemma getOrCreateTrackingColumn_zero (sh : Sheet) :
  getOrCreateTrackingColumn sh 0 = None.
Proof. reflexivity. Qed.

Lemma findTracking_headerRow (sh : Sheet) (n idx : nat) :
  findTracking (headerRow sh n) 0 = Some idx <-> trackingAt sh idx /\ idx <= n.
Proof.
  rewrite findTracking_Some. split.
  - intros (j & -> & Hj & Hbefore).
    assert (Hjn : j < n).
    { apply lookup_lt_Some in Hj. rewrite length_headerRow in Hj. exact Hj. }
    rewrite lookup_headerRow in Hj by exact Hjn. injection Hj as Hj.
    split; [|lia]. split; [lia|]. split.
    + replace (0 + j + 1) with (S j) by lia. exact Hj.
    + intros c Hc Heq. destruct c as [|c]; [lia|].
      specialize (Hbefore c (cellAt sh 1 (S c)) ltac:(lia)).
      rewrite lookup_headerRow in Hbefore by lia.
      specialize (Hbefore eq_refl). rewrite Heq in Hbefore. discriminate.
  - intros [(Hpos & Hat & Hbefore) Hle]. destruct idx as [|j]; [lia|].
    exists j. split; [lia|]. split.
    + rewrite lookup_headerRow by lia. f_equal. exact Hat.
    + intros j' v Hlt Hv. rewrite lookup_headerRow in Hv by lia.
      injection Hv as <-. apply not_true_iff_false. intros E.
      apply strict_eq_str_true in E. apply (Hbefore (S j')); [lia | exact E].
Qed.

(** What a successful call establishes. *)
Lemma getOrCreateTrackingColumn_post (sh : Sheet) (n idx : nat) (sh' : Sheet) :
  getLastColumn sh <= n ->
  getOrCreateTrackingColumn sh n = Some (idx, sh') ->
  trackingAt sh' idx
  /\ (sh' = sh /\ idx <= n
      \/ sh' = setCell 1 idx (VStr SA_TRACKING_COL) sh /\ idx = n + 1
         /\ forall c, cellAt sh 1 c <> VStr SA_TRACKING_COL).
Proof.
  intros Hn H. destruct n as [|n]; [discriminate|].
  rewrite getOrCreateTrackingColumn_unfold in H by lia.
  destruct (findTracking (headerRow sh (S n)) 0) as [k|] eqn:E.
  - apply Some_pair_inj in H as [<- <-]. apply findTracking_headerRow in E as [Ht Hle].
    split; [exact Ht|]. left. split; [reflexivity | exact Hle].
  - apply Some_pair_inj in H as [<- <-].
    assert (Hno : forall c, cellAt sh 1 c <> VStr SA_TRACKING_COL).
    { intros c Heq. rewrite findTracking_None, Forall_lookup in E.
      destruct c as [|c]; [rewrite cellAt_zero_r in Heq; discriminate|].
      destruct (decide (c < S n)) as [Hc|Hc].
      - specialize (E c (cellAt sh 1 (S c)) (lookup_headerRow sh (S n) c Hc)).
        rewrite Heq in E. discriminate.
      - rewrite cellAt_beyond_columns in Heq by lia. discriminate. }
    split.
    + split; [lia|]. split.
      * rewrite cellAt_setCell by lia. rewrite decide_True by auto. reflexivity.
      * intros c Hc. rewrite cellAt_setCell by lia.
        rewrite decide_False by lia. apply Hno.
    + right. split; [reflexivity|]. split; [reflexivity | exact Hno].
Qed.

(** A sheet whose header shows the tracking column at [idx] is left as
    it is by the call, which returns [idx]. *)
Lemma getOrCreateTrackingColumn_found (s : Sheet) (m idx : nat) :
  trackingAt s idx -> idx <= m ->
  getOrCreateTrackingColumn s m = Some (idx, s).
Proof.
  intros Ht Hle. pose proof Ht as (Hpos & _).
  rewrite getOrCreateTrackingColumn_unfold by lia.
  rewrite (proj2 (findTracking_headerRow s m idx) (conj Ht Hle)). reflexivity.
Qed.

Lemma trackingAt_le_getLastColumn (sh : Sheet) (idx : nat) :
  trackingAt sh idx -> idx <= getLastColumn sh.
Proof.
  intros (_ & Hat & _). destruct (decide (idx <= getLastColumn sh)); [assumption|].
  rewrite cellAt_beyond_columns in Hat by lia. discriminate.
Qed.

(** A header that holds the reserved name has a first column that
    holds it, inside the reported columns. *)
Lemma trackingAt_exists (sh : Sheet) :
  (exists c, cellAt sh 1 c = VStr SA_TRACKING_COL) ->
  exists idx, trackingAt sh idx /\ idx <= getLastColumn sh.
Proof.
  intros (c & Hc).
  destruct (findTracking (headerRow sh (getLastColumn sh)) 0) as [idx|] eqn:E.
  - exists idx. apply findTracking_headerRow. exact E.
  - exfalso. rewrite findTracking_None, Forall_lookup in E.
    destruct c as [|j]; [rewrite cellAt_zero_r in Hc; discriminate|].
    destruct (decide (j < getLastColumn sh)) as [Hj|Hj].
    + specialize (E j _ (lookup_headerRow sh _ j Hj)). rewrite Hc in E. discriminate.
    + rewrite cellAt_beyond_columns in Hc by lia. discriminate.
Qed.

(** C8: [getOrCreateTrackingColumn] is idempotent.  When the header
    already holds the reserved name the call returns the index of the
    first column that holds it and leaves the sheet as it is.  When the
    header does not hold it, the call writes it into the column after
    the last one and changes no other cell, so that column is the only
    tracking column.  After a call that returned, whether it found or
    created the column, the next call, and every call given at least
    that many columns, returns the same index and leaves the sheet as
    it is: no second tracking column is created. *)
Theorem getOrCreateTrackingColumn_idempotent :
  (forall sh : Sheet,
      (exists c, cellAt sh 1 c = VStr SA_TRACKING_COL) ->
      exists idx,
        getOrCreateTrackingColumn sh (getLastColumn sh) = Some (idx, sh)
        /\ trackingAt sh idx)
  /\ (forall sh : Sheet,
        1 <= getLastColumn sh ->
        (forall c, cellAt sh 1 c <> VStr SA_TRACKING_COL) ->
        exists sh',
          getOrCreateTrackingColumn sh (getLastColumn sh)
          = Some (getLastColumn sh + 1, sh')
          /\ (forall c, cellAt sh' 1 c = VStr SA_TRACKING_COL
                        <-> c = getLastColumn sh + 1)
          /\ (forall r c, 0 < r -> 0 < c ->
                          ~ (r = 1 /\ c = getLastColumn sh + 1) ->
                          cellAt sh' r c = cellAt sh r c))
  /\ (forall (sh : Sheet) (idx : nat) (sh' : Sheet),
        getOrCreateTrackingColumn sh (getLastColumn sh) = Some (idx, sh') ->
        getOrCreateTrackingColumn sh' (getLastColumn sh') = Some (idx, sh')
        /\ (forall n, idx <= n ->
                      getOrCreateTrackingColumn sh' n = Some (idx, sh'))).
Proof.
  split; [|split].
  - intros sh Hex. destruct (trackingAt_exists sh Hex) as (idx & Ht & Hle).
    exists idx. split; [|exact Ht].
    apply getOrCreateTrackingColumn_found; assumption.
  - intros sh Hcols Hno. rewrite getOrCreateTrackingColumn_unfold by lia.
    assert (Hnone : findTracking (headerRow sh (getLastColumn sh)) 0 = None).
    { apply findTracking_None, Forall_lookup. intros j v Hj.
      assert (Hjn : j < getLastColumn sh)
        by (apply lookup_lt_Some in Hj; rewrite length_headerRow in Hj; exact Hj).
      rewrite lookup_headerRow in Hj by exact Hjn. injection Hj as <-.
      apply not_true_iff_false. intros E. apply strict_eq_str_true in E.
      exact (Hno (S j) E). }
    rewrite Hnone. eexists. split; [reflexivity|]. split.
    + intros c. split.
      * intros Hc. destruct (decide (c = getLastColumn sh + 1)) as [|Hne];
          [assumption|].
        exfalso. destruct c as [|c]; [rewrite cellAt_zero_r in Hc; discriminate|].
        rewrite cellAt_setCell in Hc by lia.
        rewrite decide_False in Hc by lia. exact (Hno _ Hc).
      * intros ->. rewrite cellAt_setCell by lia.
        rewrite decide_True by auto. reflexivity.
    + intros r c Hr Hc Hne. rewrite cellAt_setCell by lia.
      rewrite decide_False by lia. reflexivity.
  - intros sh idx sh' H.
    destruct (getOrCreateTrackingColumn_post sh _ idx sh' (Nat.le_refl _) H)
      as [Ht _].
    split.
    + apply getOrCreateTrackingColumn_found; [exact Ht|].
      apply trackingAt_le_getLastColumn. exact Ht.
    + intros n Hn. apply getOrCreateTrackingColumn_found; assumption.
Qed.

(** The call on a sheet with two header cells creates column 3; the call
    after it finds column 3. *)
Lemma getOrCreateTrackingColumn_idempotent_witness :
  getOrCreateTrackingColumn sheetTwoHeaders (getLastColumn sheetTwoHeaders)
  = Some (3, sheetThreeHeaders)
  /\ getOrCreateTrackingColumn sheetThreeHeaders (getLastColumn sheetThreeHeaders)
     = Some (3, sheetThreeHeaders).
Proof.
  split; [reflexivity|].
  destruct getOrCreateTrackingColumn_idempotent as (_ & _ & H).
  destruct (H sheetTwoHeaders 3 sheetThreeHeaders eq_refl) as (H2 & _).
  exact H2.
Defined.

(** ** The name of a team tab is never the name of the source tab *)

Lemma noS_digits (p : positive) : noS (digits p).
Proof.
  unfold digits, noS. generalize (Pos.to_uint p). intros u.
  induction u; simpl; constructor; try assumption; discriminate.
Qed.

Lemma noS_dropZeros (l : list ascii) : noS l -> noS (dropZeros l).
Proof.
  unfold noS. induction 1 as [|a l Ha Hl IH]; simpl; [constructor|].
  destruct (Ascii.eqb a "0"); [exact IH | constructor; assumption].
Qed.

Lemma noS_natDigits (n : nat) : noS (natDigits n).
Proof.
  destruct n; simpl; [|apply noS_digits].
  constructor; [discriminate | constructor].
Qed.

Lemma noS_posToString (p : positive) (k : nat) : noS (posToString p k).
Proof.
  unfold posToString.
  set (s := rev (dropZeros (rev (digits p)))).
  assert (Hs : noS s).
  { unfold s. apply Forall_rev, noS_dropZeros, Forall_rev, noS_digits. }
  clearbody s.
  assert (Hz : forall n, noS (replicate n "0"%char)).
  { intros n. apply Forall_replicate. discriminate. }
  pose proof noS_natDigits as Hn.
  unfold noS in *.
  repeat match goal with
         | |- context [if ?b then _ else _] => destruct b
         end;
    try (destruct s as [|d [|d' s']]; [| inversion Hs; subst |]);
    repeat first
      [ assumption
      | apply Hz
      | apply Hn
      | apply Forall_take; assumption
      | apply Forall_drop; assumption
      | apply Forall_app; split
      | apply List.Forall_nil
      | apply List.Forall_cons; [first [assumption | discriminate] |] ].
Qed.

(** A key that passes the test of the driver names a tab other than
    SA_DATA_MASTER. *)
Lemma Number_toString_not_source (n : Num) :
  isNaN n || num_le0 n = false -> Number_toString n <> SA_SOURCE_SHEET.
Proof.
  destruct n as [| | |m k]; simpl; try discriminate.
  destruct m as [|p|p]; simpl; try discriminate.
  intros _ H.
  assert (Hl : posToString p k = list_ascii_of_string SA_SOURCE_SHEET).
  { rewrite <- H, list_ascii_of_string_of_list_ascii. reflexivity. }
  pose proof (noS_posToString p k) as Hs. rewrite Hl in Hs.
  inversion Hs as [|? ? Hhd _]. apply Hhd. reflexivity.
Qed.

(** ** One pass through the loop body *)

Lemma getOrInsertSheet_lookup (teamStr : string) (w : Workbook) :
  (getOrInsertSheet teamStr w).1 !! teamStr = Some (default [] (w !! teamStr)).
Proof.
  unfold getOrInsertSheet. destruct (w !! teamStr) as [sh|] eqn:E; simpl.
  - exact E.
  - apply lookup_insert_eq.
Qed.

Lemma getOrInsertSheet_lookup_ne (teamStr name : string) (w : Workbook) :
  teamStr <> name -> (getOrInsertSheet teamStr w).1 !! name = w !! name.
Proof.
  intros Hne. unfold getOrInsertSheet. destruct (w !! teamStr); simpl.
  - reflexivity.
  - apply lookup_insert_ne. exact Hne.
Qed.

Section Body.

Variable fails : Faults.
Variable trackingColIndex : nat.
Variable teamColIndex : Value.
Variable r : nat.
Variable row : list Value.
Variable st : LoopState.

Lemma processRow_marked :
  isMarked (trackValOf trackingColIndex row) = true ->
  processRow fails trackingColIndex teamColIndex r row st =
  Next (mkLoopState (wb st) (pushed st) (S (skipped st)) (newSheets st) (log st)).
Proof.
  intros H. unfold processRow. fold (trackValOf trackingColIndex row).
  rewrite H. reflexivity.
Qed.

Lemma processRow_empty_key :
  isMarked (trackValOf trackingColIndex row) = false ->
  isEmptyKey (rawTeamOf teamColIndex row) = true ->
  processRow fails trackingColIndex teamColIndex r row st = Next st.
Proof.
  intros H1 H2. unfold processRow. fold (trackValOf trackingColIndex row).
  rewrite H1. fold (rawTeamOf teamColIndex row). rewrite H2. reflexivity.
Qed.

Lemma processRow_invalid :
  isMarked (trackValOf trackingColIndex row) = false ->
  isEmptyKey (rawTeamOf teamColIndex row) = false ->
  invalidTeam (rawTeamOf teamColIndex row) = true ->
  processRow fails trackingColIndex teamColIndex r row st =
  Next (mkLoopState (wb st) (pushed st) (skipped st) (newSheets st)
          (log st ++ [LogInvalid (r + 1) (rawTeamOf teamColIndex row)])).
Proof.
  intros H1 H2 H3. unfold processRow. fold (trackValOf trackingColIndex row).
  rewrite H1. fold (rawTeamOf teamColIndex row). rewrite H2.
  fold (invalidTeam (rawTeamOf teamColIndex row)). rewrite H3. reflexivity.
Qed.

Hypothesis Hunmarked : isMarked (trackValOf trackingColIndex row) = false.
Hypothesis Hkey : isEmptyKey (rawTeamOf teamColIndex row) = false.
Hypothesis Hvalid : invalidTeam (rawTeamOf teamColIndex row) = false.

Let teamStr := teamStrOf teamColIndex row.
Let w1 := (getOrInsertSheet teamStr (wb st)).1.
Let created := (getOrInsertSheet teamStr (wb st)).2.

Lemma teamStr_not_source : teamStr <> SA_SOURCE_SHEET.
Proof. apply Number_toString_not_source. exact Hvalid. Qed.

(** The body on a row with a valid key, as the chain of its calls. *)
Lemma processRow_valid :
  processRow fails trackingColIndex teamColIndex r row st =
  if created && fails r OpInsertSheet then Raise (wb st)
  else
    match findLastContentRow (default [] (wb st !! teamStr)) with
    | None => Raise w1
    | Some cursor =>
        let pasteRow := cursor + SA_ROWS_GAP + 1 in
        if fails r OpPaste then Raise w1
        else
          match setValues (default [] (wb st !! teamStr)) pasteRow 1
                  (take (trackingColIndex - 1) row) with
          | None => Raise w1
          | Some dst' =>
              let w2 := <[ teamStr := dst' ]> w1 in
              if fails r OpMark then Raise w2
              else
                match wb st !! SA_SOURCE_SHEET with
                | None => Raise w2
                | Some s =>
                    if trackingColIndex =? 0 then Raise w2
                    else
                      Next (mkLoopState
                              (<[ SA_SOURCE_SHEET :=
                                    setCell (r + 1) trackingColIndex
                                      (VStr SA_TRACKING_COL) s ]> w2)
                              (S (pushed st)) (skipped st)
                              (if created then S (newSheets st) else newSheets st)
                              ((if created then log st ++ [LogCreated teamStr]
                                else log st)
                                 ++ [LogPasted teamStr (r + 1) pasteRow]))
                end
          end
    end.
Proof.
  unfold processRow. fold (trackValOf trackingColIndex row).
  rewrite Hunmarked. fold (rawTeamOf teamColIndex row). rewrite Hkey.
  fold (invalidTeam (rawTeamOf teamColIndex row)). rewrite Hvalid.
  fold (teamStrOf teamColIndex row). fold teamStr.
  pose proof (getOrInsertSheet_lookup teamStr (wb st)) as Hdst.
  pose proof (getOrInsertSheet_lookup_ne teamStr SA_SOURCE_SHEET (wb st)
                teamStr_not_source) as Hsrc.
  fold w1 in Hdst, Hsrc. unfold created at 1. fold w1.
  destruct (getOrInsertSheet teamStr (wb st)) as [w c] eqn:E.
  unfold w1, created in *. clear w1 created. cbn [fst snd] in *.
  destruct (c && fails r OpInsertSheet); [reflexivity|].
  rewrite Hdst.
  destruct (findLastContentRow (default [] (wb st !! teamStr))) as [cursor|];
    [|reflexivity].
  cbv zeta. destruct (fails r OpPaste); [reflexivity|].
  unfold updateSheet at 1. rewrite Hdst.
  destruct (setValues _ _ _ _) as [dst'|]; [|reflexivity].
  destruct (fails r OpMark); [reflexivity|].
  unfold updateSheet.
  rewrite lookup_insert_ne by exact teamStr_not_source. rewrite Hsrc.
  destruct (wb st !! SA_SOURCE_SHEET) as [s|]; [|reflexivity].
  unfold setValue. replace (r + 1 =? 0) with false
    by (symmetry; apply Nat.eqb_neq; lia).
  simpl. destruct (trackingColIndex =? 0); reflexivity.
Qed.

(** An exception in the body never comes after a write to the source
    tab: the source tab is as it was when the body started. *)
Lemma processRow_Raise_source (w : Workbook) :
  processRow fails trackingColIndex teamColIndex r row st = Raise w ->
  w !! SA_SOURCE_SHEET = wb st !! SA_SOURCE_SHEET.
Proof.
  rewrite processRow_valid.
  pose proof (getOrInsertSheet_lookup_ne teamStr SA_SOURCE_SHEET (wb st)
                teamStr_not_source) as Hsrc. fold w1 in Hsrc.
  assert (H2 : forall dst', <[teamStr := dst']> w1 !! SA_SOURCE_SHEET
                            = wb st !! SA_SOURCE_SHEET).
  { intros dst'. rewrite lookup_insert_ne by exact teamStr_not_source. exact Hsrc. }
  cbv zeta.
  repeat match goal with
         | |- context [match ?x with _ => _ end] => destruct x eqn:?
         end; intros H; inversion H; subst; rewrite ?H2, ?Hsrc; congruence.
Qed.

End Body.

Lemma processRow_Raise_source_any (fails : Faults) (tci : nat) (tc : Value)
  (r : nat) (row : list Value) (st : LoopState) (w : Workbook) :
  processRow fails tci tc r row st = Raise w ->
  w !! SA_SOURCE_SHEET = wb st !! SA_SOURCE_SHEET.
Proof.
  destruct (isMarked (trackValOf tci row)) eqn:Hm.
  { rewrite processRow_marked by exact Hm. discriminate. }
  destruct (isEmptyKey (rawTeamOf tc row)) eqn:Hk.
  { rewrite processRow_empty_key by assumption. discriminate. }
  destruct (invalidTeam (rawTeamOf tc row)) eqn:Hv.
  { rewrite processRow_invalid by assumption. discriminate. }
  apply processRow_Raise_source; assumption.
Qed.

(** The body counts a row as pushed only on the path of a valid key. *)
Lemma processRow_pushed_inv (fails : Faults) (tci : nat) (tc : Value)
  (r : nat) (row : list Value) (st st' : LoopState) :
  processRow fails tci tc r row st = Next st' ->
  pushed st' <> pushed st ->
  isMarked (trackValOf tci row) = false
  /\ isEmptyKey (rawTeamOf tc row) = false
  /\ invalidTeam (rawTeamOf tc row) = false.
Proof.
  intros H Hp.
  destruct (isMarked (trackValOf tci row)) eqn:Hm.
  { rewrite processRow_marked in H by exact Hm. inversion H; subst. contradiction. }
  destruct (isEmptyKey (rawTeamOf tc row)) eqn:Hk.
  { rewrite processRow_empty_key in H by assumption. inversion H; subst. contradiction. }
  destruct (invalidTeam (rawTeamOf tc row)) eqn:Hv.
  { rewrite processRow_invalid in H by assumption. inversion H; subst. contradiction. }
  auto.
Qed.

(** What the body did when it went on after pasting a row. *)
Lemma processRow_valid_Next (fails : Faults) (tci : nat) (tc : Value)
  (r : nat) (row : list Value) (st st' : LoopState) :
  isMarked (trackValOf tci row) = false ->
  isEmptyKey (rawTeamOf tc row) = false ->
  invalidTeam (rawTeamOf tc row) = false ->
  processRow fails tci tc r row st = Next st' ->
  let teamStr := teamStrOf tc row in
  let w1 := (getOrInsertSheet teamStr (wb st)).1 in
  let created := (getOrInsertSheet teamStr (wb st)).2 in
  let dst := default [] (wb st !! teamStr) in
  exists cursor s,
    findLastContentRow dst = Some cursor
    /\ 0 < length (take (tci - 1) row)
    /\ 1 < tci
    /\ wb st !! SA_SOURCE_SHEET = Some s
    /\ fails r OpPaste = false
    /\ fails r OpMark = false
    /\ st' = mkLoopState
               (<[ SA_SOURCE_SHEET :=
                     setCell (r + 1) tci (VStr SA_TRACKING_COL) s ]>
                  (<[ teamStr :=
                        setRowCells (cursor + SA_ROWS_GAP + 1) 1
                          (take (tci - 1) row) dst ]> w1))
               (S (pushed st)) (skipped st)
               (if created then S (newSheets st) else newSheets st)
               ((if created then log st ++ [LogCreated teamStr] else log st)
                  ++ [LogPasted teamStr (r + 1) (cursor + SA_ROWS_GAP + 1)]).
Proof.
  intros Hm Hk Hv H. rewrite processRow_valid in H by assumption.
  cbv zeta in *.
  destruct (_ && _); [discriminate|].
  destruct (findLastContentRow _) as [cursor|]; [|discriminate].
  destruct (fails r OpPaste); [discriminate|].
  unfold setValues in H. replace (cursor + SA_ROWS_GAP + 1 =? 0) with false in H
    by (symmetry; apply Nat.eqb_neq; lia).
  simpl orb in H.
  destruct (length (take (tci - 1) row) =? 0) eqn:Hlen; [discriminate|].
  apply Nat.eqb_neq in Hlen.
  destruct (fails r OpMark); [discriminate|].
  destruct (wb st !! SA_SOURCE_SHEET) as [s|]; [|discriminate].
  destruct (tci =? 0) eqn:Ht; [discriminate|].
  exists cursor, s. inversion H; subst.
  repeat split; try reflexivity; try lia.
  rewrite length_take in Hlen. lia.
Qed.

(** A row write changes the cells it covers and no other. *)
Lemma cellAt_setRowCells (vals : list Value) (sh : Sheet) (r c r' c' : nat) :
  0 < r -> 0 < c -> 0 < r' -> 0 < c' ->
  cellAt (setRowCells r c vals sh) r' c' =
  if decide (r = r' /\ c <= c' < c + length vals)
  then arrayGet vals (c' - c)
  else cellAt sh r' c'.
Proof.
  intros Hr Hc Hr' Hc'. revert sh c Hc.
  induction vals as [|v vals IH]; intros sh c Hc; simpl.
  - rewrite decide_False by lia. reflexivity.
  - rewrite IH by lia. rewrite cellAt_setCell by lia.
    destruct (decide (r = r' /\ S c <= c' < S c + length vals)) as [H|H].
    + rewrite decide_True by lia. unfold arrayGet.
      replace (c' - c) with (S (c' - S c)) by lia. reflexivity.
    + destruct (decide (r = r' /\ c = c')) as [[-> ->]|H'].
      * rewrite decide_True by lia. unfold arrayGet.
        replace (c' - c') with 0 by lia. reflexivity.
      * rewrite decide_False by lia. reflexivity.
Qed.

(** Below the append cursor plus the gap nothing is overwritten. *)
Lemma setRowCells_below_cursor (dst : Sheet) (cursor gap : nat) (vals : list Value)
  (r c : nat) :
  findLastContentRow dst = Some cursor ->
  cellHasContent (cellAt dst r c) = true ->
  cellAt (setRowCells (cursor + gap + 1) 1 vals dst) r c = cellAt dst r c.
Proof.
  intros Hcur Hcontent.
  destruct (findLastContentRow_spec dst) as (k & Hk & _ & Hafter & _).
  rewrite Hcur in Hk. injection Hk as <-.
  destruct (decide (r = 0)) as [->|Hr].
  { rewrite cellAt_zero_l, cellHasContent_blank in Hcontent. discriminate. }
  destruct (decide (c = 0)) as [->|Hc].
  { rewrite cellAt_zero_r, cellHasContent_blank in Hcontent. discriminate. }
  rewrite cellAt_setRowCells by lia.
  destruct (decide (cursor + gap + 1 = r /\ _)) as [[<- _]|]; [|reflexivity].
  exfalso. apply (Hafter (cursor + gap + 1)); [lia|]. exists c. exact Hcontent.
Qed.

(** ** Append positioning *)

(** C2: when the loop body migrates a row, the row is written into the
    team tab starting at column 1 of row cursor + gap + 1, where cursor
    is what [findLastContentRow] gives for that tab before the write (a
    tab created for the row is empty) and gap is 5, so a cursor of 5
    gives row 11; the log line names that row; and every cell of the tab
    that was non-empty before the write holds the same value after it. *)
Theorem paste_row_below_cursor (fails : Faults) (tci : nat) (tc : Value)
  (r : nat) (row : list Value) (st st' : LoopState) :
  processRow fails tci tc r row st = Next st' ->
  pushed st' = S (pushed st) ->
  let teamStr := teamStrOf tc row in
  let dst := default [] (wb st !! teamStr) in
  exists cursor dst',
    findLastContentRow dst = Some cursor
    /\ wb st' !! teamStr = Some dst'
    /\ dst' = setRowCells (cursor + SA_ROWS_GAP + 1) 1 (take (tci - 1) row) dst
    /\ (forall c, 0 < c <= length (take (tci - 1) row) ->
          cellAt dst' (cursor + SA_ROWS_GAP + 1) c = arrayGet row (c - 1))
    /\ (forall r' c', cellHasContent (cellAt dst r' c') = true ->
          cellAt dst' r' c' = cellAt dst r' c')
    /\ last (log st') = Some (LogPasted teamStr (r + 1) (cursor + SA_ROWS_GAP + 1))
    /\ SA_ROWS_GAP = 5
    /\ (cursor = 5 -> cursor + SA_ROWS_GAP + 1 = 11).
Proof.
  intros H Hp teamStr dst.
  destruct (processRow_pushed_inv fails tci tc r row st st' H) as (Hm & Hk & Hv);
    [lia|].
  destruct (processRow_valid_Next fails tci tc r row st st' Hm Hk Hv H)
    as (cursor & s & Hcur & Hlen & Htci & Hsrc & _ & _ & ->).
  fold teamStr dst in Hcur |- *.
  exists cursor, (setRowCells (cursor + SA_ROWS_GAP + 1) 1 (take (tci - 1) row) dst).
  split; [exact Hcur|]. split.
  { simpl. rewrite lookup_insert_ne
      by (intros E; symmetry in E; revert E; apply teamStr_not_source; exact Hv).
    apply lookup_insert_eq. }
  split; [reflexivity|]. split.
  { intros c Hc. rewrite cellAt_setRowCells by lia.
    rewrite decide_True by lia. unfold arrayGet.
    rewrite lookup_take_lt by (rewrite length_take in Hc; lia).
    reflexivity. }
  split.
  { intros r' c' Hc. apply setRowCells_below_cursor; assumption. }
  split.
  { simpl. apply last_snoc. }
  split; [reflexivity|]. intros ->. reflexivity.
Qed.

(** The row for team 254 of the example goes to row 11 of tab 254. *)
Lemma paste_row_below_cursor_witness :
  exists cursor dst',
    findLastContentRow sheetContentRow5 = Some cursor
    /\ wb exampleStateAfter !! "254" = Some dst'
    /\ dst' = setRowCells (cursor + SA_ROWS_GAP + 1) 1 (take (3 - 1) exampleRow)
                sheetContentRow5
    /\ (forall c, 0 < c <= length (take (3 - 1) exampleRow) ->
          cellAt dst' (cursor + SA_ROWS_GAP + 1) c = arrayGet exampleRow (c - 1))
    /\ (forall r' c', cellHasContent (cellAt sheetContentRow5 r' c') = true ->
          cellAt dst' r' c' = cellAt sheetContentRow5 r' c')
    /\ last (log exampleStateAfter) = Some (LogPasted "254" (1 + 1) (cursor + SA_ROWS_GAP + 1))
    /\ SA_ROWS_GAP = 5
    /\ (cursor = 5 -> cursor + SA_ROWS_GAP + 1 = 11).
Proof.
  exact (paste_row_below_cursor noFaults 3 (int 1) 1 exampleRow exampleState
           exampleStateAfter eq_refl eq_refl).
Defined.

(** The paste of the example, evaluated. *)
Example paste_row_below_cursor_example :
  log exampleStateAfter = [LogPasted "254" 2 11]
  /\ (exists dst', wb exampleStateAfter !! "254" = Some dst'
                   /\ cellAt dst' 11 1 = int 254 /\ cellAt dst' 11 2 = int 10
                   /\ cellAt dst' 5 2 = VStr "x").
Proof.
  split; [reflexivity|]. eexists. split; [reflexivity|]. repeat split.
Qed.

(** ** The loop *)

Lemma pushable_true (tci : nat) (tc : Value) (row : list Value) :
  pushable tci tc row = true <->
  isMarked (trackValOf tci row) = false
  /\ isEmptyKey (rawTeamOf tc row) = false
  /\ invalidTeam (rawTeamOf tc row) = false.
Proof.
  unfold pushable. rewrite !andb_true_iff, !negb_true_iff. tauto.
Qed.

(** On any other row the body writes nothing and pastes nothing. *)
Lemma processRow_not_pushable (fails : Faults) (tci : nat) (tc : Value)
  (r : nat) (row : list Value) (st : LoopState) :
  pushable tci tc row = false ->
  exists st',
    processRow fails tci tc r row st = Next st'
    /\ wb st' = wb st /\ pushed st' = pushed st /\ newSheets st' = newSheets st
    /\ skipped st' = (if isMarked (trackValOf tci row) then S (skipped st)
                      else skipped st).
Proof.
  intros Hp.
  destruct (isMarked (trackValOf tci row)) eqn:Hm.
  { eexists. rewrite processRow_marked by exact Hm. repeat split. }
  destruct (isEmptyKey (rawTeamOf tc row)) eqn:Hk.
  { eexists. rewrite processRow_empty_key by assumption. repeat split. }
  destruct (invalidTeam (rawTeamOf tc row)) eqn:Hv.
  { eexists. rewrite processRow_invalid by assumption. repeat split. }
  exfalso. unfold pushable in Hp. rewrite Hm, Hk, Hv in Hp. discriminate.
Qed.

Lemma countb_cons {A : Type} (p : A -> bool) (x : A) (l : list A) :
  countb p (x :: l) = (if p x then 1 else 0) + countb p l.
Proof.
  unfold countb. rewrite filter_cons. destruct (p x) eqn:E.
  - rewrite decide_True by reflexivity. reflexivity.
  - rewrite decide_False by discriminate. reflexivity.
Qed.

(** A loop that runs to its end has pasted and marked every pushable
    row, and only those; its counters count them and the marked rows. *)
Lemma loop_Finished (fails : Faults) (tci : nat) (tc : Value)
  (rows : list (list Value)) (r : nat) (st st' : LoopState) (s : Sheet) :
  wb st !! SA_SOURCE_SHEET = Some s ->
  loop fails tci tc r rows st = Finished st' ->
  wb st' !! SA_SOURCE_SHEET = Some (markRows tci tc r rows s)
  /\ pushed st' = pushed st + countb (pushable tci tc) rows
  /\ skipped st' = skipped st + countb (fun row => isMarked (trackValOf tci row)) rows
  /\ (countb (pushable tci tc) rows = 0 -> wb st' = wb st).
Proof.
  revert r st s. induction rows as [|row rows IH]; intros r st s Hs H; simpl in H.
  - injection H as <-. simpl. unfold countb. simpl.
    repeat split; try lia. exact Hs.
  - destruct (processRow fails tci tc r row st) as [st1|w] eqn:E; [|discriminate].
    rewrite !countb_cons. simpl markRows.
    destruct (pushable tci tc row) eqn:Hp.
    + apply pushable_true in Hp as (Hm & Hk & Hv).
      destruct (processRow_valid_Next fails tci tc r row st st1 Hm Hk Hv E)
        as (cursor & s0 & _ & _ & _ & Hs0 & _ & _ & Hst1).
      rewrite Hs in Hs0. injection Hs0 as <-.
      assert (Hs1 : wb st1 !! SA_SOURCE_SHEET
                    = Some (setCell (r + 1) tci (VStr SA_TRACKING_COL) s)).
      { rewrite Hst1. simpl. apply lookup_insert_eq. }
      destruct (IH (S r) st1 _ Hs1 H) as (H1 & H2 & H3 & _).
      rewrite Hm. split; [exact H1|].
      assert (Hpu : pushed st1 = S (pushed st)) by (rewrite Hst1; reflexivity).
      assert (Hsk : skipped st1 = skipped st) by (rewrite Hst1; reflexivity).
      split; [lia|]. split; [lia|]. intros; lia.
    + destruct (processRow_not_pushable fails tci tc r row st Hp)
        as (st2 & E2 & Hw & Hpu & _ & Hsk).
      rewrite E in E2. injection E2 as <-.
      assert (Hs1 : wb st1 !! SA_SOURCE_SHEET = Some s) by (rewrite Hw; exact Hs).
      destruct (IH (S r) st1 s Hs1 H) as (H1 & H2 & H3 & H4).
      split; [exact H1|]. split; [lia|]. split.
      * rewrite H3, Hsk. destruct (isMarked _); lia.
      * intros H0. rewrite H4 by lia. exact Hw.
Qed.

(** The cells of the source tab after the loop. *)
Lemma cellAt_markRows (tci : nat) (tc : Value) (rows : list (list Value))
  (r : nat) (s : Sheet) (i c : nat) :
  0 < tci -> 0 < i -> 0 < c ->
  cellAt (markRows tci tc r rows s) i c =
  if decide (c = tci /\ r < i /\ pushable tci tc <$> rows !! (i - r - 1) = Some true)
  then VStr SA_TRACKING_COL
  else cellAt s i c.
Proof.
  intros Ht Hi Hc. revert r s. induction rows as [|row rows IH]; intros r s; simpl.
  - rewrite decide_False; [reflexivity|]. intros (_ & _ & H). discriminate H.
  - rewrite IH. destruct (decide (i = r + 1)) as [->|Hne].
    + rewrite decide_False by lia. replace (r + 1 - r - 1) with 0 by lia. simpl.
      destruct (pushable tci tc row) eqn:Hp.
      * rewrite cellAt_setCell by lia.
        destruct (decide (c = tci)) as [->|Hc'].
        -- rewrite !decide_True by auto with lia. reflexivity.
        -- rewrite !decide_False by (intros H; destruct H; congruence). reflexivity.
      * rewrite decide_False; [reflexivity|]. intros (_ & _ & H). discriminate.
    + destruct (decide (r < i)) as [Hlt|Hge].
      * replace (i - r - 1) with (S (i - S r - 1)) by lia. simpl.
        assert (Hcell : cellAt (if pushable tci tc row
                                then setCell (r + 1) tci (VStr SA_TRACKING_COL) s
                                else s) i c = cellAt s i c).
        { destruct (pushable tci tc row); [|reflexivity].
          rewrite cellAt_setCell by lia. rewrite decide_False by lia. reflexivity. }
        rewrite Hcell.
        destruct (decide (c = tci /\ S r < i /\ _)) as [H|H].
        -- rewrite decide_True; [reflexivity|]. destruct H as (? & ? & ?).
           repeat split; [assumption | lia | assumption].
        -- rewrite decide_False; [reflexivity|]. intros (? & ? & ?). apply H.
           repeat split; [assumption | lia | assumption].
      * rewrite !decide_False by lia.
        destruct (pushable tci tc row); [|reflexivity].
        rewrite cellAt_setCell by lia. rewrite decide_False by lia. reflexivity.
Qed.

Lemma length_markRows (tci : nat) (tc : Value) (rows : list (list Value))
  (r : nat) (s : Sheet) :
  0 < tci -> r + length rows <= length s ->
  length (markRows tci tc r rows s) = length s.
Proof.
  intros Ht. revert r s. induction rows as [|row rows IH]; intros r s Hlen; simpl.
  - reflexivity.
  - simpl in Hlen. rewrite IH.
    + destruct (pushable tci tc row); [|reflexivity].
      rewrite length_setCell by lia. lia.
    + destruct (pushable tci tc row); [|lia].
      rewrite length_setCell by lia. lia.
Qed.

Lemma loop_not_pushable (fails : Faults) (tci : nat) (tc : Value)
  (rows : list (list Value)) (r : nat) (st : LoopState) :
  Forall (fun row => pushable tci tc row = false) rows ->
  exists st',
    loop fails tci tc r rows st = Finished st'
    /\ wb st' = wb st /\ pushed st' = pushed st /\ newSheets st' = newSheets st.
Proof.
  intros Hall. revert r st. induction Hall as [|row rows Hp _ IH]; intros r st.
  - exists st. repeat split.
  - destruct (processRow_not_pushable fails tci tc r row st Hp)
      as (st1 & E & Hw & Hpu & Hn & _).
    destruct (IH (S r) st1) as (st' & Hl & Hw' & Hpu' & Hn').
    exists st'. simpl. rewrite E. split; [exact Hl|].
    repeat split; congruence.
Qed.

(** ** The loop without faults *)

Lemma processRow_noFaults (tci : nat) (tc : Value) (r : nat) (row : list Value)
  (st : LoopState) (s : Sheet) :
  1 < tci -> row <> [] ->
  wb st !! SA_SOURCE_SHEET = Some s ->
  exists st', processRow noFaults tci tc r row st = Next st'.
Proof.
  intros Ht Hrow Hs.
  destruct (pushable tci tc row) eqn:Hp.
  2:{ destruct (processRow_not_pushable noFaults tci tc r row st Hp) as (st' & E & _).
      exists st'. exact E. }
  apply pushable_true in Hp as (Hm & Hk & Hv).
  rewrite processRow_valid by assumption. unfold noFaults.
  rewrite andb_false_r.
  destruct (findLastContentRow_spec (default [] (wb st !! teamStrOf tc row)))
    as (cursor & -> & _).
  cbv zeta. unfold setValues.
  replace (cursor + SA_ROWS_GAP + 1 =? 0) with false
    by (symmetry; apply Nat.eqb_neq; lia).
  replace (length (take (tci - 1) row) =? 0) with false.
  2:{ symmetry. apply Nat.eqb_neq. rewrite length_take.
      destruct row; [contradiction | simpl; lia]. }
  simpl. rewrite Hs.
  replace (tci =? 0) with false by (symmetry; apply Nat.eqb_neq; lia).
  eexists. reflexivity.
Qed.

Lemma processRow_Next_source (fails : Faults) (tci : nat) (tc : Value) (r : nat)
  (row : list Value) (st st' : LoopState) (s : Sheet) :
  wb st !! SA_SOURCE_SHEET = Some s ->
  processRow fails tci tc r row st = Next st' ->
  exists s', wb st' !! SA_SOURCE_SHEET = Some s'.
Proof.
  intros Hs E. destruct (pushable tci tc row) eqn:Hp.
  - apply pushable_true in Hp as (Hm & Hk & Hv).
    destruct (processRow_valid_Next fails tci tc r row st st' Hm Hk Hv E)
      as (cursor & s0 & _ & _ & _ & _ & _ & _ & ->).
    eexists. simpl. apply lookup_insert_eq.
  - destruct (processRow_not_pushable fails tci tc r row st Hp) as (st2 & E2 & Hw & _).
    rewrite E in E2. injection E2 as <-. exists s. rewrite Hw. exact Hs.
Qed.

(** Without faults, and with the tracking column to the right of column
    1, the loop runs to its end. *)
Lemma loop_noFaults (tci : nat) (tc : Value) (rows : list (list Value)) (r : nat)
  (st : LoopState) (s : Sheet) :
  1 < tci -> Forall (fun row => row <> []) rows ->
  wb st !! SA_SOURCE_SHEET = Some s ->
  exists st', loop noFaults tci tc r rows st = Finished st'.
Proof.
  intros Ht Hrows. revert r st s.
  induction Hrows as [|row rows Hrow _ IH]; intros r st s Hs; simpl.
  - eexists. reflexivity.
  - destruct (processRow_noFaults tci tc r row st s Ht Hrow Hs) as (st1 & E).
    rewrite E.
    destruct (processRow_Next_source noFaults tci tc r row st st1 s Hs E) as (s1 & Hs1).
    exact (IH (S r) st1 s1 Hs1).
Qed.

(** ** A run of the driver *)

Lemma length_snapRow (s : Sheet) (n i : nat) : length (snapRow s n i) = n.
Proof. unfold snapRow. rewrite length_map, length_seq. reflexivity. Qed.

Lemma teamColIndex_is_1 : resolveColumn SA_TEAM_COLUMN = int 1.
Proof. reflexivity. Qed.

Lemma trackValOf_snapRow (s : Sheet) (tci i : nat) :
  0 < tci -> trackValOf tci (snapRow s tci i) = cellAt s i tci.
Proof.
  intros Ht. unfold trackValOf, arrayGet, snapRow.
  rewrite list_lookup_fmap. rewrite lookup_seq_lt by lia. simpl. f_equal. lia.
Qed.

Lemma rawTeamOf_first (row : list Value) : rawTeamOf (int 1) row = arrayGet row 0.
Proof. reflexivity. Qed.

Lemma rawTeamOf_snapRow (s : Sheet) (tci i : nat) :
  0 < tci -> rawTeamOf (int 1) (snapRow s tci i) = cellAt s i 1.
Proof.
  intros Ht. rewrite rawTeamOf_first. unfold arrayGet, snapRow.
  rewrite list_lookup_fmap. rewrite lookup_seq_lt by lia. reflexivity.
Qed.

Lemma length_dataRows (s : Sheet) (n lastRow : nat) :
  length (dataRows s n lastRow) = lastRow - 1.
Proof. unfold dataRows. rewrite length_map, length_seq. reflexivity. Qed.

Lemma lookup_dataRows (s : Sheet) (n lastRow j : nat) :
  j < lastRow - 1 -> dataRows s n lastRow !! j = Some (snapRow s n (j + 2)).
Proof.
  intros Hj. unfold dataRows. rewrite list_lookup_fmap.
  rewrite lookup_seq_lt by exact Hj. simpl. do 2 f_equal. lia.
Qed.

Lemma getValues_dataRows (s : Sheet) (n lastRow : nat) :
  0 < n -> 0 < lastRow ->
  tail <$> getValues s 1 1 lastRow n = Some (dataRows s n lastRow).
Proof.
  intros Hn Hl. rewrite getValues_Some by assumption. simpl. f_equal.
  destruct lastRow as [|m]; [lia|]. simpl. unfold dataRows.
  replace (S m - 1) with m by lia. reflexivity.
Qed.

(** The run once the source tab and its tracking column are at hand. *)
Lemma run_unfold (fails : Faults) (ss : Workbook) (src src' : Sheet) (tci : nat) :
  ss !! SA_SOURCE_SHEET = Some src ->
  2 <= getLastRow src ->
  getOrCreateTrackingColumn src (getLastColumn src) = Some (tci, src') ->
  pushSADataToTeamSheetsWith fails ss =
  match loop fails tci (int 1) 1 (dataRows src' tci (getLastRow src))
          (mkLoopState (<[ SA_SOURCE_SHEET := src' ]> ss) 0 0 0 []) with
  | Finished st => (wb st, Summary (pushed st) (skipped st) (newSheets st) (log st))
  | Aborted w r => (w, Exception (Some r))
  end.
Proof.
  intros Hsrc Hrows Hcol. unfold pushSADataToTeamSheetsWith.
  rewrite Hsrc. replace (getLastRow src <? 2) with false
    by (symmetry; apply Nat.ltb_ge; exact Hrows).
  rewrite teamColIndex_is_1. simpl negb. cbv iota. rewrite Hcol.
  destruct (getOrCreateTrackingColumn_post src _ tci src' (Nat.le_refl _) Hcol)
    as [(Hpos & _) _].
  pose proof (getValues_dataRows src' tci (getLastRow src) Hpos ltac:(lia)) as Hv.
  destruct (getValues src' 1 1 (getLastRow src) tci) as [allData|]; [|discriminate].
  simpl in Hv. injection Hv as ->. reflexivity.
Qed.

Lemma getLastRow_tracking (src src' : Sheet) (n tci : nat) :
  1 <= getLastRow src ->
  getOrCreateTrackingColumn src n = Some (tci, src') ->
  getLastRow src' = getLastRow src.
Proof.
  intros Hrows H. destruct n as [|n]; [discriminate|].
  rewrite getOrCreateTrackingColumn_unfold in H by lia.
  destruct (findTracking _ _).
  - apply Some_pair_inj in H as [_ <-]. reflexivity.
  - apply Some_pair_inj in H as [_ <-]. unfold getLastRow in *.
    rewrite length_setCell by lia. lia.
Qed.

(** After a loop that ran to its end no row of the source tab is
    pushable: a run over the same tab finds nothing to paste. *)
Lemma dataRows_markRows_settled (tc : Value) (src' : Sheet) (tci n : nat) :
  tc = int 1 -> 0 < tci ->
  Forall (fun row => pushable tci tc row = false)
    (dataRows (markRows tci tc 1 (dataRows src' tci n) src') tci n).
Proof.
  intros -> Ht. set (rows1 := dataRows src' tci n).
  set (s2 := markRows tci (int 1) 1 rows1 src').
  apply Forall_lookup. intros j row2 Hj.
  assert (Hjn : j < n - 1).
  { apply lookup_lt_Some in Hj. rewrite length_dataRows in Hj. exact Hj. }
  rewrite lookup_dataRows in Hj by exact Hjn. injection Hj as <-.
  assert (Hrow1 : rows1 !! (j + 2 - 1 - 1) = Some (snapRow src' tci (j + 2))).
  { unfold rows1. replace (j + 2 - 1 - 1) with j by lia.
    apply lookup_dataRows. exact Hjn. }
  destruct (pushable tci (int 1) (snapRow src' tci (j + 2))) eqn:Hp.
  - unfold pushable. rewrite trackValOf_snapRow by exact Ht.
    unfold s2. rewrite cellAt_markRows by lia.
    rewrite decide_True; [reflexivity|].
    split; [reflexivity|]. split; [lia|]. fold rows1. rewrite Hrow1. simpl.
    f_equal. exact Hp.
  - assert (Heq : snapRow s2 tci (j + 2) = snapRow src' tci (j + 2)).
    { unfold snapRow. apply map_ext_in. intros c Hc. apply in_seq in Hc.
      unfold s2. rewrite cellAt_markRows by lia.
      rewrite decide_False; [reflexivity|]. intros (_ & _ & H).
      fold rows1 in H. rewrite Hrow1 in H. simpl in H. congruence. }
    rewrite Heq. exact Hp.
Qed.

Lemma trackingAt_header_eq (s s' : Sheet) (idx : nat) :
  (forall c, 0 < c -> cellAt s' 1 c = cellAt s 1 c) ->
  trackingAt s idx -> trackingAt s' idx.
Proof.
  intros Heq (Hpos & Hat & Hbefore). split; [exact Hpos|]. split.
  - rewrite Heq by exact Hpos. exact Hat.
  - intros c Hc. rewrite Heq by lia. apply Hbefore. exact Hc.
Qed.

(** The source tab after a run that reached the end of its loop, and
    what the next run does with it. *)
Lemma run_after_Finished (fails1 fails2 : Faults) (ss : Workbook) (src src' : Sheet)
  (tci : nat) (st : LoopState) :
  ss !! SA_SOURCE_SHEET = Some src ->
  2 <= getLastRow src ->
  getOrCreateTrackingColumn src (getLastColumn src) = Some (tci, src') ->
  loop fails1 tci (int 1) 1 (dataRows src' tci (getLastRow src))
    (mkLoopState (<[ SA_SOURCE_SHEET := src' ]> ss) 0 0 0 []) = Finished st ->
  exists skipped2 log2,
    pushSADataToTeamSheetsWith fails2 (wb st) = (wb st, Summary 0 skipped2 0 log2).
Proof.
  intros Hsrc Hrows Hcol Hloop.
  set (n := getLastRow src) in *.
  set (rows1 := dataRows src' tci n) in *.
  set (s2 := markRows tci (int 1) 1 rows1 src').
  destruct (getOrCreateTrackingColumn_post src _ tci src' (Nat.le_refl _) Hcol)
    as [Ht _]. pose proof Ht as (Hpos & _).
  assert (Hn' : getLastRow src' = n)
    by (apply (getLastRow_tracking src src' (getLastColumn src) tci);
        [unfold n in *; lia | exact Hcol]).
  destruct (loop_Finished fails1 tci (int 1) rows1 1 _ st src'
              (lookup_insert_eq ss SA_SOURCE_SHEET src') Hloop) as (Hs2 & _).
  fold s2 in Hs2.
  assert (Hn2 : getLastRow s2 = n).
  { unfold getLastRow, s2. rewrite length_markRows; [exact Hn' | exact Hpos |].
    unfold rows1. rewrite length_dataRows. unfold getLastRow in Hn'. lia. }
  assert (Ht2 : trackingAt s2 tci).
  { apply (trackingAt_header_eq src'); [|exact Ht].
    intros c Hc. unfold s2. rewrite cellAt_markRows by lia.
    rewrite decide_False by lia. reflexivity. }
  assert (Hcol2 : getOrCreateTrackingColumn s2 (getLastColumn s2) = Some (tci, s2)).
  { apply getOrCreateTrackingColumn_found; [exact Ht2|].
    apply trackingAt_le_getLastColumn. exact Ht2. }
  rewrite (run_unfold fails2 (wb st) s2 s2 tci Hs2 ltac:(lia) Hcol2).
  rewrite insert_id by exact Hs2. rewrite Hn2.
  destruct (loop_not_pushable fails2 tci (int 1) (dataRows s2 tci n) 1
              (mkLoopState (wb st) 0 0 0 []))
    as (st2 & Hl & Hw & Hp & Hnew).
  { unfold s2, rows1. apply dataRows_markRows_settled; [reflexivity | exact Hpos]. }
  rewrite Hl. simpl in Hw, Hp, Hnew. rewrite Hw, Hp, Hnew.
  exists (skipped st2), (log st2). reflexivity.
Qed.

(** Without faults a run ends with its summary or an alert when the
    source tab reports a column and its first header cell is not the
    reserved name. *)
Lemma run_noFaults_ends (ss : Workbook) :
  (forall src, ss !! SA_SOURCE_SHEET = Some src ->
               1 <= getLastColumn src
               /\ cellAt src 1 1 <> VStr SA_TRACKING_COL) ->
  forall r, (pushSADataToTeamSheets ss).2 <> Exception r.
Proof.
  intros Hss r. unfold pushSADataToTeamSheets.
  destruct (ss !! SA_SOURCE_SHEET) as [src|] eqn:Hsrc.
  2:{ unfold pushSADataToTeamSheetsWith. rewrite Hsrc. discriminate. }
  destruct (Hss src eq_refl) as [Hcols Hfirst].
  destruct (getLastRow src <? 2) eqn:Hrows.
  { unfold pushSADataToTeamSheetsWith. rewrite Hsrc, Hrows. discriminate. }
  apply Nat.ltb_ge in Hrows.
  destruct (getOrCreateTrackingColumn src (getLastColumn src)) as [[tci src']|] eqn:Hcol.
  2:{ rewrite getOrCreateTrackingColumn_unfold in Hcol by lia.
      destruct (findTracking _ _); discriminate. }
  rewrite (run_unfold noFaults ss src src' tci Hsrc Hrows Hcol).
  destruct (getOrCreateTrackingColumn_post src _ tci src' (Nat.le_refl _) Hcol)
    as [Ht Hcase].
  assert (Htci : 1 < tci).
  { destruct Ht as (Hpos & Hat & _).
    destruct Hcase as [[-> _]|(_ & -> & _)]; [|lia].
    destruct (decide (tci = 1)) as [->|]; [contradiction | lia]. }
  destruct (loop_noFaults tci (int 1) (dataRows src' tci (getLastRow src)) 1
              (mkLoopState (<[ SA_SOURCE_SHEET := src' ]> ss) 0 0 0 []) src')
    as (st & Hloop); [exact Htci | | apply lookup_insert_eq |].
  { apply Forall_lookup. intros j row Hj.
    assert (Hjn : j < getLastRow src - 1)
      by (apply lookup_lt_Some in Hj; rewrite length_dataRows in Hj; exact Hj).
    rewrite lookup_dataRows in Hj by exact Hjn. injection Hj as <-.
    intros E. apply (f_equal length) in E. rewrite length_snapRow in E.
    simpl in E. lia. }
  rewrite Hloop. discriminate.
Qed.

(** C1: when a run of the driver has come to its end (with its summary
    or with one of its alerts, not with an exception), a second run on
    the workbook it left, whatever calls may fail during it, leaves the
    whole workbook as it is, every team tab included, and reports
    pushed = 0 and no new tab; where the first run ended with an alert
    the second ends with the same alert.  A run without faults does come
    to its end when the source tab reports a column and its first header
    cell is not the reserved name. *)
Theorem second_run_pushes_nothing :
  (forall (fails1 fails2 : Faults) (ss ss1 : Workbook) (out1 : Outcome),
      pushSADataToTeamSheetsWith fails1 ss = (ss1, out1) ->
      (forall r, out1 <> Exception r) ->
      exists out2,
        pushSADataToTeamSheetsWith fails2 ss1 = (ss1, out2)
        /\ match out1 with
           | Summary _ _ _ _ =>
               exists skipped2 log2, out2 = Summary 0 skipped2 0 log2
           | _ => out2 = out1
           end)
  /\ (forall ss : Workbook,
        (forall src, ss !! SA_SOURCE_SHEET = Some src ->
                     1 <= getLastColumn src
                     /\ cellAt src 1 1 <> VStr SA_TRACKING_COL) ->
        forall r, (pushSADataToTeamSheets ss).2 <> Exception r).
Proof.
  split; [|exact run_noFaults_ends].
  intros fails1 fails2 ss ss1 out1 H Hok.
  unfold pushSADataToTeamSheetsWith in H.
  destruct (ss !! SA_SOURCE_SHEET) as [src|] eqn:Hsrc.
  2:{ apply pair_equal_spec in H as [<- <-]. exists AlertNoSheet.
      unfold pushSADataToTeamSheetsWith. rewrite Hsrc. split; reflexivity. }
  destruct (getLastRow src <? 2) eqn:Hrows.
  { apply pair_equal_spec in H as [<- <-]. exists AlertNoData.
    unfold pushSADataToTeamSheetsWith. rewrite Hsrc, Hrows. split; reflexivity. }
  apply Nat.ltb_ge in Hrows.
  rewrite teamColIndex_is_1 in H. simpl negb in H. cbv iota in H.
  destruct (getOrCreateTrackingColumn src (getLastColumn src)) as [[tci src']|] eqn:Hcol.
  2:{ apply pair_equal_spec in H as [_ <-]. exfalso. exact (Hok None eq_refl). }
  pose proof (run_unfold fails1 ss src src' tci Hsrc Hrows Hcol) as Hrun.
  unfold pushSADataToTeamSheetsWith in Hrun.
  rewrite Hsrc in Hrun. replace (getLastRow src <? 2) with false in Hrun
    by (symmetry; apply Nat.ltb_ge; exact Hrows).
  rewrite teamColIndex_is_1 in Hrun. simpl negb in Hrun. cbv iota in Hrun.
  rewrite Hcol in Hrun. rewrite Hrun in H. clear Hrun.
  destruct (loop fails1 tci (int 1) 1 _ _) as [st|w r] eqn:Hloop.
  2:{ apply pair_equal_spec in H as [_ <-]. exfalso. exact (Hok (Some r) eq_refl). }
  apply pair_equal_spec in H as [<- <-].
  destruct (run_after_Finished fails1 fails2 ss src src' tci st Hsrc Hrows Hcol Hloop)
    as (skipped2 & log2 & Hrun2).
  exists (Summary 0 skipped2 0 log2). split; [exact Hrun2|].
  exists skipped2, log2. reflexivity.
Qed.

(** Two runs on the example: the second pastes nothing. *)
Lemma second_run_pushes_nothing_witness :
  exists out2,
    pushSADataToTeamSheetsWith noFaults (pushSADataToTeamSheets bookTwoRuns).1
    = ((pushSADataToTeamSheets bookTwoRuns).1, out2)
    /\ exists skipped2 log2, out2 = Summary 0 skipped2 0 log2.
Proof.
  destruct second_run_pushes_nothing as (H & Hends).
  apply (H noFaults noFaults bookTwoRuns
           (pushSADataToTeamSheets bookTwoRuns).1
           (pushSADataToTeamSheets bookTwoRuns).2 eq_refl).
  apply Hends. intros src Hsrc. apply (inj Some) in Hsrc. subst src.
  split; [vm_compute; lia | discriminate].
Defined.

Example two_runs_example :
  (pushSADataToTeamSheets bookTwoRuns).2
  = Summary 2 0 1 [LogCreated "254"; LogPasted "254" 2 6;
                   LogInvalid 3 (VStr "abc"); LogPasted "254" 4 12]
  /\ pushSADataToTeamSheets (pushSADataToTeamSheets bookTwoRuns).1
     = ((pushSADataToTeamSheets bookTwoRuns).1,
        Summary 0 2 0 [LogInvalid 3 (VStr "abc")]).
Proof. split; reflexivity. Qed.

(** ** Rows that are not migrated *)

(** C5, the claim as stated fails: the key 1.5 is not empty and is no
    positive integer, yet the row is pasted into a tab named 1.5,
    marked and counted as pushed, without a warning; and a row with the
    key "abc" that is already marked is counted as skipped without a
    warning. *)
Lemma fractional_key_is_pasted :
  isEmptyKey (VNum (Dec 15 1)) = false
  /\ isPositiveInteger (Number (VNum (Dec 15 1))) = false
  /\ pushSADataToTeamSheets bookFractionalKey
     = (<[ "1.5" := [ []; []; []; []; []; [VNum (Dec 15 1); int 5] ] ]>
          (<[ SA_SOURCE_SHEET :=
                [ [VStr "Team"; VStr "Score"; VStr SA_TRACKING_COL];
                  [VNum (Dec 15 1); int 5; VStr SA_TRACKING_COL] ] ]> ∅),
        Summary 1 0 1 [LogCreated "1.5"; LogPasted "1.5" 2 6])
  /\ pushSADataToTeamSheets bookMarkedInvalidKey
     = (bookMarkedInvalidKey, Summary 0 1 0 []).
Proof. repeat split; vm_compute; reflexivity. Qed.

(** C5 (amended): for every row that is not marked yet and whose key is
    not empty and does not convert to a number above zero ("abc" is
    such a key), the loop body pushes the warning for that row on the
    log and changes nothing else: the workbook, so every team tab and
    the tracking cell of the row, and the counters stay as they are; the
    loop then goes on with the next rows.  In the example the valid row
    after the "abc" row is pasted. *)
Theorem invalid_key_warns_and_skips :
  (forall (fails : Faults) (tci : nat) (tc : Value) (r : nat)
          (row : list Value) (rest : list (list Value)) (st : LoopState),
      isMarked (trackValOf tci row) = false ->
      isEmptyKey (rawTeamOf tc row) = false ->
      invalidTeam (rawTeamOf tc row) = true ->
      let st' := mkLoopState (wb st) (pushed st) (skipped st) (newSheets st)
                   (log st ++ [LogInvalid (r + 1) (rawTeamOf tc row)]) in
      processRow fails tci tc r row st = Next st'
      /\ loop fails tci tc r (row :: rest) st = loop fails tci tc (S r) rest st')
  /\ invalidTeam (VStr "abc") = true
  /\ pushSADataToTeamSheets bookInvalidThenValid
     = (<[ "254" := [ []; []; []; []; []; [int 254; int 10] ] ]>
          (<[ SA_SOURCE_SHEET :=
                [ [VStr "Team"; VStr "Score"; VStr SA_TRACKING_COL];
                  [VStr "abc"; int 3];
                  [int 254; int 10; VStr SA_TRACKING_COL] ] ]> ∅),
        Summary 1 0 1
          [LogInvalid 2 (VStr "abc"); LogCreated "254"; LogPasted "254" 3 6]).
Proof.
  split; [|split; [reflexivity | vm_compute; reflexivity]].
  intros fails tci tc r row rest st Hm Hk Hv st'.
  pose proof (processRow_invalid fails tci tc r row st Hm Hk Hv) as H.
  split; [exact H|]. simpl. rewrite H. reflexivity.
Qed.

(** The row "abc" of the example gets its warning. *)
Lemma invalid_key_warns_and_skips_witness :
  processRow noFaults 3 (int 1) 1 [VStr "abc"; int 3; blank]
    (mkLoopState bookInvalidThenValid 0 0 0 [])
  = Next (mkLoopState bookInvalidThenValid 0 0 0 [LogInvalid 2 (VStr "abc")]).
Proof.
  destruct invalid_key_warns_and_skips as (H & _).
  destruct (H noFaults 3 (int 1) 1 [VStr "abc"; int 3; blank] []
              (mkLoopState bookInvalidThenValid 0 0 0 [])
              eq_refl eq_refl eq_refl) as (Hbody & _).
  exact Hbody.
Defined.

Lemma countb_disjoint {A : Type} (p q : A -> bool) (l : list A) :
  (forall x, p x = true -> q x = false) ->
  countb p l + countb q l <= length l
  /\ ((exists x, x ∈ l /\ p x = false /\ q x = false) ->
      countb p l + countb q l < length l).
Proof.
  intros Hpq. induction l as [|x l [IH1 IH2]].
  - unfold countb. simpl. split; [lia|]. intros (x & Hx & _).
    apply elem_of_nil in Hx. contradiction.
  - rewrite !countb_cons. simpl length. specialize (Hpq x).
    split.
    + destruct (p x), (q x); try lia; specialize (Hpq eq_refl); discriminate.
    + intros (y & Hy & Hpy & Hqy). apply elem_of_cons in Hy as [->|Hy].
      * rewrite Hpy, Hqy. lia.
      * assert (countb p l + countb q l < length l) by (apply IH2; eauto).
        destruct (p x), (q x); try lia; specialize (Hpq eq_refl); discriminate.
Qed.

(** What a run that ended with its summary did to the source tab, and
    what its counters count. *)
Lemma run_Summary (fails : Faults) (ss ss1 : Workbook) (p s n : nat)
  (l : list LogEntry) :
  pushSADataToTeamSheetsWith fails ss = (ss1, Summary p s n l) ->
  exists src tci src',
    ss !! SA_SOURCE_SHEET = Some src
    /\ 2 <= getLastRow src
    /\ getOrCreateTrackingColumn src (getLastColumn src) = Some (tci, src')
    /\ 0 < tci
    /\ ss1 !! SA_SOURCE_SHEET
       = Some (markRows tci (int 1) 1 (dataRows src' tci (getLastRow src)) src')
    /\ p = countb (pushable tci (int 1)) (dataRows src' tci (getLastRow src))
    /\ s = countb (fun row => isMarked (trackValOf tci row))
             (dataRows src' tci (getLastRow src)).
Proof.
  intros H. unfold pushSADataToTeamSheetsWith in H.
  destruct (ss !! SA_SOURCE_SHEET) as [src|] eqn:Hsrc; [|discriminate].
  destruct (getLastRow src <? 2) eqn:Hrows; [discriminate|].
  apply Nat.ltb_ge in Hrows.
  rewrite teamColIndex_is_1 in H. simpl negb in H. cbv iota in H.
  destruct (getOrCreateTrackingColumn src (getLastColumn src)) as [[tci src']|] eqn:Hcol;
    [|discriminate].
  pose proof (run_unfold fails ss src src' tci Hsrc Hrows Hcol) as Hrun.
  unfold pushSADataToTeamSheetsWith in Hrun.
  rewrite Hsrc in Hrun. replace (getLastRow src <? 2) with false in Hrun
    by (symmetry; apply Nat.ltb_ge; exact Hrows).
  rewrite teamColIndex_is_1 in Hrun. simpl negb in Hrun. cbv iota in Hrun.
  rewrite Hcol in Hrun. rewrite Hrun in H. clear Hrun.
  destruct (loop fails tci (int 1) 1 _ _) as [st|w r] eqn:Hloop; [|discriminate].
  destruct (loop_Finished fails tci (int 1) _ 1 _ st src'
              (lookup_insert_eq ss SA_SOURCE_SHEET src') Hloop) as (Hs & Hp & Hsk & _).
  destruct (getOrCreateTrackingColumn_post src _ tci src' (Nat.le_refl _) Hcol)
    as [(Hpos & _) _].
  simpl in Hp, Hsk. inversion H; subst.
  exists src, tci, src'. repeat split; assumption.
Qed.

(** C9, the claim as stated fails: a row whose key is empty and whose
    tracking cell already holds the mark is counted as skipped. *)
Lemma marked_empty_key_is_counted :
  isEmptyKey blank = true
  /\ pushSADataToTeamSheets bookMarkedEmptyKey = (bookMarkedEmptyKey, Summary 0 1 0 []).
Proof. split; vm_compute; reflexivity. Qed.

(** C9 (amended): for every data row that is not marked yet and whose
    key is the empty string, [null] or [undefined], the loop body leaves
    the whole state as it is (no write to any tab, no mark, no counter,
    no log line) and the loop goes on.  In a run that ends with its
    summary such a row makes pushed + skipped less than the number of
    data rows, and the cells of the row in the source tab are after the
    run what they were before, so the next run meets the row unmarked
    and with an empty key again. *)
Theorem empty_key_row_is_passed_over :
  (forall (fails : Faults) (tci : nat) (tc : Value) (r : nat)
          (row : list Value) (rest : list (list Value)) (st : LoopState),
      isMarked (trackValOf tci row) = false ->
      isEmptyKey (rawTeamOf tc row) = true ->
      processRow fails tci tc r row st = Next st
      /\ loop fails tci tc r (row :: rest) st = loop fails tci tc (S r) rest st)
  /\ (isEmptyKey (VStr "") = true /\ isEmptyKey VNull = true
      /\ isEmptyKey VUndef = true)
  /\ (forall (fails : Faults) (ss ss1 : Workbook) (p s n : nat) (l : list LogEntry)
             (src src' : Sheet) (tci i : nat),
        pushSADataToTeamSheetsWith fails ss = (ss1, Summary p s n l) ->
        ss !! SA_SOURCE_SHEET = Some src ->
        getOrCreateTrackingColumn src (getLastColumn src) = Some (tci, src') ->
        2 <= i <= getLastRow src ->
        isMarked (cellAt src' i tci) = false ->
        isEmptyKey (cellAt src' i 1) = true ->
        p + s < getLastRow src - 1
        /\ exists s1, ss1 !! SA_SOURCE_SHEET = Some s1
                      /\ forall c, 0 < c -> cellAt s1 i c = cellAt src' i c)
  /\ pushSADataToTeamSheets bookEmptyKey = (bookEmptyKey, Summary 0 1 0 []).
Proof.
  split; [|split; [repeat split | split; [|vm_compute; reflexivity]]].
  - intros fails tci tc r row rest st Hm Hk.
    pose proof (processRow_empty_key fails tci tc r row st Hm Hk) as H.
    split; [exact H|]. simpl. rewrite H. reflexivity.
  - intros fails ss ss1 p s n l src src' tci i Hrun Hsrc Hcol Hi Hm Hk.
    destruct (run_Summary fails ss ss1 p s n l Hrun)
      as (src0 & tci0 & src0' & Hsrc0 & Hrows & Hcol0 & Hpos & Hs1 & -> & ->).
    rewrite Hsrc in Hsrc0. injection Hsrc0 as <-.
    rewrite Hcol in Hcol0. apply Some_pair_inj in Hcol0 as [<- <-].
    set (rows := dataRows src' tci (getLastRow src)) in *.
    assert (Hrow : rows !! (i - 1 - 1) = Some (snapRow src' tci i)).
    { unfold rows. rewrite lookup_dataRows by lia. do 2 f_equal. lia. }
    assert (Hnp : pushable tci (int 1) (snapRow src' tci i) = false).
    { unfold pushable. rewrite rawTeamOf_snapRow by exact Hpos. rewrite Hk.
      rewrite andb_false_r. reflexivity. }
    split.
    + destruct (countb_disjoint (pushable tci (int 1))
                  (fun row => isMarked (trackValOf tci row)) rows) as [_ Hlt].
      { intros row Hp. apply pushable_true in Hp as (Hp & _). exact Hp. }
      assert (Hlen : length rows = getLastRow src - 1)
        by (unfold rows; apply length_dataRows).
      rewrite Hlen in Hlt. apply Hlt.
      exists (snapRow src' tci i). split.
      * apply list_elem_of_lookup. eexists. exact Hrow.
      * split; [exact Hnp|]. rewrite trackValOf_snapRow by exact Hpos. exact Hm.
    + eexists. split; [exact Hs1|]. intros c Hc.
      rewrite cellAt_markRows by lia. rewrite decide_False; [reflexivity|].
      intros (_ & _ & H). fold rows in H. rewrite Hrow in H. simpl in H. congruence.
Qed.

(** The row with the empty key of the example is passed over. *)
Lemma empty_key_row_is_passed_over_witness :
  processRow noFaults 3 (int 1) 1 [blank; int 5; blank]
    (mkLoopState bookEmptyKey 0 0 0 [])
  = Next (mkLoopState bookEmptyKey 0 0 0 []).
Proof.
  destruct empty_key_row_is_passed_over as (H & _).
  destruct (H noFaults 3 (int 1) 1 [blank; int 5; blank] []
              (mkLoopState bookEmptyKey 0 0 0 []) eq_refl eq_refl) as (Hbody & _).
  exact Hbody.
Defined.

(** ** Failure and retry *)

(** A loop that stopped with an exception stopped at a pushable row,
    and the source tab then holds the marks of the rows before it
    only. *)
Lemma loop_Aborted (fails : Faults) (tci : nat) (tc : Value)
  (rows : list (list Value)) (r : nat) (st : LoopState) (s : Sheet)
  (w : Workbook) (r' : nat) :
  wb st !! SA_SOURCE_SHEET = Some s ->
  loop fails tci tc r rows st = Aborted w r' ->
  exists j row,
    r' = r + j
    /\ rows !! j = Some row
    /\ pushable tci tc row = true
    /\ w !! SA_SOURCE_SHEET = Some (markRows tci tc r (take j rows) s).
Proof.
  revert r st s. induction rows as [|row rows IH]; intros r st s Hs H; simpl in H.
  - discriminate.
  - destruct (processRow fails tci tc r row st) as [st1|w1] eqn:E.
    + assert (Hs1 : wb st1 !! SA_SOURCE_SHEET
                    = Some (if pushable tci tc row
                            then setCell (r + 1) tci (VStr SA_TRACKING_COL) s
                            else s)).
      { destruct (pushable tci tc row) eqn:Hp.
        - apply pushable_true in Hp as (Hm & Hk & Hv).
          destruct (processRow_valid_Next fails tci tc r row st st1 Hm Hk Hv E)
            as (cursor & s0 & _ & _ & _ & Hs0 & _ & _ & ->).
          rewrite Hs in Hs0. injection Hs0 as <-. simpl. apply lookup_insert_eq.
        - destruct (processRow_not_pushable fails tci tc r row st Hp)
            as (st2 & E2 & Hw & _).
          rewrite E in E2. injection E2 as <-. rewrite Hw. exact Hs. }
      destruct (IH (S r) st1 _ Hs1 H) as (j & row' & -> & Hj & Hp & Hw).
      exists (S j), row'. split; [lia|]. split; [exact Hj|]. split; [exact Hp|].
      simpl. exact Hw.
    + injection H as <- <-. exists 0, row. split; [lia|]. split; [reflexivity|].
      split.
      * destruct (pushable tci tc row) eqn:Hp; [reflexivity|].
        destruct (processRow_not_pushable fails tci tc r row st Hp) as (st2 & E2 & _).
        rewrite E in E2. discriminate.
      * simpl. rewrite <- Hs. apply (processRow_Raise_source_any _ _ _ _ _ _ _ E).
Qed.

(** C6: the mark is written after the paste.  When the body counts a
    row as pushed, the paste did not fail and the mark went onto a
    workbook that already held the pasted row.  When the body throws,
    for a failing paste or anything else, the source tab is what it was
    before the body: the row is not marked.  So after a run that stopped
    with an exception at row index [r], the cells of that row in the
    source tab are what they were, its tracking cell is not a mark, the
    tracking column is found at the same index, and the row is one that
    the next run tries to paste again. *)
Theorem mark_after_paste :
  (forall (fails : Faults) (tci : nat) (tc : Value) (r : nat)
          (row : list Value) (st st' : LoopState),
      processRow fails tci tc r row st = Next st' ->
      pushed st' = S (pushed st) ->
      exists (w2 : Workbook) (s : Sheet) (cursor : nat),
        fails r OpPaste = false
        /\ findLastContentRow (default [] (wb st !! teamStrOf tc row)) = Some cursor
        /\ w2 !! teamStrOf tc row
           = Some (setRowCells (cursor + SA_ROWS_GAP + 1) 1 (take (tci - 1) row)
                     (default [] (wb st !! teamStrOf tc row)))
        /\ w2 !! SA_SOURCE_SHEET = Some s
        /\ wb st !! SA_SOURCE_SHEET = Some s
        /\ wb st' = <[ SA_SOURCE_SHEET :=
                         setCell (r + 1) tci (VStr SA_TRACKING_COL) s ]> w2)
  /\ (forall (fails : Faults) (tci : nat) (tc : Value) (r : nat)
             (row : list Value) (st : LoopState) (w : Workbook),
        processRow fails tci tc r row st = Raise w ->
        w !! SA_SOURCE_SHEET = wb st !! SA_SOURCE_SHEET)
  /\ (forall (fails : Faults) (ss ss1 : Workbook) (r : nat)
             (src src' : Sheet) (tci : nat),
        pushSADataToTeamSheetsWith fails ss = (ss1, Exception (Some r)) ->
        ss !! SA_SOURCE_SHEET = Some src ->
        getOrCreateTrackingColumn src (getLastColumn src) = Some (tci, src') ->
        exists s1,
          ss1 !! SA_SOURCE_SHEET = Some s1
          /\ 1 <= r < getLastRow src
          /\ getLastRow s1 = getLastRow src
          /\ getOrCreateTrackingColumn s1 (getLastColumn s1) = Some (tci, s1)
          /\ (forall c, 0 < c -> cellAt s1 (r + 1) c = cellAt src' (r + 1) c)
          /\ isMarked (cellAt s1 (r + 1) tci) = false
          /\ pushable tci (int 1) (snapRow s1 tci (r + 1)) = true)
  /\ (pushSADataToTeamSheetsWith (failPasteAt 3) bookTwoRuns).2 = Exception (Some 3)
  /\ (pushSADataToTeamSheets
        (pushSADataToTeamSheetsWith (failPasteAt 3) bookTwoRuns).1).2
     = Summary 1 1 0 [LogInvalid 3 (VStr "abc"); LogPasted "254" 4 12].
Proof.
  split; [|split; [|split; [|split; vm_compute; reflexivity]]].
  - intros fails tci tc r row st st' H Hp.
    destruct (processRow_pushed_inv fails tci tc r row st st' H) as (Hm & Hk & Hv);
      [lia|].
    destruct (processRow_valid_Next fails tci tc r row st st' Hm Hk Hv H)
      as (cursor & s & Hcur & _ & _ & Hsrc & Hpaste & _ & ->).
    pose proof (teamStr_not_source tc row Hv) as Hne.
    eexists _, s, cursor. split; [exact Hpaste|]. split; [exact Hcur|].
    split; [apply lookup_insert_eq|]. split; [|split; [exact Hsrc | reflexivity]].
    rewrite lookup_insert_ne by exact Hne.
    rewrite getOrInsertSheet_lookup_ne by exact Hne. exact Hsrc.
  - intros fails tci tc r row st w H.
    exact (processRow_Raise_source_any fails tci tc r row st w H).
  - intros fails ss ss1 r src src' tci H Hsrc Hcol.
    unfold pushSADataToTeamSheetsWith in H. rewrite Hsrc in H.
    destruct (getLastRow src <? 2) eqn:Hrows; [discriminate|].
    apply Nat.ltb_ge in Hrows.
    pose proof (run_unfold fails ss src src' tci Hsrc Hrows Hcol) as Hrun.
    unfold pushSADataToTeamSheetsWith in Hrun.
    rewrite Hsrc in Hrun. replace (getLastRow src <? 2) with false in Hrun
      by (symmetry; apply Nat.ltb_ge; exact Hrows).
    rewrite Hrun in H. clear Hrun.
    destruct (loop fails tci (int 1) 1 _ _) as [st|w r'] eqn:Hloop; [discriminate|].
    apply pair_equal_spec in H as [<- H]. injection H as <-.
    destruct (loop_Aborted fails tci (int 1) _ 1 _ src' w r'
                (lookup_insert_eq ss SA_SOURCE_SHEET src') Hloop)
      as (j & row & -> & Hj & Hp & Hw).
    set (n := getLastRow src) in *.
    set (rows := dataRows src' tci n) in *.
    destruct (getOrCreateTrackingColumn_post src _ tci src' (Nat.le_refl _) Hcol)
      as [Ht _]. pose proof Ht as (Hpos & _).
    assert (Hjn : j < n - 1).
    { apply lookup_lt_Some in Hj. unfold rows in Hj.
      rewrite length_dataRows in Hj. exact Hj. }
    unfold rows in Hj. rewrite lookup_dataRows in Hj by exact Hjn.
    injection Hj as <-.
    assert (Hn' : getLastRow src' = n)
      by (apply (getLastRow_tracking src src' (getLastColumn src) tci);
          [unfold n in *; lia | exact Hcol]).
    set (s1 := markRows tci (int 1) 1 (take j rows) src') in *.
    assert (Hcells : forall c, 0 < c -> cellAt s1 (1 + j + 1) c = cellAt src' (1 + j + 1) c).
    { intros c Hc. unfold s1. rewrite cellAt_markRows by lia.
      rewrite decide_False; [reflexivity|]. intros (_ & _ & H).
      replace (1 + j + 1 - 1 - 1) with j in H by lia.
      rewrite lookup_take_ge in H by lia. discriminate H. }
    assert (Ht1 : trackingAt s1 tci).
    { apply (trackingAt_header_eq src'); [|exact Ht].
      intros c Hc. unfold s1. rewrite cellAt_markRows by lia.
      rewrite decide_False by lia. reflexivity. }
    assert (Hrow : snapRow s1 tci (1 + j + 1) = snapRow src' tci (j + 2)).
    { unfold snapRow. replace (j + 2) with (1 + j + 1) by lia.
      apply map_ext_in. intros c Hc. apply in_seq in Hc. apply Hcells. lia. }
    exists s1. split; [exact Hw|]. split; [lia|]. split.
    { unfold getLastRow, s1. rewrite length_markRows; [exact Hn' | exact Hpos |].
      rewrite length_take. unfold rows. rewrite length_dataRows.
      unfold getLastRow in Hn'. lia. }
    split.
    { apply getOrCreateTrackingColumn_found; [exact Ht1|].
      apply trackingAt_le_getLastColumn. exact Ht1. }
    split; [exact Hcells|].
    rewrite Hrow. split; [|exact Hp].
    apply pushable_true in Hp as (Hm & _).
    rewrite trackValOf_snapRow in Hm by exact Hpos.
    rewrite Hcells by exact Hpos. replace (1 + j + 1) with (j + 2) by lia. exact Hm.
Qed.

(** The run of the example whose paste of row index 3 fails. *)
Lemma mark_after_paste_witness :
  exists s1,
    (pushSADataToTeamSheetsWith (failPasteAt 3) bookTwoRuns).1 !! SA_SOURCE_SHEET
    = Some s1
    /\ isMarked (cellAt s1 (3 + 1) 3) = false
    /\ pushable 3 (int 1) (snapRow s1 3 (3 + 1)) = true.
Proof.
  destruct mark_after_paste as (_ & _ & H & _).
  destruct (H (failPasteAt 3) bookTwoRuns
              (pushSADataToTeamSheetsWith (failPasteAt 3) bookTwoRuns).1 3
              [ [VStr "Team"; VStr "Score"];
                [int 254; int 10]; [VStr "abc"; int 3]; [VStr "254"; int 7] ]
              [ [VStr "Team"; VStr "Score"; VStr SA_TRACKING_COL];
                [int 254; int 10]; [VStr "abc"; int 3]; [VStr "254"; int 7] ]
              3 eq_refl eq_refl eq_refl)
    as (s1 & Hs1 & _ & _ & _ & _ & Hm & Hp).
  exists s1. split; [exact Hs1|]. split; [exact Hm | exact Hp].
Defined.

(** ** The forced re-paste *)

Lemma cellAt_clearRows (tci : nat) (rs : list nat) (sh : Sheet) (i c : nat) :
  0 < tci -> 0 < i -> 0 < c -> Forall (fun r => 0 < r) rs ->
  cellAt (foldl (fun s r => setCell r tci blank s) sh rs) i c =
  if decide (c = tci /\ i ∈ rs) then blank else cellAt sh i c.
Proof.
  intros Ht Hi Hc Hrs. revert sh. induction Hrs as [|r rs Hr _ IH]; intros sh; simpl.
  - rewrite decide_False; [reflexivity|]. intros [_ H]. apply elem_of_nil in H.
    contradiction.
  - rewrite IH. rewrite cellAt_setCell by lia.
    destruct (decide (c = tci /\ i ∈ rs)) as [H|H].
    + rewrite decide_True; [reflexivity|]. destruct H as [? H]. split; [assumption|].
      apply elem_of_cons. right. exact H.
    + destruct (decide (r = i /\ tci = c)) as [[-> ->]|H'].
      * rewrite decide_True; [reflexivity|]. split; [reflexivity|].
        apply elem_of_cons. left. reflexivity.
      * rewrite decide_False; [reflexivity|]. intros [-> Hin].
        apply elem_of_cons in Hin as [->|Hin]; [apply H'; auto | apply H; auto].
Qed.

Lemma length_clearRows (tci : nat) (rs : list nat) (sh : Sheet) :
  0 < tci -> Forall (fun r => r <= length sh) rs ->
  length (foldl (fun s r => setCell r tci blank s) sh rs) = length sh.
Proof.
  intros Ht Hrs. revert sh Hrs. induction rs as [|r rs IH]; intros sh Hrs; simpl.
  - reflexivity.
  - apply Forall_cons in Hrs as [Hr Hrs].
    assert (Hlen : length (setCell r tci blank sh) = length sh)
      by (rewrite length_setCell by lia; lia).
    rewrite IH; [exact Hlen|]. rewrite Hlen. exact Hrs.
Qed.

Lemma clearContent_clearedFrom (sh : Sheet) (tci lastRow : nat) :
  0 < tci -> 1 < lastRow ->
  clearContent sh 2 tci (lastRow - 1) = Some (clearedFrom sh tci lastRow).
Proof.
  intros Ht Hl. unfold clearContent, clearedFrom.
  destruct tci as [|t]; [lia|]. destruct (lastRow - 1) as [|m] eqn:E; [lia|].
  reflexivity.
Qed.

Lemma cellAt_clearedFrom (sh : Sheet) (tci lastRow i c : nat) :
  0 < tci -> 0 < i -> 0 < c ->
  cellAt (clearedFrom sh tci lastRow) i c =
  if decide (c = tci /\ 2 <= i <= lastRow) then blank else cellAt sh i c.
Proof.
  intros Ht Hi Hc. unfold clearedFrom. rewrite cellAt_clearRows; try assumption.
  - destruct (decide (c = tci /\ i ∈ seq 2 (lastRow - 1))) as [[H1 H2]|H].
    + apply elem_of_seq in H2. rewrite decide_True by lia. reflexivity.
    + rewrite decide_False; [reflexivity|]. intros [H1 H2]. apply H.
      split; [exact H1|]. apply elem_of_seq. lia.
  - apply Forall_forall. intros r Hr. apply elem_of_seq in Hr. lia.
Qed.

Lemma length_clearedFrom (sh : Sheet) (tci lastRow : nat) :
  0 < tci -> lastRow <= length sh -> length (clearedFrom sh tci lastRow) = length sh.
Proof.
  intros Ht Hl. unfold clearedFrom. apply length_clearRows; [exact Ht|].
  apply Forall_forall. intros r Hr. apply elem_of_seq in Hr. lia.
Qed.

(** The forced run is the run on the workbook whose tracking cells are
    cleared. *)
Lemma FORCE_unfold (fails : Faults) (ss : Workbook) (src src1 : Sheet) (tci : nat) :
  ss !! SA_SOURCE_SHEET = Some src ->
  getOrCreateTrackingColumn src (getLastColumn src) = Some (tci, src1) ->
  1 < getLastRow src ->
  pushSADataToTeamSheets_FORCE_With fails ss =
  pushSADataToTeamSheetsWith fails
    (<[ SA_SOURCE_SHEET := clearedFrom src1 tci (getLastRow src) ]> ss).
Proof.
  intros Hsrc Hcol Hrows. unfold pushSADataToTeamSheets_FORCE_With.
  rewrite Hsrc, Hcol.
  destruct (getOrCreateTrackingColumn_post src _ tci src1 (Nat.le_refl _) Hcol)
    as [(Hpos & _) _].
  replace (1 <? getLastRow src) with true by (symmetry; apply Nat.ltb_lt; exact Hrows).
  unfold updateSheet. rewrite lookup_insert_eq.
  rewrite clearContent_clearedFrom by assumption.
  rewrite insert_insert_eq. reflexivity.
Qed.

(** ** What a run keeps *)

Lemma keepsContent_refl (w : Workbook) : keepsContent w w.
Proof. intros name dst _ H. exists dst. split; [exact H | reflexivity]. Qed.

Lemma keepsContent_trans (w1 w2 w3 : Workbook) :
  keepsContent w1 w2 -> keepsContent w2 w3 -> keepsContent w1 w3.
Proof.
  intros H12 H23 name dst Hne H.
  destruct (H12 name dst Hne H) as (dst2 & H2 & Hc2).
  destruct (H23 name dst2 Hne H2) as (dst3 & H3 & Hc3).
  exists dst3. split; [exact H3|]. intros r c Hc.
  rewrite Hc3 by (rewrite Hc2 by exact Hc; exact Hc). apply Hc2. exact Hc.
Qed.

Lemma processRow_keepsContent (fails : Faults) (tci : nat) (tc : Value) (r : nat)
  (row : list Value) (st st' : LoopState) :
  processRow fails tci tc r row st = Next st' -> keepsContent (wb st) (wb st').
Proof.
  intros E. destruct (pushable tci tc row) eqn:Hp.
  2:{ destruct (processRow_not_pushable fails tci tc r row st Hp) as (st2 & E2 & Hw & _).
      rewrite E in E2. injection E2 as <-. rewrite Hw. apply keepsContent_refl. }
  apply pushable_true in Hp as (Hm & Hk & Hv).
  destruct (processRow_valid_Next fails tci tc r row st st' Hm Hk Hv E)
    as (cursor & s0 & Hcur & _ & _ & _ & _ & _ & ->).
  intros name dst Hne H. simpl. rewrite lookup_insert_ne by congruence.
  destruct (decide (teamStrOf tc row = name)) as [<-|Hn].
  - rewrite lookup_insert_eq. eexists. split; [reflexivity|].
    rewrite H in *. simpl in *. intros r' c' Hc.
    apply setRowCells_below_cursor; assumption.
  - rewrite lookup_insert_ne by exact Hn.
    rewrite getOrInsertSheet_lookup_ne by exact Hn.
    exists dst. split; [exact H | reflexivity].
Qed.

Lemma loop_keepsContent (fails : Faults) (tci : nat) (tc : Value)
  (rows : list (list Value)) (r : nat) (st st' : LoopState) :
  loop fails tci tc r rows st = Finished st' -> keepsContent (wb st) (wb st').
Proof.
  revert r st. induction rows as [|row rows IH]; intros r st H; simpl in H.
  - injection H as <-. apply keepsContent_refl.
  - destruct (processRow fails tci tc r row st) as [st1|w] eqn:E; [|discriminate].
    apply (keepsContent_trans _ (wb st1)).
    + exact (processRow_keepsContent fails tci tc r row st st1 E).
    + exact (IH (S r) st1 H).
Qed.

Lemma countb_all {A : Type} (p : A -> bool) (l : list A) :
  Forall (fun x => p x = true) l -> countb p l = length l.
Proof.
  induction 1 as [|x l Hx _ IH]; [reflexivity|].
  rewrite countb_cons, Hx, IH. reflexivity.
Qed.

Lemma countb_none {A : Type} (p : A -> bool) (l : list A) :
  Forall (fun x => p x = false) l -> countb p l = 0.
Proof.
  induction 1 as [|x l Hx _ IH]; [reflexivity|].
  rewrite countb_cons, Hx, IH. reflexivity.
Qed.

(** The forced run on a source tab whose data rows all have valid keys:
    every row is pasted again and marked again. *)
Lemma force_repastes_all (ss : Workbook) (src : Sheet) (tci : nat) :
  ss !! SA_SOURCE_SHEET = Some src ->
  2 <= getLastRow src ->
  trackingAt src tci ->
  1 < tci ->
  (forall i, 2 <= i <= getLastRow src ->
             isEmptyKey (cellAt src i 1) = false
             /\ invalidTeam (cellAt src i 1) = false) ->
  exists (ss' : Workbook) (created : nat) (l : list LogEntry) (s' : Sheet),
    pushSADataToTeamSheets_FORCE ss
    = (ss', Summary (getLastRow src - 1) 0 created l)
    /\ ss' !! SA_SOURCE_SHEET = Some s'
    /\ (forall i, 2 <= i <= getLastRow src -> cellAt s' i tci = VStr SA_TRACKING_COL)
    /\ keepsContent ss ss'.
Proof.
  intros Hsrc Hrows Ht Htci Hkeys.
  set (n := getLastRow src) in *.
  assert (Hcol : getOrCreateTrackingColumn src (getLastColumn src) = Some (tci, src)).
  { apply getOrCreateTrackingColumn_found; [exact Ht|].
    apply trackingAt_le_getLastColumn. exact Ht. }
  unfold pushSADataToTeamSheets_FORCE.
  rewrite (FORCE_unfold noFaults ss src src tci Hsrc Hcol) by (fold n; lia).
  fold n. set (cleared := clearedFrom src tci n).
  set (ss2 := <[ SA_SOURCE_SHEET := cleared ]> ss).
  assert (Hlen : getLastRow cleared = n).
  { unfold getLastRow, cleared. rewrite length_clearedFrom; [reflexivity | lia |].
    unfold n, getLastRow. lia. }
  assert (Ht2 : trackingAt cleared tci).
  { apply (trackingAt_header_eq src); [|exact Ht]. intros c Hc.
    unfold cleared. rewrite cellAt_clearedFrom by lia.
    rewrite decide_False by lia. reflexivity. }
  assert (Hcol2 : getOrCreateTrackingColumn cleared (getLastColumn cleared)
                  = Some (tci, cleared)).
  { apply getOrCreateTrackingColumn_found; [exact Ht2|].
    apply trackingAt_le_getLastColumn. exact Ht2. }
  assert (Hs2 : ss2 !! SA_SOURCE_SHEET = Some cleared) by apply lookup_insert_eq.
  rewrite (run_unfold noFaults ss2 cleared cleared tci Hs2 ltac:(lia) Hcol2).
  rewrite Hlen. unfold ss2 at 1. rewrite insert_insert_eq. fold ss2.
  set (rows := dataRows cleared tci n).
  assert (Hall : Forall (fun row => pushable tci (int 1) row = true /\ row <> []) rows).
  { apply Forall_lookup. intros j row Hj.
    assert (Hjn : j < n - 1).
    { apply lookup_lt_Some in Hj. unfold rows in Hj.
      rewrite length_dataRows in Hj. exact Hj. }
    unfold rows in Hj. rewrite lookup_dataRows in Hj by exact Hjn.
    injection Hj as <-. split.
    - apply pushable_true.
      rewrite trackValOf_snapRow, rawTeamOf_snapRow by lia.
      unfold cleared. rewrite !cellAt_clearedFrom by lia.
      rewrite decide_True by lia. rewrite decide_False by lia.
      split; [reflexivity|]. apply Hkeys. lia.
    - intros E. apply (f_equal length) in E. rewrite length_snapRow in E.
      simpl in E. lia. }
  destruct (loop_noFaults tci (int 1) rows 1 (mkLoopState ss2 0 0 0 []) cleared)
    as (st & Hloop); [exact Htci | | exact Hs2 |].
  { eapply Forall_impl; [exact Hall|]. intros row [_ H]. exact H. }
  rewrite Hloop.
  destruct (loop_Finished noFaults tci (int 1) rows 1
              (mkLoopState ss2 0 0 0 []) st cleared Hs2 Hloop)
    as (Hs' & Hp & Hsk & _).
  simpl in Hp, Hsk.
  rewrite countb_all in Hp
    by (eapply Forall_impl; [exact Hall|]; intros row [H _]; exact H).
  rewrite countb_none in Hsk.
  2:{ eapply Forall_impl; [exact Hall|]. intros row [H _].
      apply pushable_true in H as (H & _). exact H. }
  assert (Hrl : length rows = n - 1) by (unfold rows; apply length_dataRows).
  rewrite Hrl in Hp. rewrite Hp, Hsk.
  exists (wb st), (newSheets st), (log st), (markRows tci (int 1) 1 rows cleared).
  split; [reflexivity|]. split; [exact Hs'|]. split.
  - intros i Hi. rewrite cellAt_markRows by lia.
    rewrite decide_True; [reflexivity|]. split; [reflexivity|]. split; [lia|].
    assert (Hi' : i - 1 - 1 < n - 1) by lia.
    unfold rows at 1. rewrite lookup_dataRows by exact Hi'. simpl. f_equal.
    rewrite Forall_lookup in Hall.
    destruct (Hall (i - 1 - 1) (snapRow cleared tci (i - 1 - 1 + 2))) as [H _];
      [unfold rows; apply lookup_dataRows; exact Hi' | exact H].
  - apply (keepsContent_trans _ ss2).
    + intros name dst Hne H. exists dst. split; [|reflexivity].
      unfold ss2. rewrite lookup_insert_ne by congruence. exact H.
    + exact (loop_keepsContent noFaults tci (int 1) rows 1 _ st Hloop).
Qed.

(** C7: the forced run clears the tracking cell of every data row, the
    rows 2 to the last row, leaves every other cell of the source tab as
    it is, and is then the normal run on that workbook (with no data
    row there is nothing to clear and it is the normal run).  For a source
    tab of three data rows that are marked and have valid keys (the
    tracking column being, as after any migration, to the right of
    column 1) the forced run without faults ends with pushed = 3 and
    skipped = 0, the three tracking cells hold the mark again, and every
    cell of a team tab that was non-empty holds the same value: the
    rows are pasted below it.  In the example the copies of the rows in
    rows 6 and 12 of tab 254 arrive in its rows 18 and 24. *)
Theorem force_reset_repastes :
  (forall (fails : Faults) (ss : Workbook) (src src1 : Sheet) (tci : nat),
      ss !! SA_SOURCE_SHEET = Some src ->
      getOrCreateTrackingColumn src (getLastColumn src) = Some (tci, src1) ->
      1 < getLastRow src ->
      let cleared := clearedFrom src1 tci (getLastRow src) in
      (forall i, 2 <= i <= getLastRow src -> cellAt cleared i tci = blank)
      /\ (forall i c, 0 < i -> 0 < c -> c <> tci \/ i = 1 ->
                      cellAt cleared i c = cellAt src1 i c)
      /\ pushSADataToTeamSheets_FORCE_With fails ss
         = pushSADataToTeamSheetsWith fails (<[ SA_SOURCE_SHEET := cleared ]> ss))
  /\ (forall (fails : Faults) (ss : Workbook) (src src1 : Sheet) (tci : nat),
        ss !! SA_SOURCE_SHEET = Some src ->
        getOrCreateTrackingColumn src (getLastColumn src) = Some (tci, src1) ->
        getLastRow src <= 1 ->
        pushSADataToTeamSheets_FORCE_With fails ss
        = pushSADataToTeamSheetsWith fails (<[ SA_SOURCE_SHEET := src1 ]> ss))
  /\ (forall (ss : Workbook) (src : Sheet) (tci : nat),
        ss !! SA_SOURCE_SHEET = Some src ->
        getLastRow src = 4 ->
        trackingAt src tci ->
        1 < tci ->
        (forall i, 2 <= i <= 4 ->
                   isMarked (cellAt src i tci) = true
                   /\ isEmptyKey (cellAt src i 1) = false
                   /\ invalidTeam (cellAt src i 1) = false) ->
        exists (ss' : Workbook) (created : nat) (l : list LogEntry) (s' : Sheet),
          pushSADataToTeamSheets_FORCE ss = (ss', Summary 3 0 created l)
          /\ ss' !! SA_SOURCE_SHEET = Some s'
          /\ (forall i, 2 <= i <= 4 -> cellAt s' i tci = VStr SA_TRACKING_COL)
          /\ keepsContent ss ss')
  /\ (bookThreeMigrated !! SA_SOURCE_SHEET = Some sheetThreeMigrated
      /\ bookThreeMigrated !! "254"
         = Some [ []; []; []; []; []; [int 254; int 10];
                  []; []; []; []; []; [VStr "254"; int 7] ]
      /\ pushSADataToTeamSheets_FORCE bookThreeMigrated
         = (<[ "254" := [ []; []; []; []; []; [int 254; int 10];
                          []; []; []; []; []; [VStr "254"; int 7];
                          []; []; []; []; []; [int 254; int 10];
                          []; []; []; []; []; [VStr "254"; int 7] ] ]>
              (<[ "1678" := [ []; []; []; []; []; [int 1678; int 3];
                              []; []; []; []; []; [int 1678; int 3] ] ]>
                 (<[ SA_SOURCE_SHEET := sheetThreeMigrated ]> ∅)),
            Summary 3 0 0 [LogPasted "254" 2 18; LogPasted "1678" 3 12;
                           LogPasted "254" 4 24])).
Proof.
  split; [|split; [|split]].
  - intros fails ss src src1 tci Hsrc Hcol Hrows cleared.
    destruct (getOrCreateTrackingColumn_post src _ tci src1 (Nat.le_refl _) Hcol)
      as [(Hpos & _) _].
    split; [|split].
    + intros i Hi. unfold cleared. rewrite cellAt_clearedFrom by lia.
      rewrite decide_True by lia. reflexivity.
    + intros i c Hi Hc H. unfold cleared. rewrite cellAt_clearedFrom by lia.
      rewrite decide_False by lia. reflexivity.
    + exact (FORCE_unfold fails ss src src1 tci Hsrc Hcol Hrows).
  - intros fails ss src src1 tci Hsrc Hcol Hrows.
    unfold pushSADataToTeamSheets_FORCE_With. rewrite Hsrc, Hcol.
    replace (1 <? getLastRow src) with false
      by (symmetry; apply Nat.ltb_ge; exact Hrows).
    reflexivity.
  - intros ss src tci Hsrc Hrows Ht Htci Hkeys.
    destruct (force_repastes_all ss src tci Hsrc ltac:(lia) Ht Htci)
      as (ss' & created & l & s' & Hrun & Hs' & Hmarks & Hkeep).
    { intros i Hi. rewrite Hrows in Hi. destruct (Hkeys i Hi) as (_ & Hk & Hv).
      split; assumption. }
    rewrite Hrows in Hrun, Hmarks. exists ss', created, l, s'.
    repeat split; assumption.
  - split; [vm_compute; reflexivity|]. split; vm_compute; reflexivity.
Qed.

(** The forced run on the example of three migrated rows. *)
Lemma force_reset_repastes_witness :
  exists (ss' : Workbook) (created : nat) (l : list LogEntry) (s' : Sheet),
    pushSADataToTeamSheets_FORCE bookThreeMigrated = (ss', Summary 3 0 created l)
    /\ ss' !! SA_SOURCE_SHEET = Some s'
    /\ (forall i, 2 <= i <= 4 -> cellAt s' i 3 = VStr SA_TRACKING_COL)
    /\ keepsContent bookThreeMigrated ss'.
Proof.
  destruct force_reset_repastes as (_ & _ & H & _).
  apply (H bookThreeMigrated sheetThreeMigrated 3).
  - vm_compute. reflexivity.
  - reflexivity.
  - split; [lia|]. split; [reflexivity|].
    intros c Hc. assert (c = 1 \/ c = 2) as [->| ->] by lia; discriminate.
  - lia.
  - intros i Hi. assert (i = 2 \/ i = 3 \/ i = 4) as [->|[->| ->]] by lia;
      repeat split; reflexivity.
Defined.

(** * Further properties *)

(** ** Column names *)



Lemma trimStart_head (l : list Z) :
  match trimStart l with
  | [] => True
  | c :: _ => isWhiteSpace c = false
  end.
Proof.
  induction l as [|c l IH]; simpl; [exact I|].
  destruct (isWhiteSpace c) eqn:E; [exact IH | exact E].
Qed.





















(** ** The append cursor and the writes *)

Lemma findLastContentRow_unique (sh : Sheet) (k : nat) :
  (forall r, rowContent sh r -> r <= k) ->
  (k = 0 \/ rowContent sh k) ->
  findLastContentRow sh = Some k.
Proof.
  intros Hall Hat.
  destruct (findLastContentRow_spec sh) as (k' & Hk' & _ & Hafter & Hat').
  rewrite Hk'. f_equal.
  assert (Hle : k' <= k) by (destruct Hat' as [->|Hc]; [lia | apply Hall; exact Hc]).
  assert (Hge : k <= k').
  { destruct Hat as [->|Hc]; [lia|].
    destruct (decide (k <= k')); [assumption|]. exfalso.
    apply (Hafter k); [lia | exact Hc]. }
  lia.
Qed.

Lemma findLastContentRow_content (sh : Sheet) (k : nat) :
  findLastContentRow sh = Some k ->
  (forall r, rowContent sh r -> r <= k) /\ (k = 0 \/ rowContent sh k).
Proof.
  intros Hk. destruct (findLastContentRow_spec sh) as (k' & Hk' & _ & Hafter & Hat).
  rewrite Hk in Hk'. injection Hk' as <-. split; [|exact Hat].
  intros r Hr. destruct (decide (r <= k)); [assumption|].
  exfalso. apply (Hafter r); [lia | exact Hr].
Qed.

Lemma cellAt_app_rows (sh extra : Sheet) (r c : nat) :
  cellAt (sh ++ extra) r c =
  if decide (r <= length sh) then cellAt sh r c else cellAt extra (r - length sh) c.
Proof.
  destruct r as [|i]; [rewrite decide_True by lia; reflexivity|].
  destruct c as [|j].
  { rewrite !cellAt_zero_r. destruct (decide _); reflexivity. }
  destruct (decide (S i <= length sh)) as [H|H].
  - unfold cellAt. rewrite lookup_app_l by lia. reflexivity.
  - unfold cellAt. rewrite lookup_app_r by lia.
    replace (S i - length sh) with (S (i - length sh)) by lia. reflexivity.
Qed.

(** X5: the append cursor depends only on which cells hold content, not
    on the extent that the sheet reports: two sheets with content in the
    same cells have the same cursor, and rows without content that
    trail a sheet, the blank rows that are still reported, never move
    it. *)
Theorem findLastContentRow_ignores_blank_rows :
  (forall sh sh' : Sheet,
      (forall r c, cellHasContent (cellAt sh r c) = cellHasContent (cellAt sh' r c)) ->
      findLastContentRow sh = findLastContentRow sh')
  /\ (forall sh extra : Sheet,
        Forall (fun row => rowHasContent row = false) extra ->
        findLastContentRow (sh ++ extra) = findLastContentRow sh).
Proof.
  assert (Hext : forall sh sh' : Sheet,
             (forall r c, cellHasContent (cellAt sh r c)
                          = cellHasContent (cellAt sh' r c)) ->
             findLastContentRow sh = findLastContentRow sh').
  { intros sh sh' Heq.
    destruct (findLastContentRow_spec sh') as (k & Hk & _).
    rewrite Hk. destruct (findLastContentRow_content sh' k Hk) as [Hall Hat].
    apply findLastContentRow_unique.
    - intros r (c & Hc). apply Hall. exists c. rewrite <- Heq. exact Hc.
    - destruct Hat as [->|(c & Hc)]; [left; reflexivity|].
      right. exists c. rewrite Heq. exact Hc. }
  split; [exact Hext|].
  intros sh extra Hextra. apply Hext. intros r c.
  rewrite cellAt_app_rows. destruct (decide (r <= length sh)) as [|Hgt]; [reflexivity|].
  rewrite (cellAt_beyond_rows sh r c) by (unfold getLastRow; lia).
  rewrite cellHasContent_blank.
  destruct (r - length sh) as [|i] eqn:Ei; [reflexivity|].
  destruct c as [|j]; [rewrite cellAt_zero_r; reflexivity|].
  unfold cellAt. destruct (extra !! i) as [row|] eqn:Erow; [|reflexivity].
  rewrite Forall_lookup in Hextra. specialize (Hextra i row Erow).
  destruct (row !! j) as [v|] eqn:Ev; [|reflexivity]. simpl.
  unfold rowHasContent in Hextra.
  destruct (cellHasContent v) eqn:Hv; [|reflexivity].
  assert (existsb cellHasContent row = true); [|congruence].
  apply existsb_exists. exists v. split; [|exact Hv].
  apply list_elem_of_In, list_elem_of_lookup. eauto.
Qed.

Lemma findLastContentRow_ignores_blank_rows_witness :
  findLastContentRow ([[VStr "x"]] ++ [[blank; VNull]; []; [VUndef]])
  = findLastContentRow [[VStr "x"]].
Proof.
  destruct findLastContentRow_ignores_blank_rows as [_ H].
  apply H. repeat constructor.
Defined.

Lemma cellHasContent_not_empty (v : Value) :
  cellHasContent v = negb (isEmptyKey v).
Proof.
  unfold cellHasContent, isEmptyKey.
  rewrite !negb_orb. reflexivity.
Qed.

(** After a row with content is written below the cursor, the cursor is
    the row written. *)
Lemma findLastContentRow_after_write (sh : Sheet) (k p : nat) (vals : list Value) :
  findLastContentRow sh = Some k -> k < p ->
  Exists (fun v => cellHasContent v = true) vals ->
  findLastContentRow (setRowCells p 1 vals sh) = Some p.
Proof.
  intros Hk Hp Hex. destruct (findLastContentRow_content sh k Hk) as [Hall _].
  apply findLastContentRow_unique.
  - intros r (c & Hc). destruct (decide (r <= p)); [assumption|]. exfalso.
    destruct (decide (c = 0)) as [->|].
    { rewrite cellAt_zero_r, cellHasContent_blank in Hc. discriminate. }
    rewrite cellAt_setRowCells in Hc by lia. rewrite decide_False in Hc by lia.
    assert (r <= k) by (apply Hall; exists c; exact Hc). lia.
  - right. apply Exists_exists in Hex as (v & Hin & Hv).
    apply list_elem_of_lookup in Hin as (j & Hj).
    exists (1 + j). rewrite cellAt_setRowCells by lia.
    rewrite decide_True by (apply lookup_lt_Some in Hj; lia).
    unfold arrayGet. replace (1 + j - 1) with j by lia. rewrite Hj. exact Hv.
Qed.

(** When the body migrates a row, the append cursor of the team tab
    becomes the row just written. *)
Lemma processRow_moves_cursor (fails : Faults) (tci r : nat) (row : list Value)
  (st st' : LoopState) :
  processRow fails tci (int 1) r row st = Next st' ->
  pushed st' = S (pushed st) ->
  exists cursor dst',
    findLastContentRow (default [] (wb st !! teamStrOf (int 1) row)) = Some cursor
    /\ wb st' !! teamStrOf (int 1) row = Some dst'
    /\ findLastContentRow dst' = Some (cursor + SA_ROWS_GAP + 1)
    /\ log st' = (if (getOrInsertSheet (teamStrOf (int 1) row) (wb st)).2
                  then log st ++ [LogCreated (teamStrOf (int 1) row)]
                  else log st)
                 ++ [LogPasted (teamStrOf (int 1) row) (r + 1)
                       (cursor + SA_ROWS_GAP + 1)].
Proof.
  intros H Hp.
  destruct (processRow_pushed_inv fails tci (int 1) r row st st' H) as (Hm & Hk & Hv);
    [lia|].
  destruct (processRow_valid_Next fails tci (int 1) r row st st' Hm Hk Hv H)
    as (cursor & s & Hcur & Hlen & Htci & Hsrc & _ & _ & ->).
  eexists cursor, _. split; [exact Hcur|]. split.
  { simpl. rewrite lookup_insert_ne
      by (intros E; symmetry in E; revert E; apply teamStr_not_source; exact Hv).
    apply lookup_insert_eq. }
  split; [|reflexivity].
  apply (findLastContentRow_after_write _ cursor); [exact Hcur | lia |].
  rewrite rawTeamOf_first in Hk. unfold arrayGet in Hk.
  destruct row as [|key row']; [discriminate Hk|]. simpl in Hk.
  destruct tci as [|[|t]]; [lia | lia |]. simpl.
  apply Exists_cons_hd. rewrite cellHasContent_not_empty, Hk. reflexivity.
Qed.

(** X6: two rows of one team are pasted a fixed distance apart.  When
    the body, reading the key from column 1 as the script is
    configured, migrates a row into a team tab, and later migrates a
    row with the same tab name while that tab is still as the first
    paste left it, the second row is written exactly gap + 1 rows below
    the first: the cursor is found again on the row pasted before, not
    on the content the tab had at the start. *)
Theorem pastes_into_one_tab_are_spaced (fails : Faults) (tci r r' : nat)
  (row row' : list Value) (st st1 st1' st2 : LoopState) :
  processRow fails tci (resolveColumn SA_TEAM_COLUMN) r row st = Next st1 ->
  pushed st1 = S (pushed st) ->
  wb st1' !! teamStrOf (resolveColumn SA_TEAM_COLUMN) row
  = wb st1 !! teamStrOf (resolveColumn SA_TEAM_COLUMN) row ->
  teamStrOf (resolveColumn SA_TEAM_COLUMN) row'
  = teamStrOf (resolveColumn SA_TEAM_COLUMN) row ->
  processRow fails tci (resolveColumn SA_TEAM_COLUMN) r' row' st1' = Next st2 ->
  pushed st2 = S (pushed st1') ->
  exists pasteRow,
    last (log st1)
    = Some (LogPasted (teamStrOf (resolveColumn SA_TEAM_COLUMN) row) (r + 1) pasteRow)
    /\ last (log st2)
       = Some (LogPasted (teamStrOf (resolveColumn SA_TEAM_COLUMN) row) (r' + 1)
                 (pasteRow + SA_ROWS_GAP + 1)).
Proof.
  rewrite teamColIndex_is_1. intros H1 Hp1 Htab Hname H2 Hp2.
  destruct (processRow_moves_cursor fails tci r row st st1 H1 Hp1)
    as (cursor & dst1 & _ & Hdst1 & Hcur1 & Hlog1).
  destruct (processRow_moves_cursor fails tci r' row' st1' st2 H2 Hp2)
    as (cursor2 & dst2 & Hcur2 & _ & _ & Hlog2).
  rewrite Hname, Htab, Hdst1 in Hcur2. simpl in Hcur2.
  rewrite Hcur1 in Hcur2. injection Hcur2 as <-.
  exists (cursor + SA_ROWS_GAP + 1). split.
  - rewrite Hlog1. apply last_snoc.
  - rewrite Hlog2, Hname. apply last_snoc.
Qed.

Lemma pastes_into_one_tab_are_spaced_witness :
  exists pasteRow,
    last (log exampleStateAfter) = Some (LogPasted "254" 2 pasteRow)
    /\ last (log (match processRow noFaults 3 (int 1) 4
                          [VStr "254"; int 7; blank] exampleStateAfter with
                  | Next st2 => st2
                  | Raise _ => exampleStateAfter
                  end))
       = Some (LogPasted "254" 5 (pasteRow + SA_ROWS_GAP + 1)).
Proof.
  exact (pastes_into_one_tab_are_spaced noFaults 3 1 4 exampleRow
           [VStr "254"; int 7; blank] exampleState exampleStateAfter
           exampleStateAfter _ eq_refl eq_refl eq_refl eq_refl eq_refl eq_refl).
Defined.

(** ** Counters, log and tabs *)

Lemma countb_app {A : Type} (p : A -> bool) (l1 l2 : list A) :
  countb p (l1 ++ l2) = countb p l1 + countb p l2.
Proof. unfold countb. rewrite filter_app, length_app. reflexivity. Qed.

Lemma countb_one {A : Type} (p : A -> bool) (x : A) :
  countb p [x] = if p x then 1 else 0.
Proof. rewrite countb_cons. unfold countb. simpl. lia. Qed.

Lemma log_kinds (l : list LogEntry) :
  length l = countb isLogPasted l + countb isLogCreated l + countb isLogInvalid l.
Proof.
  induction l as [|e l IH]; [reflexivity|].
  rewrite !countb_cons. destruct e; simpl; lia.
Qed.

(** What one pass through the body does to the counters, the log and
    the number of tabs. *)
Lemma processRow_step (fails : Faults) (tci : nat) (tc : Value) (r : nat)
  (row : list Value) (st st' : LoopState) :
  processRow fails tci tc r row st = Next st' ->
  size (wb st') + newSheets st = size (wb st) + newSheets st'
  /\ newSheets st <= newSheets st'
  /\ newSheets st' + pushed st <= newSheets st + pushed st'
  /\ countb isLogPasted (log st') + pushed st
     = countb isLogPasted (log st) + pushed st'
  /\ countb isLogCreated (log st') + newSheets st
     = countb isLogCreated (log st) + newSheets st'
  /\ countb isLogInvalid (log st')
     = countb isLogInvalid (log st) + (if warned tci tc row then 1 else 0).
Proof.
  intros H. unfold warned.
  destruct (isMarked (trackValOf tci row)) eqn:Hm.
  { rewrite processRow_marked in H by exact Hm. inversion H; subst; simpl.
    repeat split; lia. }
  destruct (isEmptyKey (rawTeamOf tc row)) eqn:Hk.
  { rewrite processRow_empty_key in H by assumption. inversion H; subst; simpl.
    repeat split; lia. }
  destruct (invalidTeam (rawTeamOf tc row)) eqn:Hv.
  { rewrite processRow_invalid in H by assumption. inversion H; subst; simpl.
    rewrite !countb_app, !countb_one. cbn. repeat split; lia. }
  destruct (processRow_valid_Next fails tci tc r row st st' Hm Hk Hv H)
    as (cursor & s & _ & _ & _ & Hsrc & _ & _ & ->).
  pose proof (teamStr_not_source tc row Hv) as Hne.
  pose proof (getOrInsertSheet_lookup (teamStrOf tc row) (wb st)) as Hdst.
  pose proof (getOrInsertSheet_lookup_ne (teamStrOf tc row) SA_SOURCE_SHEET
                (wb st) Hne) as Hs1.
  cbn [wb pushed skipped newSheets log].
  rewrite map_size_insert_Some
    by (rewrite lookup_insert_ne by exact Hne; rewrite Hs1, Hsrc; eauto).
  rewrite map_size_insert_Some by (rewrite Hdst; eauto).
  unfold getOrInsertSheet.
  destruct (wb st !! teamStrOf tc row) eqn:Ht; cbn [fst snd].
  - rewrite !countb_app, !countb_one. cbn. repeat split; lia.
  - rewrite map_size_insert_None by exact Ht.
    rewrite !countb_app, !countb_one. cbn. repeat split; lia.
Qed.

Lemma loop_accounting (fails : Faults) (tci : nat) (tc : Value)
  (rows : list (list Value)) (r : nat) (st st' : LoopState) :
  loop fails tci tc r rows st = Finished st' ->
  size (wb st') + newSheets st = size (wb st) + newSheets st'
  /\ newSheets st <= newSheets st'
  /\ newSheets st' + pushed st <= newSheets st + pushed st'
  /\ countb isLogPasted (log st') + pushed st
     = countb isLogPasted (log st) + pushed st'
  /\ countb isLogCreated (log st') + newSheets st
     = countb isLogCreated (log st) + newSheets st'
  /\ countb isLogInvalid (log st')
     = countb isLogInvalid (log st) + countb (warned tci tc) rows.
Proof.
  revert r st. induction rows as [|row rows IH]; intros r st H; simpl in H.
  - injection H as <-. unfold countb at 7. simpl. repeat split; lia.
  - destruct (processRow fails tci tc r row st) as [st1|w] eqn:E; [|discriminate].
    destruct (processRow_step fails tci tc r row st st1 E)
      as (A1 & A2 & A3 & A4 & A5 & A6).
    destruct (IH (S r) st1 H) as (B1 & B2 & B3 & B4 & B5 & B6).
    rewrite countb_cons. repeat split; lia.
Qed.

(** How a run of the driver ends, by the state of the source tab. *)
Lemma run_cases (fails : Faults) (ss ss1 : Workbook) (out : Outcome) :
  pushSADataToTeamSheetsWith fails ss = (ss1, out) ->
  (ss1 = ss
   /\ (ss !! SA_SOURCE_SHEET = None /\ out = AlertNoSheet
       \/ (exists src, ss !! SA_SOURCE_SHEET = Some src
                       /\ getLastRow src < 2 /\ out = AlertNoData)
       \/ (exists src, ss !! SA_SOURCE_SHEET = Some src
                       /\ 2 <= getLastRow src /\ getLastColumn src = 0
                       /\ out = Exception None)))
  \/ exists src tci src',
       ss !! SA_SOURCE_SHEET = Some src
       /\ 2 <= getLastRow src
       /\ getOrCreateTrackingColumn src (getLastColumn src) = Some (tci, src')
       /\ match loop fails tci (int 1) 1 (dataRows src' tci (getLastRow src))
                  (mkLoopState (<[ SA_SOURCE_SHEET := src' ]> ss) 0 0 0 []) with
          | Finished st =>
              ss1 = wb st
              /\ out = Summary (pushed st) (skipped st) (newSheets st) (log st)
          | Aborted w r => ss1 = w /\ out = Exception (Some r)
          end.
Proof.
  intros H.
  destruct (ss !! SA_SOURCE_SHEET) as [src|] eqn:Hsrc.
  2:{ unfold pushSADataToTeamSheetsWith in H. rewrite Hsrc in H.
      inversion H; subst. left. auto. }
  destruct (getLastRow src <? 2) eqn:Hrows.
  { unfold pushSADataToTeamSheetsWith in H. rewrite Hsrc, Hrows in H.
    apply Nat.ltb_lt in Hrows. inversion H; subst. left. split; [reflexivity|].
    right. left. eauto. }
  apply Nat.ltb_ge in Hrows.
  destruct (getOrCreateTrackingColumn src (getLastColumn src)) as [[tci src']|] eqn:Hcol.
  - right. exists src, tci, src'.
    rewrite (run_unfold fails ss src src' tci Hsrc Hrows Hcol) in H.
    split; [reflexivity|]. split; [exact Hrows|]. split; [exact Hcol|].
    destruct (loop fails tci (int 1) 1 _ _); inversion H; subst; auto.
  - left. unfold pushSADataToTeamSheetsWith in H. rewrite Hsrc in H.
    replace (getLastRow src <? 2) with false in H
      by (symmetry; apply Nat.ltb_ge; exact Hrows).
    rewrite teamColIndex_is_1 in H. simpl negb in H. cbv iota in H.
    rewrite Hcol in H. inversion H; subst. split; [reflexivity|].
    right. right. exists src. repeat split; try assumption.
    destruct (getLastColumn src) as [|n] eqn:En; [reflexivity|].
    rewrite getOrCreateTrackingColumn_unfold in Hcol by lia.
    destruct (findTracking _ _); discriminate.
Qed.

(** X7: the figures of the summary agree with the log and with the
    workbook.  When a run ends with its summary, the number of tabs has
    grown by exactly the count of new sheets; no more sheets were
    created than rows were pasted; the log holds one paste line for each
    pasted row and one creation line for each new sheet, and its other
    lines are the warnings; and the pasted rows, the skipped rows and
    the warnings together are no more than the data rows of the source
    tab. *)
Theorem summary_accounting (fails : Faults) (ss ss1 : Workbook) (p s n : nat)
  (l : list LogEntry) :
  pushSADataToTeamSheetsWith fails ss = (ss1, Summary p s n l) ->
  size ss1 = size ss + n
  /\ n <= p
  /\ countb isLogPasted l = p
  /\ countb isLogCreated l = n
  /\ length l = p + n + countb isLogInvalid l
  /\ exists src, ss !! SA_SOURCE_SHEET = Some src
                 /\ p + s + countb isLogInvalid l <= getLastRow src - 1.
Proof.
  intros H. destruct (run_cases fails ss ss1 _ H) as [[_ Hout]|Hrun].
  { destruct Hout as [[_ Ho]|[(src & _ & _ & Ho)|(src & _ & _ & _ & Ho)]];
      discriminate Ho. }
  destruct Hrun as (src & tci & src' & Hsrc & Hrows & Hcol & Hloop).
  destruct (loop fails tci (int 1) 1 _ _) as [st|w r] eqn:E;
    [|destruct Hloop as [_ Ho]; discriminate Ho].
  destruct Hloop as [-> Ho]. inversion Ho; subst. clear Ho.
  destruct (loop_accounting fails tci (int 1) _ 1 _ st E)
    as (A1 & A2 & A3 & A4 & A5 & A6).
  destruct (loop_Finished fails tci (int 1) _ 1 _ st src'
              (lookup_insert_eq ss SA_SOURCE_SHEET src') E) as (_ & Hp & Hsk & _).
  cbn [wb pushed skipped newSheets log] in *.
  rewrite map_size_insert_Some in A1 by eauto.
  unfold countb at 2 in A4. unfold countb at 2 in A5. unfold countb at 2 in A6.
  simpl in A4, A5, A6.
  pose proof (log_kinds (log st)) as Hk.
  split; [lia|]. split; [lia|]. split; [lia|]. split; [lia|]. split; [lia|].
  exists src. split; [exact Hsrc|].
  set (rows := dataRows src' tci (getLastRow src)) in *.
  assert (Hlen : length rows = getLastRow src - 1) by apply length_dataRows.
  assert (Hthree : countb (pushable tci (int 1)) rows
                   + countb (fun row => isMarked (trackValOf tci row)) rows
                   + countb (warned tci (int 1)) rows <= length rows).
  { clear. induction rows as [|row rows IH]; [reflexivity|].
    rewrite !countb_cons. simpl length. unfold pushable at 1, warned at 1.
    destruct (isMarked _), (isEmptyKey _), (invalidTeam _); simpl; lia. }
  lia.
Qed.

Lemma summary_accounting_witness :
  size (pushSADataToTeamSheets bookTwoRuns).1 = size bookTwoRuns + 1
  /\ 1 <= 2
  /\ countb isLogPasted
       [LogCreated "254"; LogPasted "254" 2 6; LogInvalid 3 (VStr "abc");
        LogPasted "254" 4 12] = 2
  /\ countb isLogCreated
       [LogCreated "254"; LogPasted "254" 2 6; LogInvalid 3 (VStr "abc");
        LogPasted "254" 4 12] = 1
  /\ length [LogCreated "254"; LogPasted "254" 2 6; LogInvalid 3 (VStr "abc");
             LogPasted "254" 4 12]
     = 2 + 1
       + countb isLogInvalid
           [LogCreated "254"; LogPasted "254" 2 6; LogInvalid 3 (VStr "abc");
            LogPasted "254" 4 12]
  /\ exists src, bookTwoRuns !! SA_SOURCE_SHEET = Some src
                 /\ 2 + 0
                    + countb isLogInvalid
                        [LogCreated "254"; LogPasted "254" 2 6;
                         LogInvalid 3 (VStr "abc"); LogPasted "254" 4 12]
                    <= getLastRow src - 1.
Proof.
  exact (summary_accounting noFaults bookTwoRuns
           (pushSADataToTeamSheets bookTwoRuns).1 2 0 1
           [LogCreated "254"; LogPasted "254" 2 6; LogInvalid 3 (VStr "abc");
            LogPasted "254" 4 12] eq_refl).
Defined.

(** ** What a run leaves alone *)

Lemma keepsContent_getOrInsertSheet (teamStr : string) (w : Workbook) :
  keepsContent w (getOrInsertSheet teamStr w).1.
Proof.
  intros name dst Hne H. exists dst. split; [|reflexivity].
  destruct (decide (teamStr = name)) as [<-|Hn].
  - rewrite getOrInsertSheet_lookup, H. reflexivity.
  - rewrite getOrInsertSheet_lookup_ne by exact Hn. exact H.
Qed.

Lemma keepsContent_paste (teamStr : string) (w : Workbook) (cursor : nat)
  (vals : list Value) :
  findLastContentRow (default [] (w !! teamStr)) = Some cursor ->
  keepsContent w
    (<[ teamStr := setRowCells (cursor + SA_ROWS_GAP + 1) 1 vals
                     (default [] (w !! teamStr)) ]>
       (getOrInsertSheet teamStr w).1).
Proof.
  intros Hcur name dst Hne H.
  destruct (decide (teamStr = name)) as [<-|Hn].
  - rewrite lookup_insert_eq. eexists. split; [reflexivity|].
    rewrite H in *. simpl in *. intros r c Hc.
    apply setRowCells_below_cursor; assumption.
  - rewrite lookup_insert_ne by exact Hn.
    rewrite getOrInsertSheet_lookup_ne by exact Hn.
    exists dst. split; [exact H | reflexivity].
Qed.

(** Where the body can throw: on a row it would paste, before any
    write, after the creation of the tab, or after the paste. *)
Lemma processRow_Raise_cases (fails : Faults) (tci : nat) (tc : Value) (r : nat)
  (row : list Value) (st : LoopState) (w : Workbook) :
  processRow fails tci tc r row st = Raise w ->
  pushable tci tc row = true
  /\ (w = wb st
      \/ w = (getOrInsertSheet (teamStrOf tc row) (wb st)).1
      \/ exists cursor,
           findLastContentRow (default [] (wb st !! teamStrOf tc row)) = Some cursor
           /\ w = <[ teamStrOf tc row :=
                       setRowCells (cursor + SA_ROWS_GAP + 1) 1 (take (tci - 1) row)
                         (default [] (wb st !! teamStrOf tc row)) ]>
                    (getOrInsertSheet (teamStrOf tc row) (wb st)).1).
Proof.
  intros H.
  destruct (isMarked (trackValOf tci row)) eqn:Hm.
  { rewrite processRow_marked in H by exact Hm. discriminate. }
  destruct (isEmptyKey (rawTeamOf tc row)) eqn:Hk.
  { rewrite processRow_empty_key in H by assumption. discriminate. }
  destruct (invalidTeam (rawTeamOf tc row)) eqn:Hv.
  { rewrite processRow_invalid in H by assumption. discriminate. }
  split; [apply pushable_true; auto|].
  rewrite processRow_valid in H by assumption. cbv zeta in H.
  destruct (_ && _); [inversion H; auto|].
  destruct (findLastContentRow _) as [cursor|] eqn:Hcur; [|inversion H; auto].
  destruct (fails r OpPaste); [inversion H; auto|].
  unfold setValues in H.
  destruct (_ || _); [inversion H; auto|].
  destruct (fails r OpMark); [inversion H; right; right; eauto|].
  destruct (wb st !! SA_SOURCE_SHEET); [|inversion H; right; right; eauto].
  destruct (tci =? 0); [inversion H; right; right; eauto | discriminate].
Qed.

Lemma processRow_Raise_keepsContent (fails : Faults) (tci : nat) (tc : Value)
  (r : nat) (row : list Value) (st : LoopState) (w : Workbook) :
  processRow fails tci tc r row st = Raise w -> keepsContent (wb st) w.
Proof.
  intros H.
  destruct (processRow_Raise_cases fails tci tc r row st w H)
    as (_ & [->|[->|(cursor & Hcur & ->)]]).
  - apply keepsContent_refl.
  - apply keepsContent_getOrInsertSheet.
  - apply keepsContent_paste. exact Hcur.
Qed.

Lemma loop_Aborted_keepsContent (fails : Faults) (tci : nat) (tc : Value)
  (rows : list (list Value)) (r : nat) (st : LoopState) (w : Workbook) (r' : nat) :
  loop fails tci tc r rows st = Aborted w r' -> keepsContent (wb st) w.
Proof.
  revert r st. induction rows as [|row rows IH]; intros r st H; simpl in H.
  - discriminate.
  - destruct (processRow fails tci tc r row st) as [st1|w1] eqn:E.
    + apply (keepsContent_trans _ (wb st1)).
      * exact (processRow_keepsContent fails tci tc r row st st1 E).
      * exact (IH (S r) st1 H).
    + injection H as <- <-.
      exact (processRow_Raise_keepsContent fails tci tc r row st w1 E).
Qed.

Lemma keepsContent_source (ss : Workbook) (s : Sheet) :
  keepsContent ss (<[ SA_SOURCE_SHEET := s ]> ss).
Proof.
  intros name dst Hne H. exists dst. split; [|reflexivity].
  rewrite lookup_insert_ne by congruence. exact H.
Qed.

Lemma run_keepsContent (fails : Faults) (ss ss1 : Workbook) (out : Outcome) :
  pushSADataToTeamSheetsWith fails ss = (ss1, out) -> keepsContent ss ss1.
Proof.
  intros H. destruct (run_cases fails ss ss1 out H) as [[-> _]|Hrun].
  { apply keepsContent_refl. }
  destruct Hrun as (src & tci & src' & Hsrc & Hrows & Hcol & Hloop).
  apply (keepsContent_trans _ (<[ SA_SOURCE_SHEET := src' ]> ss));
    [apply keepsContent_source|].
  destruct (loop fails tci (int 1) 1 _ _) as [st|w r] eqn:E;
    destruct Hloop as [-> _].
  - exact (loop_keepsContent fails tci (int 1) _ 1 _ st E).
  - exact (loop_Aborted_keepsContent fails tci (int 1) _ 1 _ w r E).
Qed.

(** The forced run is a run of the driver on the workbook with the
    tracking cells cleared, or it ends before any paste. *)
Lemma FORCE_cases (fails : Faults) (ss ss1 : Workbook) (out : Outcome) :
  pushSADataToTeamSheets_FORCE_With fails ss = (ss1, out) ->
  (ss1 = ss
   /\ (ss !! SA_SOURCE_SHEET = None /\ out = Returned
       \/ (exists src, ss !! SA_SOURCE_SHEET = Some src
                       /\ getLastColumn src = 0 /\ out = Exception None)))
  \/ exists src tci src1,
       ss !! SA_SOURCE_SHEET = Some src
       /\ getOrCreateTrackingColumn src (getLastColumn src) = Some (tci, src1)
       /\ pushSADataToTeamSheetsWith fails
            (<[ SA_SOURCE_SHEET :=
                  if decide (1 < getLastRow src)
                  then clearedFrom src1 tci (getLastRow src) else src1 ]> ss)
          = (ss1, out).
Proof.
  intros H.
  destruct (ss !! SA_SOURCE_SHEET) as [src|] eqn:Hsrc.
  2:{ unfold pushSADataToTeamSheets_FORCE_With in H. rewrite Hsrc in H.
      inversion H; subst. left. auto. }
  destruct (getOrCreateTrackingColumn src (getLastColumn src)) as [[tci src1]|] eqn:Hcol.
  - right. exists src, tci, src1. split; [reflexivity|]. split; [exact Hcol|].
    destruct (decide (1 < getLastRow src)) as [Hrows|Hrows].
    + rewrite (FORCE_unfold fails ss src src1 tci Hsrc Hcol Hrows) in H. exact H.
    + unfold pushSADataToTeamSheets_FORCE_With in H. rewrite Hsrc, Hcol in H.
      replace (1 <? getLastRow src) with false in H
        by (symmetry; apply Nat.ltb_ge; lia).
      exact H.
  - left. unfold pushSADataToTeamSheets_FORCE_With in H. rewrite Hsrc, Hcol in H.
    inversion H; subst. split; [reflexivity|]. right. exists src.
    split; [reflexivity|]. split; [|reflexivity].
    destruct (getLastColumn src) as [|n] eqn:En; [reflexivity|].
    rewrite getOrCreateTrackingColumn_unfold in Hcol by lia.
    destruct (findTracking _ _); discriminate.
Qed.

(** X8: whatever the outcome of a run or of a forced run, an alert, the
    summary or an exception at any call, every tab other than the
    source tab is still there after it, and every cell of such a tab
    that held a non-empty value holds the same value: the script adds
    rows and tabs, it never overwrites or clears what the team tabs
    hold. *)
Theorem runs_keep_team_content :
  (forall (fails : Faults) (ss ss1 : Workbook) (out : Outcome),
      pushSADataToTeamSheetsWith fails ss = (ss1, out) -> keepsContent ss ss1)
  /\ (forall (fails : Faults) (ss ss1 : Workbook) (out : Outcome),
        pushSADataToTeamSheets_FORCE_With fails ss = (ss1, out) ->
        keepsContent ss ss1).
Proof.
  split; [exact run_keepsContent|].
  intros fails ss ss1 out H.
  destruct (FORCE_cases fails ss ss1 out H) as [[-> _]|Hrun].
  { apply keepsContent_refl. }
  destruct Hrun as (src & tci & src1 & _ & _ & Hrun).
  eapply keepsContent_trans; [apply keepsContent_source|].
  exact (run_keepsContent fails _ ss1 out Hrun).
Qed.

Lemma runs_keep_team_content_witness :
  keepsContent exampleBook (pushSADataToTeamSheetsWith (failPasteAt 1) exampleBook).1
  /\ keepsContent exampleBook (pushSADataToTeamSheets_FORCE exampleBook).1.
Proof.
  destruct runs_keep_team_content as [Hrun Hforce]. split.
  - exact (Hrun (failPasteAt 1) exampleBook
             (pushSADataToTeamSheetsWith (failPasteAt 1) exampleBook).1
             (pushSADataToTeamSheetsWith (failPasteAt 1) exampleBook).2 eq_refl).
  - exact (Hforce noFaults exampleBook
             (pushSADataToTeamSheets_FORCE exampleBook).1
             (pushSADataToTeamSheets_FORCE exampleBook).2 eq_refl).
Defined.

(** The lines that one pass through the body adds to the log name the
    tabs it touched. *)
Lemma processRow_frame (fails : Faults) (tci : nat) (tc : Value) (r : nat)
  (row : list Value) (st st' : LoopState) :
  processRow fails tci tc r row st = Next st' ->
  exists l',
    log st' = log st ++ l'
    /\ (forall name, name <> SA_SOURCE_SHEET ->
                     (forall r0 p0, LogPasted name r0 p0 ∉ l') ->
                     wb st' !! name = wb st !! name)
    /\ (forall e t, e ∈ l' -> logTab e = Some t ->
                    t <> SA_SOURCE_SHEET /\ is_Some (wb st' !! t)).
Proof.
  intros H.
  destruct (pushable tci tc row) eqn:Hp.
  2:{ destruct (isMarked (trackValOf tci row)) eqn:Hm.
      { rewrite processRow_marked in H by exact Hm. inversion H; subst; simpl.
        exists []. rewrite app_nil_r. split; [reflexivity|]. split; [reflexivity|].
        intros e t He. inversion He. }
      destruct (isEmptyKey (rawTeamOf tc row)) eqn:Hk.
      { rewrite processRow_empty_key in H by assumption. inversion H; subst; simpl.
        exists []. rewrite app_nil_r. split; [reflexivity|]. split; [reflexivity|].
        intros e t He. inversion He. }
      destruct (invalidTeam (rawTeamOf tc row)) eqn:Hv.
      { rewrite processRow_invalid in H by assumption. inversion H; subst; simpl.
        eexists. split; [reflexivity|]. split; [reflexivity|].
        intros e t He Ht. apply list_elem_of_singleton in He. subst e.
        discriminate Ht. }
      unfold pushable in Hp. rewrite Hm, Hk, Hv in Hp. discriminate. }
  apply pushable_true in Hp as (Hm & Hk & Hv).
  destruct (processRow_valid_Next fails tci tc r row st st' Hm Hk Hv H)
    as (cursor & s & _ & _ & _ & Hsrc & _ & _ & ->).
  pose proof (teamStr_not_source tc row Hv) as Hne.
  set (t := teamStrOf tc row) in *. cbn [wb log].
  exists ((if (getOrInsertSheet t (wb st)).2 then [LogCreated t] else [])
          ++ [LogPasted t (r + 1) (cursor + SA_ROWS_GAP + 1)]).
  split; [|split].
  - destruct (getOrInsertSheet t (wb st)).2; simpl.
    + rewrite <- app_assoc. reflexivity.
    + reflexivity.
  - intros name Hn Hno.
    assert (Ht : t <> name).
    { intros <-. apply (Hno (r + 1) (cursor + SA_ROWS_GAP + 1)).
      apply elem_of_app. right. apply list_elem_of_singleton. reflexivity. }
    rewrite lookup_insert_ne by congruence.
    rewrite lookup_insert_ne by exact Ht.
    apply getOrInsertSheet_lookup_ne. exact Ht.
  - intros e t' He Ht'.
    assert (t' = t) as ->.
    { apply elem_of_app in He as [He|He].
      - destruct (getOrInsertSheet t (wb st)).2; [|inversion He].
        apply list_elem_of_singleton in He. subst e. simpl in Ht'. congruence.
      - apply list_elem_of_singleton in He. subst e. simpl in Ht'. congruence. }
    split; [exact Hne|].
    rewrite lookup_insert_ne by congruence. rewrite lookup_insert_eq. eauto.
Qed.

Lemma loop_frame (fails : Faults) (tci : nat) (tc : Value)
  (rows : list (list Value)) (r : nat) (st st' : LoopState) :
  loop fails tci tc r rows st = Finished st' ->
  exists l',
    log st' = log st ++ l'
    /\ (forall name, name <> SA_SOURCE_SHEET ->
                     (forall r0 p0, LogPasted name r0 p0 ∉ l') ->
                     wb st' !! name = wb st !! name)
    /\ (forall e t, e ∈ l' -> logTab e = Some t ->
                    t <> SA_SOURCE_SHEET /\ is_Some (wb st' !! t)).
Proof.
  revert r st. induction rows as [|row rows IH]; intros r st H; simpl in H.
  - injection H as <-. exists []. rewrite app_nil_r.
    split; [reflexivity|]. split; [reflexivity|]. intros e t He. inversion He.
  - destruct (processRow fails tci tc r row st) as [st1|w] eqn:E; [|discriminate].
    destruct (processRow_frame fails tci tc r row st st1 E) as (l1 & L1 & F1 & T1).
    destruct (IH (S r) st1 H) as (l2 & L2 & F2 & T2).
    exists (l1 ++ l2). split; [|split].
    + rewrite L2, L1, app_assoc. reflexivity.
    + intros name Hn Hno. rewrite F2, F1; try assumption; try reflexivity.
      * intros r0 p0 Hin. apply (Hno r0 p0), elem_of_app. auto.
      * intros r0 p0 Hin. apply (Hno r0 p0), elem_of_app. auto.
    + intros e t He Ht. apply elem_of_app in He as [He|He].
      * destruct (T1 e t He Ht) as [Hne [d Hd]]. split; [exact Hne|].
        destruct (loop_keepsContent fails tci tc rows (S r) st1 st' H t d Hne Hd)
          as (d' & Hd' & _). eauto.
      * exact (T2 e t He Ht).
Qed.

(** X9: the log of a run that ends with its summary names every tab
    the run touched.  A tab other than the source tab that no paste
    line of the log names is exactly what it was before the run, or
    still absent; and every tab that a paste line or a creation line
    names is a tab of the workbook after the run and is not the source
    tab. *)
Theorem summary_log_names_touched_tabs (fails : Faults) (ss ss1 : Workbook)
  (p s n : nat) (l : list LogEntry) :
  pushSADataToTeamSheetsWith fails ss = (ss1, Summary p s n l) ->
  (forall name, name <> SA_SOURCE_SHEET ->
                (forall r0 p0, LogPasted name r0 p0 ∉ l) ->
                ss1 !! name = ss !! name)
  /\ (forall e t, e ∈ l -> logTab e = Some t ->
                  t <> SA_SOURCE_SHEET /\ is_Some (ss1 !! t)).
Proof.
  intros H. destruct (run_cases fails ss ss1 _ H) as [[_ Hout]|Hrun].
  { destruct Hout as [[_ Ho]|[(src & _ & _ & Ho)|(src & _ & _ & _ & Ho)]];
      discriminate Ho. }
  destruct Hrun as (src & tci & src' & Hsrc & Hrows & Hcol & Hloop).
  destruct (loop fails tci (int 1) 1 _ _) as [st|w r] eqn:E;
    [|destruct Hloop as [_ Ho]; discriminate Ho].
  destruct Hloop as [-> Ho]. inversion Ho; subst. clear Ho.
  destruct (loop_frame fails tci (int 1) _ 1 _ st E) as (l' & L & F & T).
  cbn [wb log] in *. simpl in L. subst l'. split.
  - intros name Hn Hno. rewrite F by assumption.
    apply lookup_insert_ne. congruence.
  - exact T.
Qed.

Lemma summary_log_names_touched_tabs_witness :
  (forall name, name <> SA_SOURCE_SHEET ->
                (forall r0 p0,
                    LogPasted name r0 p0
                    ∉ [LogCreated "254"; LogPasted "254" 2 6;
                       LogInvalid 3 (VStr "abc"); LogPasted "254" 4 12]) ->
                (pushSADataToTeamSheets bookTwoRuns).1 !! name = bookTwoRuns !! name)
  /\ (forall e t,
         e ∈ [LogCreated "254"; LogPasted "254" 2 6;
              LogInvalid 3 (VStr "abc"); LogPasted "254" 4 12] ->
         logTab e = Some t ->
         t <> SA_SOURCE_SHEET /\ is_Some ((pushSADataToTeamSheets bookTwoRuns).1 !! t)).
Proof.
  exact (summary_log_names_touched_tabs noFaults bookTwoRuns
           (pushSADataToTeamSheets bookTwoRuns).1 2 0 1
           [LogCreated "254"; LogPasted "254" 2 6; LogInvalid 3 (VStr "abc");
            LogPasted "254" 4 12] eq_refl).
Defined.

(** ** The source tab after a run *)





(** The rows before the row at which the loop stopped are settled, the
    rows from it on are as they were. *)
Lemma markRows_take_rows (src' : Sheet) (tci n j : nat) :
  0 < tci ->
  let s1 := markRows tci (int 1) 1 (take j (dataRows src' tci n)) src' in
  (forall i, 2 <= i < j + 2 -> i <= n ->
             pushable tci (int 1) (snapRow s1 tci i) = false)
  /\ (forall i c, j + 2 <= i -> 0 < c -> cellAt s1 i c = cellAt src' i c).
Proof.
  intros Ht s1. set (rows := dataRows src' tci n). split.
  - intros i Hi Hn.
    assert (Hrow : take j rows !! (i - 1 - 1) = Some (snapRow src' tci i)).
    { rewrite lookup_take_lt by lia. unfold rows.
      rewrite lookup_dataRows by lia. f_equal. f_equal. lia. }
    destruct (pushable tci (int 1) (snapRow src' tci i)) eqn:Hp.
    + unfold pushable. rewrite trackValOf_snapRow by exact Ht.
      unfold s1. rewrite cellAt_markRows by lia.
      rewrite decide_True; [reflexivity|].
      split; [reflexivity|]. split; [lia|]. fold rows. rewrite Hrow. simpl.
      f_equal. exact Hp.
    + assert (Heq : snapRow s1 tci i = snapRow src' tci i).
      { unfold snapRow. apply map_ext_in. intros c Hc. apply in_seq in Hc.
        unfold s1. rewrite cellAt_markRows by lia.
        rewrite decide_False; [reflexivity|]. intros (_ & _ & H).
        fold rows in H. rewrite Hrow in H. simpl in H. congruence. }
      rewrite Heq. exact Hp.
  - intros i c Hi Hc. unfold s1. rewrite cellAt_markRows by lia.
    rewrite decide_False; [reflexivity|]. intros (_ & _ & H).
    rewrite lookup_take_ge in H by lia. discriminate H.
Qed.

(** X11: a run that stops with an exception at row index [r] keeps the
    progress it made.  In the source tab it leaves, every data row
    before the failing row is a row that a later run passes by: it is
    marked, or it was never to be pasted.  The failing row and the rows
    after it are cell for cell what they were when the loop started, so
    a later run takes up the work at the failing row. *)
Theorem exception_keeps_progress (fails : Faults) (ss ss1 : Workbook) (r : nat)
  (src src' : Sheet) (tci : nat) :
  pushSADataToTeamSheetsWith fails ss = (ss1, Exception (Some r)) ->
  ss !! SA_SOURCE_SHEET = Some src ->
  getOrCreateTrackingColumn src (getLastColumn src) = Some (tci, src') ->
  exists s1,
    ss1 !! SA_SOURCE_SHEET = Some s1
    /\ (forall i, 2 <= i <= r -> pushable tci (int 1) (snapRow s1 tci i) = false)
    /\ (forall i c, r < i -> 0 < c -> cellAt s1 i c = cellAt src' i c)
    /\ (forall i, r < i -> snapRow s1 tci i = snapRow src' tci i).
Proof.
  intros H Hsrc Hcol. destruct (run_cases fails ss ss1 _ H) as [[_ Hout]|Hrun].
  { destruct Hout as [[Hno _]|[(src0 & Hs0 & _ & Ho)|(src0 & Hs0 & _ & Hc0 & _)]].
    - congruence.
    - discriminate Ho.
    - rewrite Hsrc in Hs0. injection Hs0 as <-. rewrite Hc0 in Hcol. discriminate. }
  destruct Hrun as (src0 & tci0 & src0' & Hsrc0 & Hrows & Hcol0 & Hloop).
  rewrite Hsrc in Hsrc0. injection Hsrc0 as <-.
  rewrite Hcol in Hcol0. apply Some_pair_inj in Hcol0 as [<- <-].
  destruct (loop fails tci (int 1) 1 _ _) as [st|w r'] eqn:E;
    [destruct Hloop as [_ Ho]; discriminate Ho|].
  destruct Hloop as [-> Ho]. injection Ho as <-.
  destruct (loop_Aborted fails tci (int 1) _ 1 _ src' w r
              (lookup_insert_eq ss SA_SOURCE_SHEET src') E)
    as (j & row & -> & Hj & _ & Hw).
  destruct (getOrCreateTrackingColumn_post src _ tci src' (Nat.le_refl _) Hcol)
    as [(Hpos & _) _].
  assert (Hjn : j < getLastRow src - 1).
  { apply lookup_lt_Some in Hj. rewrite length_dataRows in Hj. exact Hj. }
  destruct (markRows_take_rows src' tci (getLastRow src) j Hpos) as [Hbefore Hafter].
  eexists. split; [exact Hw|]. split; [|split].
  - intros i Hi. apply Hbefore; lia.
  - intros i c Hi Hc. apply Hafter; lia.
  - intros i Hi. unfold snapRow. apply map_ext_in. intros c Hc. apply in_seq in Hc.
    apply Hafter; lia.
Qed.

Lemma exception_keeps_progress_witness :
  exists s1,
    (pushSADataToTeamSheetsWith (failPasteAt 3) bookTwoRuns).1 !! SA_SOURCE_SHEET
    = Some s1
    /\ (forall i, 2 <= i <= 3 -> pushable 3 (int 1) (snapRow s1 3 i) = false)
    /\ snapRow s1 3 4 = [VStr "254"; int 7; blank].
Proof.
  destruct (exception_keeps_progress (failPasteAt 3) bookTwoRuns
              (pushSADataToTeamSheetsWith (failPasteAt 3) bookTwoRuns).1 3
              [ [VStr "Team"; VStr "Score"];
                [int 254; int 10]; [VStr "abc"; int 3]; [VStr "254"; int 7] ]
              [ [VStr "Team"; VStr "Score"; VStr SA_TRACKING_COL];
                [int 254; int 10]; [VStr "abc"; int 3]; [VStr "254"; int 7] ]
              3 eq_refl eq_refl eq_refl) as (s1 & Hs1 & Hbefore & _ & Hafter).
  exists s1. split; [exact Hs1|]. split; [exact Hbefore|].
  rewrite Hafter by lia. reflexivity.
Defined.

(** ** Runs one after another *)




(** ** The forced run *)




(** X14: the forced run on a source tab without data rows.  It looks
    up the tracking column before it looks at the rows, so on a source
    tab with no cell at all it stops with an exception where the normal
    run shows its alert, and on a source tab that holds a header only
    it writes the tracking header, if there is none yet, before it ends
    with the same alert as the normal run, which writes nothing. *)
Theorem force_without_data_rows :
  (forall (fails : Faults) (ss : Workbook) (src : Sheet),
      ss !! SA_SOURCE_SHEET = Some src ->
      getLastColumn src = 0 ->
      pushSADataToTeamSheets_FORCE_With fails ss = (ss, Exception None)
      /\ (getLastRow src < 2 ->
          pushSADataToTeamSheetsWith fails ss = (ss, AlertNoData)))
  /\ (forall (fails : Faults) (ss : Workbook) (src : Sheet),
        ss !! SA_SOURCE_SHEET = Some src ->
        getLastRow src = 1 ->
        1 <= getLastColumn src ->
        exists tci src1,
          getOrCreateTrackingColumn src (getLastColumn src) = Some (tci, src1)
          /\ trackingAt src1 tci
          /\ pushSADataToTeamSheets_FORCE_With fails ss
             = (<[ SA_SOURCE_SHEET := src1 ]> ss, AlertNoData)
          /\ pushSADataToTeamSheetsWith fails ss = (ss, AlertNoData))
  /\ pushSADataToTeamSheets_FORCE bookHeaderOnly
     = (<[ SA_SOURCE_SHEET := [[VStr "Team"; VStr "Score"; VStr SA_TRACKING_COL]] ]> ∅,
        AlertNoData)
  /\ pushSADataToTeamSheets bookHeaderOnly = (bookHeaderOnly, AlertNoData).
Proof.
  split; [|split; [|split; vm_compute; reflexivity]].
  - intros fails ss src Hsrc Hcols. split.
    + unfold pushSADataToTeamSheets_FORCE_With. rewrite Hsrc, Hcols.
      rewrite getOrCreateTrackingColumn_zero. reflexivity.
    + intros Hrows. unfold pushSADataToTeamSheetsWith. rewrite Hsrc.
      replace (getLastRow src <? 2) with true
        by (symmetry; apply Nat.ltb_lt; exact Hrows).
      reflexivity.
  - intros fails ss src Hsrc Hrows Hcols.
    destruct (getOrCreateTrackingColumn src (getLastColumn src)) as [[tci src1]|] eqn:Hcol.
    2:{ rewrite getOrCreateTrackingColumn_unfold in Hcol by lia.
        destruct (findTracking _ _); discriminate. }
    destruct (getOrCreateTrackingColumn_post src _ tci src1 (Nat.le_refl _) Hcol)
      as [Ht _].
    pose proof (getLastRow_tracking src src1 _ tci ltac:(lia) Hcol) as Hn1.
    exists tci, src1. split; [reflexivity|]. split; [exact Ht|]. split.
    + unfold pushSADataToTeamSheets_FORCE_With. rewrite Hsrc, Hcol, Hrows.
      simpl Nat.ltb. cbv iota. unfold pushSADataToTeamSheetsWith.
      rewrite lookup_insert_eq, Hn1, Hrows. reflexivity.
    + unfold pushSADataToTeamSheetsWith. rewrite Hsrc, Hrows. reflexivity.
Qed.

(** ** How a run ends *)

(** X15: the ways a run can end.  The alert for a missing source tab
    is shown exactly when the workbook has no tab of that name, the
    alert for missing data exactly when the source tab has fewer than
    two rows, and in both cases the workbook is left as it was.  As the
    script is configured, the alert for an invalid team column is never
    shown.  The forced run returns without a word exactly when there is
    no source tab, and never shows the alert for it. *)
Theorem run_outcomes :
  forall (fails : Faults) (ss : Workbook),
    ((pushSADataToTeamSheetsWith fails ss).2 = AlertNoSheet
     <-> ss !! SA_SOURCE_SHEET = None)
    /\ ((pushSADataToTeamSheetsWith fails ss).2 = AlertNoData
        <-> exists src, ss !! SA_SOURCE_SHEET = Some src /\ getLastRow src < 2)
    /\ ((pushSADataToTeamSheetsWith fails ss).2 = AlertNoSheet
        \/ (pushSADataToTeamSheetsWith fails ss).2 = AlertNoData ->
        (pushSADataToTeamSheetsWith fails ss).1 = ss)
    /\ (pushSADataToTeamSheetsWith fails ss).2 <> AlertBadColumn
    /\ (pushSADataToTeamSheetsWith fails ss).2 <> Returned
    /\ ((pushSADataToTeamSheets_FORCE_With fails ss).2 = Returned
        <-> ss !! SA_SOURCE_SHEET = None)
    /\ (pushSADataToTeamSheets_FORCE_With fails ss).2 <> AlertNoSheet.
Proof.
  intros fails ss.
  destruct (pushSADataToTeamSheetsWith fails ss) as [ss1 out] eqn:H.
  destruct (pushSADataToTeamSheets_FORCE_With fails ss) as [ss1' out'] eqn:H'.
  cbn [fst snd].
  assert (Hrun : forall w w1 o,
             pushSADataToTeamSheetsWith fails w = (w1, o) ->
             (o = AlertNoSheet <-> w !! SA_SOURCE_SHEET = None)
             /\ (o = AlertNoData
                 <-> exists src, w !! SA_SOURCE_SHEET = Some src /\ getLastRow src < 2)
             /\ (o = AlertNoSheet \/ o = AlertNoData -> w1 = w)
             /\ o <> AlertBadColumn /\ o <> Returned).
  { clear. intros w w1 o H.
    destruct (run_cases fails w w1 o H)
      as [[-> [[Hno ->]|[(src & Hs & Hr & ->)|(src & Hs & Hr & _ & ->)]]]|Hrun].
    - split; [split; auto|].
      split; [split; [discriminate | intros (src & Hs & _); congruence]|].
      split; [auto|]. split; discriminate.
    - split; [split; [discriminate | congruence]|].
      split; [split; [eauto | reflexivity]|].
      split; [auto|]. split; discriminate.
    - split; [split; [discriminate | congruence]|].
      split; [split; [discriminate|]|].
      { intros (src0 & Hs0 & Hr0). rewrite Hs in Hs0. injection Hs0 as <-. lia. }
      split; [intros [Ho|Ho]; discriminate Ho|]. split; discriminate.
    - destruct Hrun as (src & tci & src' & Hs & Hr & _ & Hloop).
      assert (Ho : o <> AlertNoSheet /\ o <> AlertNoData
                   /\ o <> AlertBadColumn /\ o <> Returned).
      { destruct (loop fails tci (int 1) 1 _ _); destruct Hloop as [_ ->];
          repeat split; discriminate. }
      destruct Ho as (O1 & O2 & O3 & O4).
      split; [split; [intros E; contradiction | congruence]|].
      split; [split; [intros E; contradiction|]|].
      { intros (src0 & Hs0 & Hr0). rewrite Hs in Hs0. injection Hs0 as <-. lia. }
      split; [intros [E|E]; contradiction|]. split; assumption. }
  destruct (Hrun ss ss1 out H) as (A1 & A2 & A3 & A4 & A5).
  split; [exact A1|]. split; [exact A2|]. split; [exact A3|].
  split; [exact A4|]. split; [exact A5|].
  destruct (FORCE_cases fails ss ss1' out' H')
    as [[_ [[Hno ->]|(src & Hs & _ & ->)]]|Hf].
  - split; [tauto | discriminate].
  - split; [split; [discriminate | congruence] | discriminate].
  - destruct Hf as (src & tci & src1 & Hs & _ & Hf).
    destruct (Hrun _ ss1' out' Hf) as (B1 & _ & _ & _ & B5).
    split; [split; [intros E; contradiction | congruence]|].
    intros E. apply B1 in E. rewrite lookup_insert_eq in E. discriminate.
Qed.

(** ** What is pasted *)

(** X16: the tracking column is not copied.  In the row that the body
    pastes into a team tab, no cell from the column of the tracking
    index on holds a value: the mark of the source tab, and whatever
    the source tab holds to the right of the tracking column, never
    reaches a team tab. *)
Theorem paste_leaves_out_tracking_column (fails : Faults) (tci : nat) (tc : Value)
  (r : nat) (row : list Value) (st st' : LoopState) :
  processRow fails tci tc r row st = Next st' ->
  pushed st' = S (pushed st) ->
  exists cursor dst',
    findLastContentRow (default [] (wb st !! teamStrOf tc row)) = Some cursor
    /\ wb st' !! teamStrOf tc row = Some dst'
    /\ forall c, tci <= c ->
                 cellHasContent (cellAt dst' (cursor + SA_ROWS_GAP + 1) c) = false.
Proof.
  intros H Hp.
  destruct (processRow_pushed_inv fails tci tc r row st st' H) as (Hm & Hk & Hv);
    [lia|].
  destruct (processRow_valid_Next fails tci tc r row st st' Hm Hk Hv H)
    as (cursor & s & Hcur & Hlen & Htci & Hsrc & _ & _ & ->).
  eexists cursor, _. split; [exact Hcur|]. split.
  { simpl. rewrite lookup_insert_ne
      by (intros E; symmetry in E; revert E; apply teamStr_not_source; exact Hv).
    apply lookup_insert_eq. }
  intros c Hc. rewrite cellAt_setRowCells by lia.
  rewrite decide_False by (rewrite length_take; lia).
  destruct (findLastContentRow_content _ cursor Hcur) as [Hall _].
  destruct (cellHasContent (cellAt _ (cursor + SA_ROWS_GAP + 1) c)) eqn:E;
    [|reflexivity].
  assert (cursor + SA_ROWS_GAP + 1 <= cursor) by (apply Hall; exists c; exact E).
  lia.
Qed.

Lemma paste_leaves_out_tracking_column_witness :
  exists cursor dst',
    findLastContentRow (default [] (wb exampleState !! teamStrOf (int 1) exampleRow))
    = Some cursor
    /\ wb exampleStateAfter !! teamStrOf (int 1) exampleRow = Some dst'
    /\ forall c, 3 <= c ->
                 cellHasContent (cellAt dst' (cursor + SA_ROWS_GAP + 1) c) = false.
Proof.
  exact (paste_leaves_out_tracking_column noFaults 3 (int 1) 1 exampleRow
           exampleState exampleStateAfter eq_refl eq_refl).
Defined.







